(** * The deterministic rule engine and the message resolver

    A shallow embedding of [engine/rule_engine.py] and
    [engine/message_resolver.py]: JSON values as an inductive type, Python's
    string and comparison primitives as functions on them, exceptions as an
    explicit result type, and the two classes as records with their methods
    as functions on those records.  Around them, what feeds them and what
    calls them: the mock data sources of [engine/data_sources.py], the
    keyword extraction of [engine/context_extractor.py], the two pipeline
    functions of [api/chat.py] with the response model of [api/models.py],
    and the validation helpers of [api/admin.py]. *)

From Stdlib Require Import List String Ascii ZArith Bool Arith Lia.
From Stdlib Require Import SpecFloat DecimalString Sorted Permutation.
From Stdlib Require OrderedTypeEx.
Import ListNotations.

#[local] Set Warnings "-register-all".

Local Open Scope string_scope.
Local Open Scope list_scope.

(* ================================================================== *)
(** ** Python strings *)

(** A [str] is a sequence of code points; the embedding covers the code
    points 0..255, one [ascii] each. *)
Module PyStr.

Definition nl : string := String "010"%char EmptyString.

(** [str.isspace] on one code point below 256. *)
Definition is_space (c : ascii) : bool :=
  let n := nat_of_ascii c in
  (((9 <=? n) && (n <=? 13)) || ((28 <=? n) && (n <=? 32))
   || (n =? 133) || (n =? 160))%nat.

(** [str.lower] on one code point below 256: A-Z and the Latin-1 capitals
    (all of 192..222 but the multiplication sign 215) move up by 32. *)
Definition lower_char (c : ascii) : ascii :=
  let n := nat_of_ascii c in
  if (((65 <=? n) && (n <=? 90))
      || ((192 <=? n) && (n <=? 222) && negb (n =? 215)))%nat
  then ascii_of_nat (n + 32) else c.

Fixpoint lower (s : string) : string :=
  match s with
  | EmptyString => EmptyString
  | String c s' => String (lower_char c) (lower s')
  end.

Fixpoint lstrip (s : string) : string :=
  match s with
  | EmptyString => EmptyString
  | String c s' => if is_space c then lstrip s' else s
  end.

Fixpoint rstrip (s : string) : string :=
  match s with
  | EmptyString => EmptyString
  | String c s' =>
      match rstrip s' with
      | EmptyString => if is_space c then EmptyString else String c EmptyString
      | r => String c r
      end
  end.

(** [s.strip()] *)
Definition strip (s : string) : string := rstrip (lstrip s).

Fixpoint drop (n : nat) (s : string) : string :=
  match n, s with
  | S k, String _ s' => drop k s'
  | _, _ => s
  end.

(** [sub in s] for a non-empty [sub]. *)
Fixpoint contains (sub s : string) : bool :=
  match s with
  | EmptyString => false
  | String _ s' => prefix sub s || contains sub s'
  end.

(** The scan behind [s.split(sep)] and [s.split(sep, maxsplit)] for a
    non-empty [sep]: [budget] is the number of cuts still allowed ([None]:
    no limit), [skip] the number of characters of a separator just cut that
    are still to be passed over, [cur] the piece being collected. *)
Fixpoint split_go (sep : string) (budget : option nat) (skip : nat)
         (cur : string) (s : string) : list string :=
  match s with
  | EmptyString => [cur]
  | String c s' =>
      match skip with
      | S k => split_go sep budget k cur s'
      | O =>
          let allowed := match budget with Some O => false | _ => true end in
          if allowed && prefix sep s
          then cur :: split_go sep (option_map pred budget)
                               (String.length sep - 1) EmptyString s'
          else split_go sep budget O (cur ++ String c EmptyString) s'
      end
  end.

Definition split (sep s : string) : list string :=
  split_go sep None 0 EmptyString s.

Definition split_max (sep : string) (maxsplit : nat) (s : string) : list string :=
  split_go sep (Some maxsplit) 0 EmptyString s.

(** [sep.join(parts)] *)
Definition join (sep : string) (parts : list string) : string :=
  String.concat sep parts.

End PyStr.

(* ================================================================== *)
(** ** JSON values and the Python operations on them *)

Module Json.

(** What [json.load] produces and what callers hand in: [None], booleans,
    integers, floats (a binary64 value, as a [spec_float]), strings, lists,
    and dicts with string keys.  A dict is the sequence of its items; where
    a key occurs twice the first occurrence is the dict's item. *)
Inductive value : Type :=
| VNone
| VBool (b : bool)
| VInt (z : Z)
| VFloat (f : spec_float)
| VStr (s : string)
| VList (l : list value)
| VDict (d : list (string * value)).

Definition dict : Type := list (string * value).

Fixpoint dict_get (k : string) (d : dict) : option value :=
  match d with
  | [] => None
  | (k', v) :: d' => if String.eqb k k' then Some v else dict_get k d'
  end.

(** [k in d] *)
Definition dict_has (k : string) (d : dict) : bool :=
  match dict_get k d with Some _ => true | None => false end.

(** [d.get(k, default)] for a string key. *)
Definition dict_get_default (k : string) (d : dict) (default : value) : value :=
  match dict_get k d with Some v => v | None => default end.

(** [d[k]], read only where [k in d] has been tested. *)
Definition dict_item (k : string) (d : dict) : value :=
  dict_get_default k d VNone.

Definition mem_string (k : string) (l : list string) : bool :=
  existsb (String.eqb k) l.

(** The items of the dict, in order, each key once. *)
Fixpoint dict_items_from (seen : list string) (d : dict) : dict :=
  match d with
  | [] => []
  | (k, v) :: d' =>
      if mem_string k seen then dict_items_from seen d'
      else (k, v) :: dict_items_from (k :: seen) d'
  end.

Definition dict_items (d : dict) : dict := dict_items_from [] d.
Definition dict_keys (d : dict) : list string := map fst (dict_items d).
Definition dict_values (d : dict) : list value := map snd (dict_items d).

(** Numbers: [bool] is a subclass of [int], so [True == 1]. *)
Inductive number : Type :=
| NInt (z : Z)
| NFloat (f : spec_float).

Definition number_of (v : value) : option number :=
  match v with
  | VBool b => Some (NInt (if b then 1 else 0))
  | VInt z => Some (NInt z)
  | VFloat f => Some (NFloat f)
  | _ => None
  end.

(** [int == float] compares the exact values: the float is
    [(-1)^s * m * 2^e]. *)
Definition int_eq_float (z : Z) (f : spec_float) : bool :=
  match f with
  | S754_zero _ => Z.eqb z 0
  | S754_finite s m e =>
      let sm := if s then Z.neg m else Z.pos m in
      if Z.leb 0 e then Z.eqb z (sm * 2 ^ e)
      else Z.eqb (z * 2 ^ (- e)) sm
  | _ => false
  end.

Definition number_eqb (x y : number) : bool :=
  match x, y with
  | NInt a, NInt b => Z.eqb a b
  | NInt a, NFloat f => int_eq_float a f
  | NFloat f, NInt b => int_eq_float b f
  | NFloat f, NFloat g => SFeqb f g
  end.

(** [a == b].  Object identity is not part of the embedding, so the
    shortcut [x is y] that [in] and list comparison take before [==] is
    not modelled; it changes a result only when one NaN object is met on
    both sides. *)
Fixpoint py_eq (a b : value) {struct a} : bool :=
  match a, b with
  | VNone, VNone => true
  | VStr s, VStr t => String.eqb s t
  | VList l, VList m =>
      (fix all2 (l : list value) (m : list value) {struct l} : bool :=
         match l, m with
         | [], [] => true
         | x :: l', y :: m' => py_eq x y && all2 l' m'
         | _, _ => false
         end) l m
  | VDict d, VDict e =>
      Nat.eqb (List.length (dict_keys d)) (List.length (dict_keys e))
      && (fix items (seen : list string) (d : list (string * value))
              {struct d} : bool :=
            match d with
            | [] => true
            | (k, v) :: d' =>
                if mem_string k seen then items seen d'
                else match dict_get k e with
                     | Some w => py_eq v w && items (k :: seen) d'
                     | None => false
                     end
            end) [] d
  | _, _ =>
      match number_of a, number_of b with
      | Some x, Some y => number_eqb x y
      | _, _ => false
      end
  end.

(** [x in seq] over the elements of a tuple or list. *)
Definition py_in (x : value) (seq : list value) : bool :=
  existsb (py_eq x) seq.

(** [int < float] and [float < int] compare the exact values; a comparison
    with NaN is false. *)
Definition int_lt_float (z : Z) (f : spec_float) : bool :=
  match f with
  | S754_zero _ => Z.ltb z 0
  | S754_infinity negative => negb negative
  | S754_nan => false
  | S754_finite s m e =>
      let sm := if s then Z.neg m else Z.pos m in
      if Z.leb 0 e then Z.ltb z (sm * 2 ^ e)
      else Z.ltb (z * 2 ^ (- e)) sm
  end.

Definition float_lt_int (f : spec_float) (z : Z) : bool :=
  match f with
  | S754_zero _ => Z.ltb 0 z
  | S754_infinity negative => negative
  | S754_nan => false
  | S754_finite s m e =>
      let sm := if s then Z.neg m else Z.pos m in
      if Z.leb 0 e then Z.ltb (sm * 2 ^ e) z
      else Z.ltb sm (z * 2 ^ (- e))
  end.

Definition number_ltb (x y : number) : bool :=
  match x, y with
  | NInt a, NInt b => Z.ltb a b
  | NInt a, NFloat f => int_lt_float a f
  | NFloat f, NInt b => float_lt_int f b
  | NFloat f, NFloat g => SFltb f g
  end.

(** [bool(v)] *)
Definition truthy (v : value) : bool :=
  match v with
  | VNone => false
  | VBool b => b
  | VInt z => negb (Z.eqb z 0)
  | VFloat (S754_zero _) => false
  | VFloat _ => true
  | VStr s => negb (String.eqb s "")
  | VList l => match l with [] => false | _ => true end
  | VDict d => match d with [] => false | _ => true end
  end.

Definition is_none (v : value) : bool :=
  match v with VNone => true | _ => false end.

(** [str(v)].  For a float, a list or a dict it is Python's [repr], which
    the embedding takes as given ([repr_compound]). *)
Definition py_str (repr_compound : value -> string) (v : value) : string :=
  match v with
  | VNone => "None"
  | VBool true => "True"
  | VBool false => "False"
  | VInt z => NilZero.string_of_int (Z.to_int z)
  | VStr s => s
  | _ => repr_compound v
  end.

End Json.

(* ================================================================== *)
(** ** Exceptions *)

(** What a call does: it returns, it raises an exception out of malformed
    data ([TypeError], [AttributeError], [KeyError], an I/O or a parse
    error), or it runs into the interpreter's recursion limit
    ([RecursionError]).  All of them derive from [Exception], which is all
    the handler in [evaluate] looks at; the recursion limit is kept apart
    only because termination is stated with it. *)
Inductive result (A : Type) : Type :=
| Ok (a : A)
| Raised
| RecursionLimit.

Arguments Ok {A} a.
Arguments Raised {A}.
Arguments RecursionLimit {A}.

Definition bind {A B : Type} (r : result A) (k : A -> result B) : result B :=
  match r with
  | Ok a => k a
  | Raised => Raised
  | RecursionLimit => RecursionLimit
  end.

Notation "x <- e ;; k" := (bind e (fun x => k))
  (at level 61, e at next level, right associativity).

Import Json.

(** [obj.get(key, default)]: [obj] has to be a dict and [key] hashable; a
    hashable key that is not a string is no key of a JSON dict. *)
Definition py_get (obj key default : value) : result value :=
  match obj with
  | VDict d =>
      match key with
      | VStr k => Ok (dict_get_default k d default)
      | VList _ | VDict _ => Raised
      | _ => Ok default
      end
  | _ => Raised
  end.

(** [iter(v)]: the elements of a list, the keys of a dict, the characters of
    a string; nothing else of JSON is iterable. *)
Definition py_iter (v : value) : result (list value) :=
  match v with
  | VList l => Ok l
  | VDict d => Ok (map VStr (dict_keys d))
  | VStr s => Ok (map (fun c => VStr (String c EmptyString)) (list_ascii_of_string s))
  | _ => Raised
  end.

(** [all(f(c) for c in l)]: left to right, stopping at the first false. *)
Fixpoint py_all (f : value -> result bool) (l : list value) : result bool :=
  match l with
  | [] => Ok true
  | c :: l' => b <- f c ;; if b then py_all f l' else Ok false
  end.

(** [any(f(c) for c in l)]: left to right, stopping at the first true. *)
Fixpoint py_any (f : value -> result bool) (l : list value) : result bool :=
  match l with
  | [] => Ok false
  | c :: l' => b <- f c ;; if b then Ok true else py_any f l'
  end.

(** [a < b]: between two numbers, between two strings (by code point), and
    between two lists (at the first place where they are not equal, or by
    length); anything else, [None] and dicts included, is a [TypeError]. *)
Fixpoint py_lt (a b : value) {struct a} : result bool :=
  match a, b with
  | VStr s, VStr t => Ok (String.ltb s t)
  | VList l, VList m =>
      (fix lex (l : list value) (m : list value) {struct l} : result bool :=
         match l, m with
         | [], [] => Ok false
         | [], _ :: _ => Ok true
         | _ :: _, [] => Ok false
         | x :: l', y :: m' => if py_eq x y then lex l' m' else py_lt x y
         end) l m
  | _, _ =>
      match number_of a, number_of b with
      | Some x, Some y => Ok (number_ltb x y)
      | _, _ => Raised
      end
  end.

(** [sorted(l, key=key)].  [sorted] is stable and looks at the keys through
    [<] alone, so on keys that [<] orders every stable sort gives its list;
    the embedding sorts by insertion from the front, an element moving past
    those that are less than it.  A list of one element, or of none, is
    returned without any comparison.  Which pairs [sorted] compares is its
    own business, but like the insertion it compares every element with
    some other one: keys that no [<] relates (numbers with strings, [None]
    or a dict with anything) raise in both.  The two can differ only where
    [<] is no order at all: on a key that is NaN, or on keys that are lists
    of which some pairs compare and others raise. *)
Fixpoint insert_sorted {A : Type} (key : A -> value) (x : A) (l : list A)
  : result (list A) :=
  match l with
  | [] => Ok [x]
  | y :: l' =>
      less <- py_lt (key y) (key x) ;;
      if less then (rest <- insert_sorted key x l' ;; Ok (y :: rest))
      else Ok (x :: l)
  end.

Fixpoint py_sorted {A : Type} (key : A -> value) (l : list A)
  : result (list A) :=
  match l with
  | [] => Ok []
  | x :: l' => sorted_rest <- py_sorted key l' ;; insert_sorted key x sorted_rest
  end.

(* ================================================================== *)
(** ** [engine/rule_engine.py] *)

Module RuleEngine.

(** The context is a dict; the data-source results map a source name to the
    dict that source returned. *)
Definition source_results : Type := list (string * dict).

Fixpoint source_get (name : string) (ds : source_results) : option dict :=
  match ds with
  | [] => None
  | (n, d) :: ds' => if String.eqb name n then Some d else source_get name ds'
  end.

(** [ds.get(source_name, {})] *)
Definition ds_get (ds : source_results) (source_name : value) : result dict :=
  match source_name with
  | VStr n => Ok (match source_get n ds with Some d => d | None => [] end)
  | VList _ | VDict _ => Raised
  | _ => Ok []
  end.

Definition _normalize (val : value) : value :=
  match val with
  | VNone => VNone
  | VBool b => VBool b
  | VStr s =>
      let low := PyStr.strip (PyStr.lower s) in
      if String.eqb low "true" then VBool true
      else if String.eqb low "false" then VBool false
      else VStr low
  | _ => val
  end.

(** The tuple [(None, "", [], False, 0)]. *)
Definition empty_values : list value :=
  [VNone; VStr ""; VList []; VBool false; VInt 0].

Definition _compare (actual expected op : value) : bool :=
  if py_in op [VStr "eq"; VStr "equals"] then
    py_eq (_normalize actual) (_normalize expected)
  else if py_in op [VStr "neq"; VStr "not_equals"] then
    negb (py_eq (_normalize actual) (_normalize expected))
  else if py_eq op (VStr "in") then
    match expected with
    | VList es => py_in (_normalize actual) (map _normalize es)
    | _ => py_eq (_normalize actual) (_normalize expected)
    end
  else if py_eq op (VStr "not_in") then
    match expected with
    | VList es => negb (py_in (_normalize actual) (map _normalize es))
    | _ => negb (py_eq (_normalize actual) (_normalize expected))
    end
  else if py_eq op (VStr "is_empty") then
    py_in actual empty_values
  else if py_eq op (VStr "is_not_empty") then
    negb (py_in actual empty_values)
  else if py_eq op (VStr "exists_with_value") then
    negb (is_none actual) && negb (py_eq actual (VStr ""))
    && negb (py_eq actual (VList []))
  else if py_eq op (VStr "is_empty_or_false") then
    py_in actual (empty_values ++ [VStr "false"; VStr "False"])
  else false.

(** The [for part in parts] loop of [_get_field]; [last_part] is
    [parts[-1]] of the whole path. *)
Fixpoint get_field_loop (context : dict) (last_part : string)
         (parts : list string) (current : value) : value :=
  match parts with
  | [] => current
  | part :: rest =>
      match current with
      | VDict d =>
          match dict_get part d with
          | Some v => get_field_loop context last_part rest v
          | None => dict_get_default last_part context VNone
          end
      | _ => dict_get_default last_part context VNone
      end
  end.

(** A [field] that is no string raises: unhashable in [field in context],
    or without [split]. *)
Definition _get_field (context : dict) (field : value) : result value :=
  match field with
  | VStr f =>
      match dict_get f context with
      | Some v => Ok v
      | None =>
          let parts := PyStr.split "." f in
          Ok (get_field_loop context (last parts "") parts (VDict context))
      end
  | _ => Raised
  end.

(** The tuple [(None, "", [])]. *)
Definition blank_values : list value := [VNone; VStr ""; VList []].

Definition _evaluate_condition (cond context : dict) (ds : source_results)
  : result bool :=
  let op := dict_get_default "op" cond (VStr "eq") in
  if dict_has "source" cond && negb (dict_has "field" cond) then
    source_data <- ds_get ds (dict_item "source" cond) ;;
    let nonempty := match source_data with [] => false | _ => true end in
    if py_eq op (VStr "is_not_empty") then
      Ok (nonempty
          && existsb (fun v => negb (py_in v blank_values)) (dict_values source_data))
    else if py_eq op (VStr "is_empty") then
      Ok (negb nonempty
          || forallb (fun v => py_in v blank_values) (dict_values source_data))
    else Ok nonempty
  else if dict_has "source" cond && dict_has "field" cond then
    source_data <- ds_get ds (dict_item "source" cond) ;;
    actual <- py_get (VDict source_data) (dict_item "field" cond) VNone ;;
    Ok (_compare actual (dict_get_default "val" cond VNone) op)
  else
    actual <- _get_field context (dict_get_default "field" cond (VStr "")) ;;
    Ok (_compare actual (dict_get_default "val" cond VNone) op).

(** [depth] bounds the nesting of calls of [_evaluate_block], as the
    interpreter's recursion limit does.  A block that is no dict raises in
    every case: on the first [in] test when it is [None], a boolean or a
    number, on a subscript or on [cond.get] when it is a string or a list. *)
Fixpoint _evaluate_block (depth : nat) (templates : value) (block : value)
         (context : dict) (ds : source_results) {struct depth} : result bool :=
  match depth with
  | O => RecursionLimit
  | S depth' =>
      match block with
      | VDict b =>
          if dict_has "use_template" b then
            template <- py_get templates (dict_item "use_template" b) VNone ;;
            match template with
            | VNone => Ok false
            | _ => _evaluate_block depth' templates template context ds
            end
          else if dict_has "all" b then
            children <- py_iter (dict_item "all" b) ;;
            py_all (fun c => _evaluate_block depth' templates c context ds) children
          else if dict_has "any" b then
            children <- py_iter (dict_item "any" b) ;;
            py_any (fun c => _evaluate_block depth' templates c context ds) children
          else if dict_has "not" b then
            r <- _evaluate_block depth' templates (dict_item "not" b) context ds ;;
            Ok (negb r)
          else _evaluate_condition b context ds
      | _ => Raised
      end
  end.

(** The dict [evaluate] returns. *)
Record MatchResult : Type := {
  rule_id : value;
  parent_rule_id : option value;
  name : value;
  message_ref : value;
  placeholders : value;
  priority : value;
  tags : value
}.

Definition rule_id_of (rule : dict) : value :=
  dict_get_default "id" rule (VStr "unknown").

Definition sub_match (rule sub : dict) : MatchResult :=
  {| rule_id := dict_get_default "id" sub (rule_id_of rule);
     parent_rule_id := Some (rule_id_of rule);
     name := dict_get_default "name" rule (VStr "");
     message_ref :=
       dict_get_default "message_ref" sub (dict_get_default "message_ref" rule VNone);
     placeholders :=
       dict_get_default "placeholders" sub
         (dict_get_default "placeholders" rule (VList []));
     priority := dict_get_default "priority" rule VNone;
     tags := dict_get_default "tags" rule (VList []) |}.

Definition parent_match (rule : dict) : MatchResult :=
  {| rule_id := rule_id_of rule;
     parent_rule_id := None;
     name := dict_get_default "name" rule (VStr "");
     message_ref := dict_get_default "message_ref" rule (VStr "");
     placeholders := dict_get_default "placeholders" rule (VList []);
     priority := dict_get_default "priority" rule VNone;
     tags := dict_get_default "tags" rule (VList []) |}.

Definition conditions_of (r : dict) : value :=
  dict_get_default "conditions" r (VDict []).

(** [for sub in sub_rules]: the first sub-rule whose conditions hold, if
    there is one.  A [sub] that is no dict has no [get]. *)
Fixpoint sub_rules_loop (depth : nat) (templates : value) (rule : dict)
         (subs : list value) (context : dict) (ds : source_results)
  : result (option MatchResult) :=
  match subs with
  | [] => Ok None
  | VDict sub :: rest =>
      b <- _evaluate_block depth templates (conditions_of sub) context ds ;;
      if b then Ok (Some (sub_match rule sub))
      else sub_rules_loop depth templates rule rest context ds
  | _ :: _ => Raised
  end.

(** The body of the [try] for one rule: [Ok (Some m)] is [return m],
    [Ok None] is falling out of the [if]. *)
Definition try_rule (depth : nat) (templates : value) (rule : dict)
           (context : dict) (ds : source_results) : result (option MatchResult) :=
  b <- _evaluate_block depth templates (conditions_of rule) context ds ;;
  if b then
    let sub_rules := dict_get_default "sub_rules" rule (VList []) in
    if truthy sub_rules then
      subs <- py_iter sub_rules ;;
      found <- sub_rules_loop depth templates rule subs context ds ;;
      match found with
      | Some m => Ok (Some m)
      | None => Ok (Some (parent_match rule))
      end
    else Ok (Some (parent_match rule))
  else Ok None.

(** [for rule in self.rules]: an exception in the body is caught and the
    loop goes on with the next rule. *)
Fixpoint evaluate_loop (depth : nat) (templates : value) (rules : list dict)
         (context : dict) (ds : source_results) : option MatchResult :=
  match rules with
  | [] => None
  | rule :: rest =>
      match try_rule depth templates rule context ds with
      | Ok (Some m) => Some m
      | _ => evaluate_loop depth templates rest context ds
      end
  end.

(** The state of the object: [self.config], [self.rules],
    [self.templates], [self.data_sources]. *)
Record t : Type := {
  config : value;
  rules : list dict;
  templates : value;
  data_sources : value
}.

(** [depth] is the recursion limit the interpreter runs with. *)
Definition evaluate (depth : nat) (self : t) (context : dict)
           (data_source_results : option source_results) : option MatchResult :=
  let ds := match data_source_results with Some d => d | None => [] end in
  evaluate_loop depth self.(templates) self.(rules) context ds.

(** [[r for r in items if r.get("active", True)]] *)
Fixpoint active_rules (items : list value) : result (list dict) :=
  match items with
  | [] => Ok []
  | VDict r :: rest =>
      keep <- active_rules rest ;;
      Ok (if truthy (dict_get_default "active" r (VBool true)) then r :: keep else keep)
  | _ :: _ => Raised
  end.

(** The sort key, [lambda r: r.get("priority", 999)]. *)
Definition priority_key (r : dict) : value :=
  dict_get_default "priority" r (VInt 999).

(** [sorted(rs, key=lambda r: r.get("priority", 999))] *)
Definition sorted_by_priority (rs : list dict) : result (list dict) :=
  py_sorted priority_key rs.

(** The expression both [__init__] and [reload] assign to [self.rules]. *)
Definition build_rules (config : value) : result (list dict) :=
  rules_raw <- py_get config (VStr "rules") (VList []) ;;
  items <- py_iter rules_raw ;;
  active <- active_rules items ;;
  sorted_by_priority active.

(** [loaded] is what [_load_rules] gives, [None] when the file cannot be
    opened or parsed. *)
Definition __init__ (loaded : option value) : result t :=
  match loaded with
  | None => Raised
  | Some cfg =>
      rs <- build_rules cfg ;;
      tpl <- py_get cfg (VStr "condition_templates") (VDict []) ;;
      dsc <- py_get cfg (VStr "data_sources") (VDict []) ;;
      Ok {| config := cfg; rules := rs; templates := tpl;
            data_sources := dsc |}
  end.

(** [reload]: the object after the call, and whether the call returned.
    The three assignments happen one after the other, so an exception
    leaves the object with those already made. *)
Definition reload (self : t) (loaded : option value) : t * result unit :=
  match loaded with
  | None => (self, Raised)
  | Some cfg =>
      let self1 := {| config := cfg; rules := self.(rules);
                      templates := self.(templates);
                      data_sources := self.(data_sources) |} in
      match build_rules cfg with
      | Ok rs =>
          let self2 := {| config := cfg; rules := rs;
                          templates := self.(templates);
                          data_sources := self.(data_sources) |} in
          match py_get cfg (VStr "condition_templates") (VDict []) with
          | Ok tpl =>
              ({| config := cfg; rules := rs; templates := tpl;
                  data_sources := self.(data_sources) |}, Ok tt)
          | _ => (self2, Raised)
          end
      | _ => (self1, Raised)
      end
  end.

(** One entry of the list [get_all_rules] returns. *)
Definition rule_summary (r : dict) : dict :=
  [("id", dict_get_default "id" r VNone);
   ("name", dict_get_default "name" r VNone);
   ("priority", dict_get_default "priority" r VNone);
   ("active", dict_get_default "active" r (VBool true));
   ("tags", dict_get_default "tags" r (VList []));
   ("message_ref", dict_get_default "message_ref" r VNone)].

Definition get_all_rules (self : t) : list dict :=
  map rule_summary self.(rules).

(** [for r in self.rules: if r.get("id") == rule_id: return r] *)
Fixpoint rule_by_id_loop (rs : list dict) (rule_id : value) : option dict :=
  match rs with
  | [] => None
  | r :: rest =>
      if py_eq (dict_get_default "id" r VNone) rule_id then Some r
      else rule_by_id_loop rest rule_id
  end.

Definition get_rule_by_id (self : t) (rule_id : value) : option dict :=
  rule_by_id_loop self.(rules) rule_id.

End RuleEngine.

(* ================================================================== *)
(** ** [engine/message_resolver.py] *)

Module MessageResolver.

(** [self.cache]: template name to body. *)
Definition cache : Type := list (string * string).

Fixpoint cache_get (k : string) (c : cache) : option string :=
  match c with
  | [] => None
  | (k', v) :: c' => if String.eqb k k' then Some v else cache_get k c'
  end.

(** [self.cache[key] = body] *)
Fixpoint cache_set (k : string) (v : string) (c : cache) : cache :=
  match c with
  | [] => [(k, v)]
  | (k', v') :: c' =>
      if String.eqb k k' then (k, v) :: c' else (k', v') :: cache_set k v c'
  end.

(** The frontmatter strip of [_load_all]. *)
Definition strip_frontmatter (content : string) : string :=
  let parts := PyStr.split "---" content in
  if (3 <=? List.length parts)%nat
  then PyStr.strip (PyStr.join "---" (skipn 2 parts))
  else PyStr.strip content.

(** The messages directory as [_load_all] sees it: whether it exists, and
    for each [*.md] file its stem and its text, [None] when [read_text]
    raises (unreadable file, invalid UTF-8). *)
Record directory : Type := {
  dir_exists : bool;
  md_files : list (string * option string)
}.

(** [for md_file in ...glob("*.md")] *)
Fixpoint load_files (files : list (string * option string)) (c : cache)
  : cache * result unit :=
  match files with
  | [] => (c, Ok tt)
  | (key, None) :: _ => (c, Raised)
  | (key, Some content) :: rest =>
      load_files rest (cache_set key (strip_frontmatter content) c)
  end.

Definition _load_all (dir : directory) (c : cache) : cache * result unit :=
  if negb dir.(dir_exists) then (c, Ok tt)
  else load_files dir.(md_files) c.

(** The cache starts empty. *)
Definition __init__ (dir : directory) : cache * result unit := _load_all dir [].

(** [reload]: [self.cache.clear()], then [_load_all]. *)
Definition reload (dir : directory) (self : cache) : cache * result unit :=
  _load_all dir [].

(** The group of [\{\{(.+?)\}\}] when the text after [{{] is [s]: at least
    one character, none of them a newline, up to the first [}}] after the
    first character. *)
Fixpoint lazy_group (first : bool) (s : string) : option string :=
  match s with
  | EmptyString => None
  | String c s' =>
      if negb first && prefix "}}" s then Some EmptyString
      else if Ascii.eqb c "010"%char then None
      else option_map (String c) (lazy_group false s')
  end.

(** [re.sub(r"\{\{(.+?)\}\}", f, s)]: leftmost matches, one after the
    other; [skip] counts the characters of the current match still to be
    passed over. *)
Fixpoint sub_go (f : string -> string) (skip : nat) (s : string) : string :=
  match s with
  | EmptyString => EmptyString
  | String c s' =>
      match skip with
      | S k => sub_go f k s'
      | O =>
          if prefix "{{" s then
            match lazy_group true (PyStr.drop 2 s) with
            | Some g => f g ++ sub_go f (String.length g + 3) s'
            | None => String c (sub_go f 0 s')
            end
          else String c (sub_go f 0 s')
      end
  end.

Definition re_sub (f : string -> string) (s : string) : string := sub_go f 0 s.

Section Resolve.

(** [markdown.markdown(md, extensions=["tables", "nl2br"])], and [repr]
    of a float, a list or a dict: library functions taken as given. *)
Variable render : string -> string.
Variable repr_compound : value -> string.

Definition str (v : value) : string := py_str repr_compound v.

(** [value = context.get(key); if value is not None: return str(value)] *)
Definition context_str (context : dict) (key : string) : option string :=
  match dict_get_default key context VNone with
  | VNone => None
  | v => Some (str v)
  end.

Definition or_else (a : option string) (b : string) : string :=
  match a with Some s => s | None => b end.

Definition replace_placeholder (context : dict)
           (ds : RuleEngine.source_results) (group : string) : string :=
  let placeholder := PyStr.strip group in
  let direct :=
    or_else (context_str context placeholder) ("[" ++ placeholder ++ "]") in
  if PyStr.contains "." placeholder then
    let parts := PyStr.split_max "." 1 placeholder in
    let source_name := nth 0 parts "" in
    let from_context :=
      or_else (context_str context placeholder)
        (or_else (context_str context (last parts "")) direct) in
    match RuleEngine.source_get source_name ds with
    | Some source =>
        let value := dict_get_default (nth 1 parts "") source (VStr "") in
        if truthy value then str value else from_context
    | None => from_context
    end
  else direct.

(** [resolve]: the pair is the dict [{"markdown": ..., "html": ...}]. *)
Definition resolve (self : cache) (message_ref : string) (context : dict)
           (data_source_results : option RuleEngine.source_results)
  : option (string * string) :=
  match cache_get message_ref self with
  | None => None
  | Some template =>
      let ds := match data_source_results with Some d => d | None => [] end in
      let resolved_md := re_sub (replace_placeholder context ds) template in
      Some (resolved_md, render resolved_md)
  end.

End Resolve.

(** [self.cache.keys()]: each name once, in the order of insertion. *)
Fixpoint cache_keys_from (seen : list string) (c : cache) : list string :=
  match c with
  | [] => []
  | (k, _) :: c' =>
      if mem_string k seen then cache_keys_from seen c'
      else k :: cache_keys_from (k :: seen) c'
  end.

Definition cache_keys (c : cache) : list string := cache_keys_from [] c.

(** [sorted] on strings, which compare by code point and never raise: by
    insertion, as [py_sorted], with [<] on the elements themselves. *)
Fixpoint insert_str (x : string) (l : list string) : list string :=
  match l with
  | [] => [x]
  | y :: l' => if String.ltb y x then y :: insert_str x l' else x :: l
  end.

Fixpoint sort_str (l : list string) : list string :=
  match l with
  | [] => []
  | x :: l' => insert_str x (sort_str l')
  end.

Definition list_templates (self : cache) : list string :=
  sort_str (cache_keys self).

End MessageResolver.

(* ================================================================== *)
(** ** [engine/data_sources.py] *)

Module DataSourceResolver.

Definition fehbp_mailing_address : string :=
  "FEHBP Grievance & Appeals" ++ PyStr.nl ++ "P.O. Box 21542" ++ PyStr.nl
  ++ "Eagan, MN 55121".

Definition _resolve_fehbp (context : dict) : dict :=
  let account_type := dict_get_default "account_type" context (VStr "") in
  let has_fehbp := dict_get_default "has_fehbp_address" context (VBool false) in
  if py_eq account_type (VStr "FEHBP") || truthy has_fehbp then
    [("MailingAddress", VStr fehbp_mailing_address);
     ("AddressHeader", VStr "FEHBP G&A Department");
     ("AddressLine1", VStr "P.O. Box 21542");
     ("AddressLine2", VStr "Eagan, MN 55121");
     ("Department", VStr "Grievance and Appeals")]
  else [].

Definition _resolve_group_details (context : dict) : dict :=
  let funding := dict_get_default "funding_type" context (VStr "") in
  let is_aso := dict_get_default "IsASO" context (VBool false) in
  if truthy is_aso then [("FundingTypeCode", VStr "A")]
  else if py_eq funding (VStr "Fully Insured") then [("FundingTypeCode", VStr "E")]
  else [("FundingTypeCode", VStr "")].

Definition _resolve_account_type (context : dict) : dict :=
  let account := dict_get_default "account_type" context (VStr "") in
  if py_eq account (VStr "SHBP") then [("AccountType", VStr "SHBP")]
  else if py_eq account (VStr "National") then [("AccountType", VStr "National")]
  else if py_eq account (VStr "FEHBP") then [("AccountType", VStr "FEHBP")]
  else if py_in account [VStr "Individual"; VStr "Exchange"]
  then [("AccountType", VStr "Individual")]
  else [("AccountType", VStr "")].

Definition resolve_all (context : dict) : RuleEngine.source_results :=
  [("fehbp_address", _resolve_fehbp context);
   ("group_details", _resolve_group_details context);
   ("account_type", _resolve_account_type context)].

End DataSourceResolver.

(* ================================================================== *)
(** ** [engine/context_extractor.py] *)

Module ContextExtractor.

(** [context[k] = v] *)
Fixpoint dict_set (k : string) (v : value) (d : dict) : dict :=
  match d with
  | [] => [(k, v)]
  | (k', v') :: d' =>
      if String.eqb k k' then (k, v) :: d' else (k', v') :: dict_set k v d'
  end.

Definition state_map : list (string * string) :=
  [("virginia", "VA"); ("california", "CA"); ("nevada", "NV");
   ("georgia", "GA"); ("missouri", "MO"); ("colorado", "CO");
   ("wisconsin", "WI"); ("new york", "NY"); ("texas", "TX");
   ("florida", "FL"); ("ohio", "OH"); ("pennsylvania", "PA")].

(** [for name, code in state_map.items()], left at the first hit. *)
Fixpoint state_loop (msg_lower : string) (states : list (string * string))
         (context : dict) : dict :=
  match states with
  | [] => context
  | (name, code) :: rest =>
      if PyStr.contains name msg_lower
         || PyStr.contains (" " ++ PyStr.lower code ++ " ") (" " ++ msg_lower ++ " ")
      then dict_set "Policy.PolicyState" (VStr code) context
      else state_loop msg_lower rest context
  end.

(** The blocks of [_fallback_extract], each a function of the [context]
    built so far; [has keyword] is [keyword in msg_lower]. *)
Section Keywords.

Variable has : string -> bool.

Definition customer_type (context : dict) : dict :=
  if has "broker" then dict_set "HCCustomerType" (VStr "Broker") context
  else if has "provider" then
    dict_set "ParentName" (VStr "Provider")
      (dict_set "HCCustomerType" (VStr "Provider") context)
  else dict_set "HCCustomerType" (VStr "Member") context.

Definition account_type (context : dict) : dict :=
  if has "fehbp" || has "federal employee" then
    dict_set "has_fehbp_address" (VBool true)
      (dict_set "account_type" (VStr "FEHBP") context)
  else if has "shbp" || has "state health benefit" then
    dict_set "account_type" (VStr "SHBP") context
  else if has "national" then
    dict_set "account_type" (VStr "National")
      (dict_set "Policy.BusinessUnit" (VStr "National") context)
  else if has "individual" || has "exchange" || has "marketplace" then
    dict_set "account_type" (VStr "Individual")
      (dict_set "Policy.MBUCode" (VStr "IND") context)
  else context.

Definition funding_type (context : dict) : dict :=
  if has "aso" || has "self-funded" || has "self funded" then
    dict_set "IsASO" (VBool true) context
  else if has "fully insured" then
    dict_set "funding_type" (VStr "Fully Insured")
      (dict_set "IsASO" (VBool false) context)
  else dict_set "IsASO" (VBool false) context.

Definition expedited (context : dict) : dict :=
  if has "expedited" then dict_set "IsVAExpedited" (VBool true) context
  else context.

Definition written_or_verbal (context : dict) : dict :=
  let context :=
    if has "written" || has "in writing" || has "write" then
      dict_set "IsGandAInWritingAllowed" (VStr "Yes")
        (dict_set "is_written_request" (VBool true) context)
    else context in
  if has "verbal" || has "over the phone" || has "call" then
    dict_set "IsVerbalGandAAllowed" (VStr "Yes") context
  else context.

Definition request_type (context : dict) : dict :=
  if has "appeal" && has "grievance" then
    dict_set "request_type" (VStr "both") context
  else if has "appeal" then dict_set "request_type" (VStr "appeal") context
  else dict_set "request_type" (VStr "grievance") context.

End Keywords.

(** The keyword extraction [extract] falls back on; an extractor without a
    client does nothing else. *)
Definition _fallback_extract (msg : string) : dict :=
  let msg_lower := PyStr.lower msg in
  let has := fun keyword => PyStr.contains keyword msg_lower in
  let context : dict := [] in
  let context := customer_type has context in
  let context := state_loop msg_lower state_map context in
  let context := account_type has context in
  let context := funding_type has context in
  let context := expedited has context in
  let context := written_or_verbal has context in
  request_type has context.

End ContextExtractor.

(* ================================================================== *)
(** ** [api/models.py] *)

Module Models.

(** A [ChatResponse] that passed validation. *)
Record ChatResponse : Type := {
  message : string;
  message_html : string;
  rule_matched : option string;
  rule_name : option string;
  extracted_context : dict;
  data_sources_resolved : list (string * bool);
  confidence : string
}.

(** What the model makes of an argument for a field [Optional[str]]: a
    [str] or [None] is taken as it is, and anything else is refused with a
    [ValidationError]; numbers are not turned into text (the models are
    written for pydantic 2: [json_schema_extra], [pattern]). *)
Definition optional_str (v : value) : result (option string) :=
  match v with
  | VStr s => Ok (Some s)
  | VNone => Ok None
  | _ => Raised
  end.

(** [ChatResponse(message=..., message_html=..., rule_matched=...,
    rule_name=..., extracted_context=..., data_sources_resolved=...,
    confidence=...)]: the callers pass texts, a dict and a dict of
    booleans where the fields ask for them; [rule_matched] and [rule_name]
    are whatever the rule file holds. *)
Definition new_ChatResponse (message message_html : string)
           (rule_matched rule_name : value) (extracted_context : dict)
           (data_sources_resolved : list (string * bool)) (confidence : string)
  : result ChatResponse :=
  matched <- optional_str rule_matched ;;
  named <- optional_str rule_name ;;
  Ok {| message := message;
        message_html := message_html;
        rule_matched := matched;
        rule_name := named;
        extracted_context := extracted_context;
        data_sources_resolved := data_sources_resolved;
        confidence := confidence |}.

End Models.

(* ================================================================== *)
(** ** [api/chat.py] *)

Module Chat.

Definition NO_MATCH_MESSAGE : string :=
  "We were unable to determine the specific grievance and appeal instructions for your situation."
  ++ PyStr.nl ++ PyStr.nl
  ++ "**Please contact Member Services** for assistance with your grievance or appeal request. Have your member ID and policy information ready when you call."
  ++ PyStr.nl ++ PyStr.nl
  ++ "A representative can help determine:" ++ PyStr.nl
  ++ "- Whether your request should be submitted verbally or in writing" ++ PyStr.nl
  ++ "- The correct mailing address for written submissions" ++ PyStr.nl
  ++ "- Any state-specific requirements that may apply" ++ PyStr.nl.

(** [{k: bool(v) for k, v in ds_results.items()}] *)
Definition resolved_flags (ds : RuleEngine.source_results) : list (string * bool) :=
  map (fun kv => (fst kv, truthy (VDict (snd kv)))) ds.

(** [match.get("priority", 999) < 50]; the match always has the key. *)
Definition below_50 (p : value) : result bool := py_lt p (VInt 50).

Section Pipeline.

(** [markdown.markdown] with the extensions [resolve] passes and without
    any, [repr] of compound values, and the recursion limit. *)
Variable render : string -> string.
Variable render_plain : string -> string.
Variable repr_compound : value -> string.
Variable depth : nat.

(** [message_resolver.resolve(message_ref, ...)] for the [message_ref] of a
    match, which is whatever the rule file holds: the cache is keyed by
    strings, and a list or a dict cannot be looked up at all. *)
Definition resolve_ref (message_resolver : MessageResolver.cache)
           (message_ref : value) (context : dict)
           (ds : RuleEngine.source_results) : result (option (string * string)) :=
  match message_ref with
  | VStr ref =>
      Ok (MessageResolver.resolve render repr_compound message_resolver ref
            context (Some ds))
  | VList _ | VDict _ => Raised
  | _ => Ok None
  end.

(** The fallback response both functions end with. *)
Definition no_match (context : dict) (ds : RuleEngine.source_results)
  : result Models.ChatResponse :=
  Models.new_ChatResponse NO_MATCH_MESSAGE (render_plain NO_MATCH_MESSAGE)
    VNone VNone context (resolved_flags ds) "none".

(** [extract] is [extractor.extract]; what it returns has to be a dict for
    [resolve_all] to read it.  The arguments of [ChatResponse] are
    evaluated before it is called, the comparison of the priority with 50
    among them. *)
Definition process_chat (extract : string -> value)
           (rule_engine : RuleEngine.t)
           (message_resolver : MessageResolver.cache) (user_msg : string)
  : result Models.ChatResponse :=
  match extract user_msg with
  | VDict context =>
      let ds_results := DataSourceResolver.resolve_all context in
      match RuleEngine.evaluate depth rule_engine context (Some ds_results) with
      | Some m =>
          resolved <- resolve_ref message_resolver m.(RuleEngine.message_ref)
                        context ds_results ;;
          match resolved with
          | Some (md, html) =>
              below <- below_50 m.(RuleEngine.priority) ;;
              Models.new_ChatResponse md html
                m.(RuleEngine.rule_id) m.(RuleEngine.name) context
                (resolved_flags ds_results)
                (if below then "high" else "medium")
          | None => no_match context ds_results
          end
      | None => no_match context ds_results
      end
  | _ => Raised
  end.

Definition process_evaluate (rule_engine : RuleEngine.t)
           (message_resolver : MessageResolver.cache) (context : dict)
  : result Models.ChatResponse :=
  let ds_results := DataSourceResolver.resolve_all context in
  match RuleEngine.evaluate depth rule_engine context (Some ds_results) with
  | Some m =>
      resolved <- resolve_ref message_resolver m.(RuleEngine.message_ref)
                    context ds_results ;;
      match resolved with
      | Some (md, html) =>
          Models.new_ChatResponse md html
            m.(RuleEngine.rule_id) m.(RuleEngine.name) context
            (resolved_flags ds_results) "high"
      | None => no_match context ds_results
      end
  | None => no_match context ds_results
  end.

End Pipeline.

End Chat.

(* ================================================================== *)
(** ** [api/admin.py]: the validation helpers *)

Module Admin.

Section Validation.

(** [repr] of compound values, for the f-strings. *)
Variable repr_compound : value -> string.

Definition str (v : value) : string := py_str repr_compound v.

Definition nat_str (i : nat) : string := NilZero.string_of_uint (Nat.to_uint i).

(** [x in s] and [s.add(x)] for a set [s]: [x] has to be hashable. *)
Definition hashable (v : value) : bool :=
  match v with VList _ | VDict _ => false | _ => true end.

(** The three branches on [rid]: the error appended, if any, and the set
    [ids] afterwards. *)
Definition check_id (i : nat) (rid : value) (ids : list value)
  : result (list string * list value) :=
  if negb (truthy rid) then
    Ok ([("Rule #" ++ nat_str i ++ " missing 'id'")%string], ids)
  else if negb (hashable rid) then Raised
  else if py_in rid ids then Ok ([("Duplicate rule id: " ++ str rid)%string], ids)
  else Ok ([], rid :: ids).

Definition missing_key (rid : value) (key : string) (rule : dict) : list string :=
  if dict_has key rule then []
  else [("Rule " ++ str rid ++ ": missing '" ++ key ++ "'")%string].

(** [for i, rule in enumerate(rules)] *)
Fixpoint validate_loop (i : nat) (ids : list value) (rules : list value)
  : result (list string) :=
  match rules with
  | [] => Ok []
  | VDict rule :: rest =>
      let rid := dict_get_default "id" rule VNone in
      checked <- check_id i rid ids ;;
      later <- validate_loop (S i) (snd checked) rest ;;
      Ok (fst checked ++ missing_key rid "conditions" rule
          ++ missing_key rid "message_ref" rule
          ++ missing_key rid "priority" rule ++ later)
  | _ :: rest =>
      later <- validate_loop (S i) ids rest ;;
      Ok (("Rule #" ++ nat_str i ++ " is not an object")%string :: later)
  end.

Definition _validate_rules_config (config : value) : result (list string) :=
  match config with
  | VDict c =>
      match dict_get "rules" c with
      | Some (VList rules) => validate_loop 0 [] rules
      | _ => Ok ["'rules' must be an array"]
      end
  | _ => Ok ["Root must be a JSON object"]
  end.

(** The first loop of [_get_warnings]; [cache] is [msg_resolver.cache]. *)
Fixpoint missing_templates (cache : MessageResolver.cache) (rules : list value)
  : result (list string) :=
  match rules with
  | [] => Ok []
  | VDict rule :: rest =>
      let ref := dict_get_default "message_ref" rule (VStr "") in
      let warning :=
        ("Rule " ++ str (dict_get_default "id" rule VNone) ++ ": message_ref '"
         ++ str ref ++ "' has no matching .md file")%string in
      found <-
        (if truthy ref then
           match ref with
           | VStr name =>
               Ok (match MessageResolver.cache_get name cache with
                   | Some _ => []
                   | None => [warning]
                   end)
           | VList _ | VDict _ => Raised
           | _ => Ok [warning]
           end
         else Ok []) ;;
      later <- missing_templates cache rest ;;
      Ok (found ++ later)
  | _ :: _ => Raised
  end.

(** [[r.get("priority") for r in rules if r.get("priority") is not None]] *)
Fixpoint priorities_of (rules : list value) : result (list value) :=
  match rules with
  | [] => Ok []
  | VDict r :: rest =>
      later <- priorities_of rest ;;
      Ok (match dict_get_default "priority" r VNone with
          | VNone => later
          | p => p :: later
          end)
  | _ :: _ => Raised
  end.

(** [for p in priorities] *)
Fixpoint duplicate_priorities (seen : list value) (priorities : list value)
  : result (list string) :=
  match priorities with
  | [] => Ok []
  | p :: rest =>
      if hashable p then
        later <- duplicate_priorities (p :: seen) rest ;;
        Ok ((if py_in p seen
             then [("Duplicate priority: " ++ str p
                    ++ " (rules may have unpredictable order)")%string]
             else []) ++ later)
      else Raised
  end.

Definition _get_warnings (cache : MessageResolver.cache) (config : value)
  : result (list string) :=
  rules_raw <- py_get config (VStr "rules") (VList []) ;;
  rules <- py_iter rules_raw ;;
  missing <- missing_templates cache rules ;;
  priorities <- priorities_of rules ;;
  duplicates <- duplicate_priorities [] priorities ;;
  Ok (missing ++ duplicates).

(** [len(v)] *)
Definition py_len (v : value) : result nat :=
  match v with
  | VList l => Ok (List.length l)
  | VDict d => Ok (List.length (dict_keys d))
  | VStr s => Ok (String.length s)
  | _ => Raised
  end.

Record ValidationResult : Type := {
  valid : bool;
  errors : list string;
  warnings : list string;
  rule_count : nat
}.

(** [validate_rules] from the parsed [config] on. *)
Definition validate_rules (cache : MessageResolver.cache) (config : value)
  : result ValidationResult :=
  errors <- _validate_rules_config config ;;
  warnings <- _get_warnings cache config ;;
  rules_raw <- py_get config (VStr "rules") (VList []) ;;
  rule_count <- py_len rules_raw ;;
  Ok {| valid := Nat.eqb (List.length errors) 0;
        errors := errors;
        warnings := warnings;
        rule_count := rule_count |}.

End Validation.

End Admin.



(* ================================================================== *)
(** ** Notions the statements use *)

Import Json.

(** The value of a key of a dict, handed to [f]; [default] when the key is
    missing. *)
Definition dict_find {A : Type} (key : string) (f : value -> A) (default : A)
  : list (string * value) -> A :=
  fix scan (l : list (string * value)) : A :=
    match l with
    | [] => default
    | (k, v) :: l' => if String.eqb key k then f v else scan l'
    end.

(** The template names a block refers to before any of them is expanded,
    found by the dispatch of [_evaluate_block]: [use_template] before [all]
    before [any] before [not]. *)
Fixpoint block_refs (block : value) : list string :=
  match block with
  | VDict b =>
      if dict_has "use_template" b then
        match dict_item "use_template" b with VStr n => [n] | _ => [] end
      else if dict_has "all" b then
        dict_find "all"
          (fun v => match v with VList cs => flat_map block_refs cs | _ => [] end) [] b
      else if dict_has "any" b then
        dict_find "any"
          (fun v => match v with VList cs => flat_map block_refs cs | _ => [] end) [] b
      else if dict_has "not" b then dict_find "not" block_refs [] b
      else []
  | _ => []
  end.

(** The registry entry a reference expands to; a [null] entry counts as
    missing, as in [if template is None]. *)
Definition template_body (templates : value) (name : string) : option value :=
  match templates with
  | VDict t =>
      match dict_get name t with
      | Some VNone => None
      | found => found
      end
  | _ => None
  end.

(** Depth-first visit with a visiting list: no template is met again while
    it is being expanded.  [fuel] bounds the length of a chain. *)
Fixpoint no_cycle (templates : value) (fuel : nat) (visiting : list string)
         (block : value) : bool :=
  match fuel with
  | O => false
  | S k =>
      forallb
        (fun n =>
           negb (mem_string n visiting)
           && match template_body templates n with
              | Some t => no_cycle templates k (n :: visiting) t
              | None => true
              end)
        (block_refs block)
  end.

Definition template_count (templates : value) : nat :=
  match templates with VDict t => List.length t | _ => 0 end.

(** No chain of expansions from [block] comes back to a template on it.  A
    chain without repetition has at most [template_count] names. *)
Definition acyclic (templates : value) (block : value) : bool :=
  no_cycle templates (S (template_count templates)) [] block.

Definition is_str (v : value) : bool :=
  match v with VStr _ => true | _ => false end.

(** A leaf as the data model has it: [source] and [field] are strings where
    they are given. *)
Definition wf_leaf (cond : dict) : bool :=
  match dict_get "source" cond with Some s => is_str s | None => true end
  && match dict_get "field" cond with Some f => is_str f | None => true end.

(** A block that is a [ConditionNode] of the data model: a dict that is a
    template reference by name, a combinator over a list of nodes or over a
    node, or a leaf. *)
Fixpoint wf_block (block : value) : bool :=
  match block with
  | VDict b =>
      if dict_has "use_template" b then is_str (dict_item "use_template" b)
      else if dict_has "all" b then
        dict_find "all"
          (fun v => match v with VList cs => forallb wf_block cs | _ => false end)
          false b
      else if dict_has "any" b then
        dict_find "any"
          (fun v => match v with VList cs => forallb wf_block cs | _ => false end)
          false b
      else if dict_has "not" b then dict_find "not" wf_block false b
      else wf_leaf b
  | _ => false
  end.

(** A registry all of whose entries are such nodes. *)
Definition wf_templates (templates : value) : bool :=
  match templates with
  | VDict t => forallb (fun kv => wf_block (snd kv)) t
  | _ => false
  end.

(** A measure for induction on the nesting of a value. *)
Fixpoint vsize (v : value) : nat :=
  match v with
  | VList l => S (list_sum (map vsize l))
  | VDict d => S (list_sum (map (fun kv => vsize (snd kv)) d))
  | _ => 1
  end.

(** Descent through nested dicts along the segments of a dotted path. *)
Fixpoint descend (parts : list string) (current : value) : option value :=
  match parts with
  | [] => Some current
  | part :: rest =>
      match current with
      | VDict d =>
          match dict_get part d with
          | Some v => descend rest v
          | None => None
          end
      | _ => None
      end
  end.

(** A string that does not begin with white space. *)
Definition left_trimmed (s : string) : Prop :=
  match s with
  | EmptyString => True
  | String c _ => PyStr.is_space c = false
  end.

(** The number zero: the integer, or a float zero of either sign. *)
Definition is_zero (v : value) : Prop :=
  v = VInt 0 \/ exists s, v = VFloat (S754_zero s).

(** The operators [_compare] defines. *)
Definition defined_operators : list value :=
  map VStr ["eq"; "equals"; "neq"; "not_equals"; "in"; "not_in"; "is_empty";
            "is_not_empty"; "exists_with_value"; "is_empty_or_false"].

(** The elements of a list with their positions. *)
Definition numbered {A : Type} (start : nat) (l : list A) : list (nat * A) :=
  combine (seq start (List.length l)) l.

(** The entries of [rules] in a configuration, in the order they are
    declared in. *)
Definition declared_rules (config : value) : list value :=
  match config with
  | VDict c =>
      match dict_get "rules" c with
      | Some (VList l) => l
      | _ => []
      end
  | _ => []
  end.

(** A rule is active unless its [active] entry says otherwise. *)
Definition is_active (r : dict) : bool :=
  match dict_get "active" r with
  | Some a => truthy a
  | None => true
  end.

(** The active rules of a configuration, in declaration order. *)
Definition active_declared (config : value) : list dict :=
  flat_map
    (fun v =>
       match v with
       | VDict r => if is_active r then [r] else []
       | _ => []
       end)
    (declared_rules config).

(** The priority of a rule: its [priority] entry, and 999 for a rule
    without one. *)
Definition declared_priority (r : dict) : value :=
  match dict_get "priority" r with
  | Some p => p
  | None => VInt 999
  end.

(** An integer; the booleans are integers to Python. *)
Definition is_integer (v : value) : bool :=
  match v with VInt _ | VBool _ => true | _ => false end.

(** Priorities that [<] orders: of two of them at most one is less than the
    other, and when [c] is not less than [b] nor [b] less than [a] then [c]
    is not less than [a].  Integers are so ordered, and so are texts; a NaN
    among numbers is not, being neither less nor more than any of them. *)
Definition consistent_order (keys : list value) : Prop :=
  (forall a b, In a keys -> In b keys ->
               py_lt a b = Ok true -> py_lt b a = Ok false)
  /\ (forall a b c, In a keys -> In b keys -> In c keys ->
                    py_lt b a = Ok false -> py_lt c b = Ok false ->
                    py_lt c a = Ok false).

(** The order a stable ascending sort by [key] puts positioned elements in:
    [b], which comes after [a], is not less than [a], and when neither is
    less than the other [a] had the earlier position. *)
Definition stable_order {A : Type} (key : A -> value) (a b : nat * A) : Prop :=
  py_lt (key (snd b)) (key (snd a)) = Ok false
  /\ (py_lt (key (snd a)) (key (snd b)) = Ok false -> (fst a < fst b)%nat).

(** The sub-rules of a rule are gone through without an exception: it has
    none, or they are a list of which every entry, up to the first whose
    conditions hold, is a dict whose conditions evaluate to false. *)
Definition sub_rules_pass (depth : nat) (templates : value) (context : dict)
           (ds : RuleEngine.source_results) (rule : dict) : Prop :=
  let sub_rules :=
    match dict_get "sub_rules" rule with Some s => s | None => VList [] end in
  let evaluates := fun (s : value) (b : bool) =>
    exists d, s = VDict d
              /\ RuleEngine._evaluate_block depth templates
                   (RuleEngine.conditions_of d) context ds = Ok b in
  truthy sub_rules = false
  \/ exists subs,
       sub_rules = VList subs
       /\ ((forall s, In s subs -> evaluates s false)
           \/ exists before sub after,
                subs = before ++ sub :: after
                /\ (forall s, In s before -> evaluates s false)
                /\ evaluates sub true).

(** The parent rule itself as a match: its id, name, message reference,
    placeholders, priority and tags, and no [parent_rule_id]. *)
Definition parent_result (rule : dict) : RuleEngine.MatchResult :=
  {| RuleEngine.rule_id :=
       match dict_get "id" rule with Some i => i | None => VStr "unknown" end;
     RuleEngine.parent_rule_id := None;
     RuleEngine.name :=
       match dict_get "name" rule with Some n => n | None => VStr "" end;
     RuleEngine.message_ref :=
       match dict_get "message_ref" rule with Some r => r | None => VStr "" end;
     RuleEngine.placeholders :=
       match dict_get "placeholders" rule with Some p => p | None => VList [] end;
     RuleEngine.priority :=
       match dict_get "priority" rule with Some p => p | None => VNone end;
     RuleEngine.tags :=
       match dict_get "tags" rule with Some t => t | None => VList [] end |}.

(** A sub-rule as a match: its id (the parent's for a sub-rule without
    one), the parent's id as [parent_rule_id], its own message reference
    and placeholders where it has them and the parent's otherwise, and the
    parent's name, priority and tags. *)
Definition sub_result (rule sub : dict) : RuleEngine.MatchResult :=
  let parent_id :=
    match dict_get "id" rule with Some i => i | None => VStr "unknown" end in
  {| RuleEngine.rule_id :=
       match dict_get "id" sub with Some i => i | None => parent_id end;
     RuleEngine.parent_rule_id := Some parent_id;
     RuleEngine.name :=
       match dict_get "name" rule with Some n => n | None => VStr "" end;
     RuleEngine.message_ref :=
       match dict_get "message_ref" sub with
       | Some r => r
       | None =>
           match dict_get "message_ref" rule with Some r => r | None => VNone end
       end;
     RuleEngine.placeholders :=
       match dict_get "placeholders" sub with
       | Some p => p
       | None =>
           match dict_get "placeholders" rule with
           | Some p => p
           | None => VList []
           end
       end;
     RuleEngine.priority :=
       match dict_get "priority" rule with Some p => p | None => VNone end;
     RuleEngine.tags :=
       match dict_get "tags" rule with Some t => t | None => VList [] end |}.

(** A sub-rule on which the scan raises: it is no dict, or its conditions
    do not evaluate to a boolean. *)
Definition sub_rule_raises (depth : nat) (templates : value) (context : dict)
           (ds : RuleEngine.source_results) (s : value) : Prop :=
  match s with
  | VDict sub =>
      forall b, RuleEngine._evaluate_block depth templates
                  (RuleEngine.conditions_of sub) context ds <> Ok b
  | _ => True
  end.

(** [_evaluate_block] returns, or raises an ordinary exception, within [N]
    nested calls, whatever the context and the data-source results. *)
Definition returns_within (templates block : value) (N : nat) : Prop :=
  forall context ds,
    RuleEngine._evaluate_block N templates block context ds <> RecursionLimit.

Definition halts (templates block : value) : Prop :=
  exists N, returns_within templates block N.

(** A dict that [_evaluate_block] hands to [_evaluate_condition]. *)
Definition is_leaf (cond : dict) : bool :=
  negb (dict_has "use_template" cond) && negb (dict_has "all" cond)
  && negb (dict_has "any" cond) && negb (dict_has "not" cond).

(** The resolution of a token as the specification words it: the source's
    value is used when it is not empty (the specification's empty values
    are [None], the empty string and the empty sequence), and the second
    context key is the last dot-separated segment of the token. *)
Definition resolve_token_as_specified (repr_compound : value -> string)
           (context : dict) (ds : RuleEngine.source_results) (token : string)
  : string :=
  let bracketed := ("[" ++ token ++ "]")%string in
  let direct :=
    MessageResolver.or_else
      (MessageResolver.context_str repr_compound context token) bracketed in
  if PyStr.contains "." token then
    let parts := PyStr.split_max "." 1 token in
    let last_segment := last (PyStr.split "." token) "" in
    let from_context :=
      MessageResolver.or_else
        (MessageResolver.context_str repr_compound context token)
        (MessageResolver.or_else
           (MessageResolver.context_str repr_compound context last_segment)
           bracketed) in
    match RuleEngine.source_get (nth 0 parts "") ds with
    | Some source =>
        let v := dict_get_default (nth 1 parts "") source (VStr "") in
        if negb (py_in v RuleEngine.blank_values) then py_str repr_compound v
        else from_context
    | None => from_context
    end
  else direct.

(** A token text that the pattern takes whole: not empty, no closing brace
    and no newline in it. *)
Fixpoint plain_chars (g : string) : bool :=
  match g with
  | EmptyString => true
  | String c g' =>
      negb (Ascii.eqb c "}"%char) && negb (Ascii.eqb c "010"%char) && plain_chars g'
  end.

Definition plain_token (g : string) : bool :=
  negb (String.eqb g "") && plain_chars g.

(** Blocks built with one combinator. *)
Definition block_not (b : value) : value := VDict [("not", b)].
Definition block_all (cs : list value) : value := VDict [("all", VList cs)].
Definition block_any (cs : list value) : value := VDict [("any", VList cs)].

(** A leaf that names a source and no field. *)
Definition source_only (cond : dict) : bool :=
  dict_has "source" cond && negb (dict_has "field" cond).

(** The test [state_loop] makes for one entry of [state_map]: the name
    occurs in the lower-cased message, or the code stands in it between
    spaces (or at either end). *)
Definition mentions_state (msg_lower : string) (entry : string * string) : bool :=
  PyStr.contains (fst entry) msg_lower
  || PyStr.contains (" " ++ PyStr.lower (snd entry) ++ " ") (" " ++ msg_lower ++ " ").

(** A rule none of whose [message_ref] entries, its own or those of its
    sub-rules, is a list or a dict: each can be looked up in the cache. *)
Definition message_refs_hashable (rule : dict) : bool :=
  Admin.hashable (dict_get_default "message_ref" rule VNone)
  && match dict_get_default "sub_rules" rule (VList []) with
     | VList subs =>
         forallb
           (fun s =>
              match s with
              | VDict sub => Admin.hashable (dict_get_default "message_ref" sub VNone)
              | _ => true
              end)
           subs
     | _ => true
     end.

(** A value that a field declared [Optional[str]] takes: a text or
    [None]. *)
Definition text_or_none (v : value) : bool :=
  match v with VStr _ | VNone => true | _ => false end.

(** The JSON value of such a field. *)
Definition as_value (field : option string) : value :=
  match field with Some s => VStr s | None => VNone end.

(** A rule whose id and name, and the ids of whose sub-rules, are texts (or
    [None]) where they are given. *)
Definition names_valid (rule : dict) : bool :=
  match dict_get "id" rule with Some i => text_or_none i | None => true end
  && match dict_get "name" rule with Some n => text_or_none n | None => true end
  && match dict_get "sub_rules" rule with
     | Some (VList subs) =>
         forallb
           (fun s =>
              match s with
              | VDict sub =>
                  match dict_get "id" sub with
                  | Some i => text_or_none i
                  | None => true
                  end
              | _ => true
              end)
           subs
     | _ => true
     end.

(** The [id] the validation reads off an entry of [rules]. *)
Definition id_of (rule : value) : value :=
  match rule with
  | VDict r => dict_get_default "id" r VNone
  | _ => VNone
  end.

(** An entry of [rules] the validation has nothing to say about, its id
    apart from the others: an object with a truthy, hashable [id] and with
    [conditions], [message_ref] and [priority]. *)
Definition complete_rule (rule : value) : bool :=
  match rule with
  | VDict r =>
      truthy (id_of rule) && Admin.hashable (id_of rule)
      && dict_has "conditions" r && dict_has "message_ref" r
      && dict_has "priority" r
  | _ => false
  end.

(** An entry of [rules] whose priority is an integer. *)
Definition integer_priority (rule : value) : bool :=
  match rule with
  | VDict r =>
      match dict_get "priority" r with
      | Some (VInt _) | Some (VBool _) => true
      | _ => false
      end
  | _ => false
  end.

(* ------------------------------------------------------------------ *)
(** *** Sample configurations *)

Module Sample.

Definition leaf (field op val : string) : value :=
  VDict [("field", VStr field); ("op", VStr op); ("val", VStr val)].

Definition sub_ca : dict :=
  [("id", VStr "S1"); ("conditions", leaf "state" "eq" "CA");
   ("message_ref", VStr "M_CA")].

Definition sub_va : dict :=
  [("id", VStr "S2"); ("conditions", leaf "state" "eq" "VA")].

Definition member_rule : dict :=
  [("id", VStr "P"); ("priority", VInt 1);
   ("conditions", leaf "kind" "eq" "member");
   ("message_ref", VStr "PARENT");
   ("sub_rules", VList [VDict sub_ca; VDict sub_va])].

Definition member_context : dict :=
  [("kind", VStr "Member"); ("state", VStr " va")].

Definition member_engine : RuleEngine.t :=
  {| RuleEngine.config := VDict [("rules", VList [VDict member_rule])];
     RuleEngine.rules := [member_rule];
     RuleEngine.templates := VDict [];
     RuleEngine.data_sources := VDict [] |}.

Definition always : value := VDict [].

(** Two rules of priority 1 and one of priority 5 declared first; a fourth
    is inactive. *)
Definition rule_low : dict :=
  [("id", VStr "LOW"); ("priority", VInt 5); ("conditions", always)].
Definition rule_a : dict :=
  [("id", VStr "A"); ("priority", VInt 1); ("conditions", always)].
Definition rule_b : dict :=
  [("id", VStr "B"); ("priority", VInt 1); ("conditions", always)].
Definition rule_off : dict :=
  [("id", VStr "OFF"); ("priority", VInt 0); ("active", VBool false);
   ("conditions", always)].

Definition tie_config : value :=
  VDict [("rules", VList [VDict rule_low; VDict rule_a; VDict rule_off;
                          VDict rule_b])].

Definition tie_engine : RuleEngine.t :=
  {| RuleEngine.config := tie_config;
     RuleEngine.rules := [rule_a; rule_b; rule_low];
     RuleEngine.templates := VDict [];
     RuleEngine.data_sources := VDict [] |}.

(** A rule of priority 1 whose conditions hold and whose one sub-rule is a
    number, declared before a rule of priority 5. *)
Definition rule_broken : dict :=
  [("id", VStr "FIRST"); ("priority", VInt 1); ("conditions", always);
   ("sub_rules", VList [VInt 7])].

Definition broken_config : value :=
  VDict [("rules", VList [VDict rule_broken; VDict rule_low])].

Definition broken_engine : RuleEngine.t :=
  {| RuleEngine.config := broken_config;
     RuleEngine.rules := [rule_broken; rule_low];
     RuleEngine.templates := VDict [];
     RuleEngine.data_sources := VDict [] |}.

(** Three rules whose priorities are 2, NaN and 1. *)
Definition rule_two : dict :=
  [("id", VStr "TWO"); ("priority", VInt 2); ("conditions", always)].
Definition rule_nan : dict :=
  [("id", VStr "NAN"); ("priority", VFloat S754_nan); ("conditions", always)].
Definition rule_one : dict :=
  [("id", VStr "ONE"); ("priority", VInt 1); ("conditions", always)].

Definition nan_config : value :=
  VDict [("rules", VList [VDict rule_two; VDict rule_nan; VDict rule_one])].

Definition nan_engine : RuleEngine.t :=
  {| RuleEngine.config := nan_config;
     RuleEngine.rules := [rule_two; rule_nan; rule_one];
     RuleEngine.templates := VDict [];
     RuleEngine.data_sources := VDict [] |}.

(** A rule whose first sub-rule has a number for conditions and whose
    second sub-rule holds. *)
Definition sub_bad : dict := [("id", VStr "BAD"); ("conditions", VInt 5)].
Definition sub_good : dict := [("id", VStr "GOOD"); ("conditions", always)].

Definition guarded_rule : dict :=
  [("id", VStr "G"); ("priority", VInt 1); ("conditions", always);
   ("sub_rules", VList [VDict sub_bad; VDict sub_good])].

Definition guarded_engine : RuleEngine.t :=
  {| RuleEngine.config := VDict [("rules", VList [VDict guarded_rule])];
     RuleEngine.rules := [guarded_rule];
     RuleEngine.templates := VDict [];
     RuleEngine.data_sources := VDict [] |}.

(** The rule [A] before the rule with sub-rules. *)
Definition shadowed_engine : RuleEngine.t :=
  {| RuleEngine.config := VDict [("rules", VList [VDict rule_a; VDict member_rule])];
     RuleEngine.rules := [rule_a; member_rule];
     RuleEngine.templates := VDict [];
     RuleEngine.data_sources := VDict [] |}.

(** A template that refers to itself. *)
Definition cyclic_templates : value :=
  VDict [("loop", VDict [("use_template", VStr "loop")])].
Definition cyclic_block : value := VDict [("use_template", VStr "loop")].

(** A registry of two templates, one built on the other. *)
Definition chain_templates : value :=
  VDict [("is_member", leaf "kind" "eq" "member");
         ("va_member",
          VDict [("all", VList [VDict [("use_template", VStr "is_member")];
                                leaf "state" "eq" "VA"])])].
Definition chain_block : value :=
  VDict [("not", VDict [("use_template", VStr "va_member")])].

(** A template with a Markdown table and no frontmatter. *)
Definition table_template : string :=
  "| A | B |" ++ PyStr.nl ++ "|---|---|" ++ PyStr.nl ++ "| 1 | 2 |".

(** A template with two horizontal rules and no frontmatter. *)
Definition ruled_template : string :=
  "Intro" ++ PyStr.nl ++ "---" ++ PyStr.nl ++ "Middle" ++ PyStr.nl
  ++ "---" ++ PyStr.nl ++ "End".

(** A template with frontmatter. *)
Definition titled_template : string :=
  "---" ++ PyStr.nl ++ "title: FEHBP" ++ PyStr.nl ++ "---" ++ PyStr.nl
  ++ "Send to {{fehbp_address.MailingAddress}}" ++ PyStr.nl.

Definition loaded_cache : MessageResolver.cache :=
  [("FEHBP_MEMBER", "Send to {{fehbp_address.MailingAddress}}")].

(** The same directory later, its one file no longer readable. *)
Definition unreadable_dir : MessageResolver.directory :=
  {| MessageResolver.dir_exists := true;
     MessageResolver.md_files := [("FEHBP_MEMBER", None)] |}.

(** The directory gone. *)
Definition missing_dir : MessageResolver.directory :=
  {| MessageResolver.dir_exists := false; MessageResolver.md_files := [] |}.

Definition no_repr : value -> string := fun _ => "".
Definition no_render : string -> string := fun md => md.

End Sample.

(* ================================================================== *)
(** ** Strings: trimming and lower-casing *)

Section StringFacts.

Import PyStr.

Lemma lower_char_idem (c : ascii) : lower_char (lower_char c) = lower_char c.
Proof. destruct c as [[] [] [] [] [] [] [] []]; reflexivity. Qed.


Lemma lower_idem (s : string) : lower (lower s) = lower s.
Proof.
  induction s as [|c s IH]; simpl; [reflexivity|].
  now rewrite lower_char_idem, IH.
Qed.




Lemma rstrip_idem (s : string) : rstrip (rstrip s) = rstrip s.
Proof.
  induction s as [|c s IH]; simpl; [reflexivity|].
  destruct (rstrip s) as [|d r] eqn:E.
  - destruct (is_space c) eqn:Ec; simpl; [reflexivity|now rewrite Ec].
  - change (rstrip (String c (String d r))) with
      (match rstrip (String d r) with
       | EmptyString => if is_space c then EmptyString else String c EmptyString
       | r' => String c r'
       end).
    now rewrite IH.
Qed.

Lemma lstrip_left_trimmed (s : string) : left_trimmed (lstrip s).
Proof.
  induction s as [|c s IH]; simpl; [exact I|].
  destruct (is_space c) eqn:Ec; [exact IH | exact Ec].
Qed.

Lemma lstrip_of_left_trimmed (s : string) : left_trimmed s -> lstrip s = s.
Proof. destruct s as [|c s]; simpl; [reflexivity|]. now intros ->. Qed.

Lemma rstrip_left_trimmed (s : string) : left_trimmed s -> left_trimmed (rstrip s).
Proof.
  destruct s as [|c s]; simpl; [exact id|]. intros Hc.
  destruct (rstrip s); simpl; [now rewrite Hc|exact Hc].
Qed.

Lemma strip_idem (s : string) : strip (strip s) = strip s.
Proof.
  unfold strip.
  rewrite (lstrip_of_left_trimmed (rstrip (lstrip s))).
  - apply rstrip_idem.
  - apply rstrip_left_trimmed, lstrip_left_trimmed.
Qed.


End StringFacts.

(* ================================================================== *)
(** ** The value normalizer *)

Lemma normalize_str_cases (s : string) :
  let low := PyStr.strip (PyStr.lower s) in
  (low = "true" /\ RuleEngine._normalize (VStr s) = VBool true)
  \/ (low = "false" /\ RuleEngine._normalize (VStr s) = VBool false)
  \/ (low <> "true" /\ low <> "false" /\ RuleEngine._normalize (VStr s) = VStr low).
Proof.
  simpl. unfold RuleEngine._normalize.
  destruct (String.eqb_spec (PyStr.strip (PyStr.lower s)) "true") as [E1|N1].
  - left. split; [exact E1 | reflexivity].
  - destruct (String.eqb_spec (PyStr.strip (PyStr.lower s)) "false") as [E2|N2].
    + right; left. split; [exact E2 | reflexivity].
    + right; right. repeat split; assumption.
Qed.




(* ================================================================== *)
(** ** Emptiness operators *)

Lemma py_eq_str_r (v : value) (t : string) :
  py_eq v (VStr t) = true <-> v = VStr t.
Proof.
  destruct v as [| b | z | f | s | l | d]; simpl;
    try (split; [discriminate | discriminate]).
  rewrite String.eqb_eq. split; [now intros -> | now intros [= ->]].
Qed.

Lemma py_eq_none_r (v : value) : py_eq v VNone = true <-> v = VNone.
Proof.
  destruct v as [| b | z | f | s | l | d]; simpl;
    try (split; [discriminate | discriminate]).
  split; reflexivity.
Qed.

Lemma py_eq_nil_r (v : value) : py_eq v (VList []) = true <-> v = VList [].
Proof.
  destruct v as [| b | z | f | s | l | d]; simpl;
    try (split; [discriminate | discriminate]).
  destruct l; split; [reflexivity | reflexivity | discriminate | discriminate].
Qed.

Lemma int_eq_float_zero (f : spec_float) :
  int_eq_float 0 f = true <-> exists s, f = S754_zero s.
Proof.
  destruct f as [s | s | | s m e]; unfold int_eq_float.
  - split; [intros _; now exists s | reflexivity].
  - split; [discriminate | intros [s' H]; discriminate].
  - split; [discriminate | intros [s' H]; discriminate].
  - split; [|intros [s' H]; discriminate].
    intros H. exfalso.
    destruct (Z.leb_spec 0 e) as [He|He]; apply Z.eqb_eq in H.
    + symmetry in H. apply Z.mul_eq_0 in H. destruct H as [H|H].
      * destruct s; discriminate.
      * pose proof (Z.pow_pos_nonneg 2 e ltac:(lia) He). lia.
    + rewrite Z.mul_0_l in H. destruct s; discriminate.
Qed.

(** [v == False] and [v == 0] say the same: [v] is a number equal to zero. *)
Lemma py_eq_zero (v : value) :
  py_eq v (VBool false) = true \/ py_eq v (VInt 0) = true
  <-> v = VBool false \/ is_zero v.
Proof.
  unfold is_zero.
  destruct v as [| b | z | f | s | l | d]; cbn -[Z.eqb int_eq_float].
  all: try (split; [intros [H|H]; discriminate
                   | intros [H|[H|[s' H]]]; discriminate]).
  - destruct b; simpl.
    + split; [intros [H|H]; discriminate | intros [H|[H|[s H]]]; discriminate].
    + split; intros _; now left.
  - rewrite Z.eqb_eq. split.
    + intros H. right; left. f_equal. tauto.
    + intros [H|[H|[s H]]]; try discriminate. injection H as ->. now left.
  - rewrite int_eq_float_zero. split.
    + intros [[s ->]|[s ->]]; right; right; now exists s.
    + intros [H|[H|[s H]]]; try discriminate. injection H as ->. left. now exists s.
Qed.

Lemma in_empty_values (v : value) :
  py_in v RuleEngine.empty_values = true
  <-> v = VNone \/ v = VStr "" \/ v = VList [] \/ v = VBool false \/ is_zero v.
Proof.
  unfold py_in, RuleEngine.empty_values. cbn [existsb].
  rewrite orb_false_r, !orb_true_iff.
  rewrite py_eq_none_r, py_eq_str_r, py_eq_nil_r.
  pose proof (py_eq_zero v) as Hz. tauto.
Qed.

(** C5. On the value as it was looked up: [is_empty] holds exactly for
    [None], the empty string, the empty list, [False] and the number zero;
    [is_not_empty] is its negation; [exists_with_value] holds exactly when
    the value is none of [None], the empty string and the empty list.  So
    [False] and [0] are empty for [is_empty] and present for
    [exists_with_value]. *)
Theorem C5_emptiness_operators (actual expected : value) :
  (RuleEngine._compare actual expected (VStr "is_empty") = true
   <-> actual = VNone \/ actual = VStr "" \/ actual = VList []
       \/ actual = VBool false \/ is_zero actual)
  /\ RuleEngine._compare actual expected (VStr "is_not_empty")
     = negb (RuleEngine._compare actual expected (VStr "is_empty"))
  /\ (RuleEngine._compare actual expected (VStr "exists_with_value") = true
      <-> actual <> VNone /\ actual <> VStr "" /\ actual <> VList [])
  /\ RuleEngine._compare (VBool false) expected (VStr "is_empty") = true
  /\ RuleEngine._compare (VInt 0) expected (VStr "is_empty") = true
  /\ RuleEngine._compare (VBool false) expected (VStr "exists_with_value") = true
  /\ RuleEngine._compare (VInt 0) expected (VStr "exists_with_value") = true.
Proof.
  split; [|split; [|split]].
  - change (RuleEngine._compare actual expected (VStr "is_empty"))
      with (py_in actual RuleEngine.empty_values).
    apply in_empty_values.
  - reflexivity.
  - change (RuleEngine._compare actual expected (VStr "exists_with_value"))
      with (negb (is_none actual) && negb (py_eq actual (VStr ""))
            && negb (py_eq actual (VList []))).
    rewrite !andb_true_iff, !negb_true_iff.
    rewrite <- !not_true_iff_false, py_eq_str_r, py_eq_nil_r.
    assert (is_none actual = true <-> actual = VNone) as ->
        by (destruct actual; simpl; split; congruence).
    tauto.
  - repeat split.
Qed.

Lemma C5_emptiness_operators_witness :
  RuleEngine._compare (VFloat (S754_zero true)) VNone (VStr "is_empty") = true
  /\ RuleEngine._compare (VStr "x") VNone (VStr "exists_with_value") = true.
Proof.
  destruct (C5_emptiness_operators (VFloat (S754_zero true)) VNone) as (He & _).
  destruct (C5_emptiness_operators (VStr "x") VNone) as (_ & _ & Hx & _).
  split.
  - apply He. right; right; right; right; right. now exists true.
  - apply Hx. repeat split; discriminate.
Defined.

(* ================================================================== *)
(** ** The field resolver *)

Lemma get_field_loop_descend (context : dict) (last_part : string)
      (parts : list string) (current : value) :
  RuleEngine.get_field_loop context last_part parts current
  = match descend parts current with
    | Some v => v
    | None => dict_get_default last_part context VNone
    end.
Proof.
  revert current. induction parts as [|part rest IH]; intros current; simpl.
  - reflexivity.
  - destruct current; try reflexivity.
    destruct (dict_get part d); [apply IH | reflexivity].
Qed.

Lemma split_go_no_sep (c : ascii) (cur s : string) :
  PyStr.contains (String c EmptyString) s = false ->
  PyStr.split_go (String c EmptyString) None 0 cur s = [(cur ++ s)%string].
Proof.
  revert cur. induction s as [|a s IH]; intros cur H; simpl.
  - f_equal. induction cur; simpl; congruence.
  - simpl in H. apply orb_false_iff in H. destruct H as [Ha Hs].
    rewrite Ha. rewrite IH by exact Hs. f_equal.
    clear. induction cur; simpl; congruence.
Qed.

Lemma split_no_dot (f : string) :
  PyStr.contains "." f = false -> PyStr.split "." f = [f].
Proof. intros H. unfold PyStr.split. now rewrite split_go_no_sep. Qed.

(** C3. The three tiers of [_get_field], the first hit winning: the field as
    a flat key of the context; else the descent through nested dicts along
    the dot-separated segments; else, a segment missing, the context's value
    for the last segment ([None] when that is missing too).  A field without
    a dot that is no key is absent.  The two contexts of the spec resolve
    [Policy.PolicyState] to [VA] by descent and to [NV] by the last
    segment. *)
Theorem C3_field_resolution (context : dict) (f : string) :
  (forall v, dict_get f context = Some v ->
             RuleEngine._get_field context (VStr f) = Ok v)
  /\ (forall v, dict_get f context = None ->
                descend (PyStr.split "." f) (VDict context) = Some v ->
                RuleEngine._get_field context (VStr f) = Ok v)
  /\ (dict_get f context = None ->
      descend (PyStr.split "." f) (VDict context) = None ->
      RuleEngine._get_field context (VStr f)
      = Ok (dict_get_default (last (PyStr.split "." f) "") context VNone))
  /\ (PyStr.contains "." f = false -> dict_get f context = None ->
      RuleEngine._get_field context (VStr f) = Ok VNone)
  /\ RuleEngine._get_field [("Policy", VDict [("PolicyState", VStr "VA")])]
       (VStr "Policy.PolicyState") = Ok (VStr "VA")
  /\ RuleEngine._get_field [("PolicyState", VStr "NV")]
       (VStr "Policy.PolicyState") = Ok (VStr "NV").
Proof.
  unfold RuleEngine._get_field.
  split; [|split; [|split; [|split; [|split; reflexivity]]]].
  - intros v ->. reflexivity.
  - intros v -> Hd. now rewrite get_field_loop_descend, Hd.
  - intros -> Hd. now rewrite get_field_loop_descend, Hd.
  - intros Hdot Hk. rewrite Hk, get_field_loop_descend, (split_no_dot _ Hdot).
    simpl. unfold dict_get_default. now rewrite Hk.
Qed.

Lemma C3_field_resolution_witness :
  RuleEngine._get_field
    [("Policy.PolicyState", VStr "CA"); ("Policy", VDict [("PolicyState", VStr "VA")])]
    (VStr "Policy.PolicyState") = Ok (VStr "CA")
  /\ RuleEngine._get_field
       [("Policy", VDict [("Group", VDict [("Number", VInt 42)])])]
       (VStr "Policy.Group.Number") = Ok (VInt 42)
  /\ RuleEngine._get_field
       [("Policy", VStr "flat"); ("PolicyState", VStr "NV")]
       (VStr "Policy.PolicyState") = Ok (VStr "NV")
  /\ RuleEngine._get_field [("PolicyState", VStr "NV")] (VStr "IsASO") = Ok VNone.
Proof.
  split; [|split; [|split]].
  - destruct (C3_field_resolution
                [("Policy.PolicyState", VStr "CA");
                 ("Policy", VDict [("PolicyState", VStr "VA")])]
                "Policy.PolicyState") as (H & _).
    apply H. reflexivity.
  - destruct (C3_field_resolution
                [("Policy", VDict [("Group", VDict [("Number", VInt 42)])])]
                "Policy.Group.Number") as (_ & H & _).
    apply H; reflexivity.
  - destruct (C3_field_resolution
                [("Policy", VStr "flat"); ("PolicyState", VStr "NV")]
                "Policy.PolicyState") as (_ & _ & H & _).
    apply H; reflexivity.
  - destruct (C3_field_resolution [("PolicyState", VStr "NV")] "IsASO")
      as (_ & _ & _ & H & _).
    apply H; reflexivity.
Defined.

(* ================================================================== *)
(** ** The rule matcher: first match and sub-rules *)

Section Matcher.

Variable depth : nat.
Variable templates : value.
Variable context : dict.
Variable ds : RuleEngine.source_results.

Let block := fun b => RuleEngine._evaluate_block depth templates b context ds.
Let try := fun r => RuleEngine.try_rule depth templates r context ds.
Let loop := fun rs => RuleEngine.evaluate_loop depth templates rs context ds.
Let subs_loop :=
  fun rule subs => RuleEngine.sub_rules_loop depth templates rule subs context ds.

Lemma evaluate_loop_skip (pre rest : list dict) :
  (forall r, In r pre -> forall m, try r <> Ok (Some m)) ->
  loop (pre ++ rest) = loop rest.
Proof.
  induction pre as [|r pre IH]; intros H; simpl; [reflexivity|].
  unfold loop in *. simpl.
  pose proof (H r (or_introl eq_refl)) as Hr. unfold try in Hr.
  destruct (RuleEngine.try_rule depth templates r context ds) as [[m|]| |];
    try (apply IH; intros r' Hin; apply H; now right).
  now contradiction (Hr m).
Qed.

Lemma evaluate_loop_found (rules : list dict) (m : RuleEngine.MatchResult) :
  loop rules = Some m ->
  exists pre rule post,
    rules = pre ++ rule :: post
    /\ (forall r, In r pre -> forall m', try r <> Ok (Some m'))
    /\ try rule = Ok (Some m).
Proof.
  unfold loop, try.
  induction rules as [|r rules IH]; simpl; [discriminate|].
  destruct (RuleEngine.try_rule depth templates r context ds) as [[m'|]| |] eqn:E.
  - intros [= ->]. exists [], r, rules. repeat split; [|exact E].
    intros r' [].
  - intros H. destruct (IH H) as (pre & rule & post & -> & Hpre & Hr).
    exists (r :: pre), rule, post. repeat split; [|exact Hr].
    intros r' [<-|Hin] m'; [rewrite E; discriminate | now apply Hpre].
  - intros H. destruct (IH H) as (pre & rule & post & -> & Hpre & Hr).
    exists (r :: pre), rule, post. repeat split; [|exact Hr].
    intros r' [<-|Hin] m'; [rewrite E; discriminate | now apply Hpre].
  - intros H. destruct (IH H) as (pre & rule & post & -> & Hpre & Hr).
    exists (r :: pre), rule, post. repeat split; [|exact Hr].
    intros r' [<-|Hin] m'; [rewrite E; discriminate | now apply Hpre].
Qed.

Lemma sub_rules_loop_first (rule sub : dict) (before after : list value) :
  (forall s, In s before ->
             exists d, s = VDict d /\ block (RuleEngine.conditions_of d) = Ok false) ->
  block (RuleEngine.conditions_of sub) = Ok true ->
  subs_loop rule (before ++ VDict sub :: after)
  = Ok (Some (RuleEngine.sub_match rule sub)).
Proof.
  unfold subs_loop, block. intros Hb Hs.
  induction before as [|s before IH]; simpl.
  - now rewrite Hs.
  - destruct (Hb s (or_introl eq_refl)) as (d & -> & Hd).
    rewrite Hd. simpl. apply IH. intros s' Hin. apply Hb. now right.
Qed.

Lemma sub_rules_loop_none (rule : dict) (subs : list value) :
  (forall s, In s subs ->
             exists d, s = VDict d /\ block (RuleEngine.conditions_of d) = Ok false) ->
  subs_loop rule subs = Ok None.
Proof.
  unfold subs_loop, block. intros Hb.
  induction subs as [|s subs IH]; simpl; [reflexivity|].
  destruct (Hb s (or_introl eq_refl)) as (d & -> & Hd).
  rewrite Hd. simpl. apply IH. intros s' Hin. apply Hb. now right.
Qed.

End Matcher.

Lemma sub_rules_loop_raises (depth : nat) (templates : value) (rule : dict)
      (before after : list value) (bad : value) (context : dict)
      (ds : RuleEngine.source_results) :
  (forall s, In s before ->
     exists d, s = VDict d
               /\ RuleEngine._evaluate_block depth templates
                    (RuleEngine.conditions_of d) context ds = Ok false) ->
  sub_rule_raises depth templates context ds bad ->
  forall found,
    RuleEngine.sub_rules_loop depth templates rule (before ++ bad :: after)
      context ds <> Ok found.
Proof.
  intros Hb Hbad found.
  induction before as [|s before IH]; simpl.
  - destruct bad; try discriminate.
    simpl in Hbad.
    destruct (RuleEngine._evaluate_block depth templates
                (RuleEngine.conditions_of d) context ds) as [b| |];
      [now contradiction (Hbad b) | discriminate | discriminate].
  - destruct (Hb s (or_introl eq_refl)) as (d & -> & Hd).
    rewrite Hd. simpl. apply IH. intros s' Hin. apply Hb. now right.
Qed.

(** The matches [evaluate] builds are the matches as they are described. *)
Lemma parent_match_result (rule : dict) :
  RuleEngine.parent_match rule = parent_result rule.
Proof. reflexivity. Qed.

Lemma sub_match_result (rule sub : dict) :
  RuleEngine.sub_match rule sub = sub_result rule sub.
Proof. reflexivity. Qed.

(** C2, as the code has it.  Let [rule] be the rule [evaluate] reaches (no
    rule before it in [self.rules] returns a match) and let its conditions
    hold.  With no sub-rules the result is the parent rule itself: its id,
    name, message reference, placeholders, priority and tags, and no
    [parent_rule_id].  With sub-rules, the result is the first sub-rule whose
    conditions hold, the conditions of those before it evaluating to false:
    its [rule_id] is the sub-rule's id, its [parent_rule_id] the parent's
    id, its [message_ref] and [placeholders] the sub-rule's when it has them
    and the parent's otherwise, its name, priority and tags the parent's.
    When the conditions of every sub-rule evaluate to false the result is
    the parent rule itself.  When the scan comes to a sub-rule on which it
    raises, those before it evaluating to false, the rule is passed over as
    a whole: the result is what the rules after it give. *)
Theorem C2_sub_rule_precedence
        (depth : nat) (self : RuleEngine.t) (context : dict)
        (data_source_results : option RuleEngine.source_results)
        (pre post : list dict) (rule : dict) :
  let ds := match data_source_results with Some d => d | None => [] end in
  let block := fun b =>
    RuleEngine._evaluate_block depth self.(RuleEngine.templates) b context ds in
  let result := RuleEngine.evaluate depth self context data_source_results in
  self.(RuleEngine.rules) = pre ++ rule :: post ->
  (forall r, In r pre -> forall m,
     RuleEngine.try_rule depth self.(RuleEngine.templates) r context ds <> Ok (Some m)) ->
  block (RuleEngine.conditions_of rule) = Ok true ->
  (truthy (dict_get_default "sub_rules" rule (VList [])) = false ->
   result = Some (parent_result rule))
  /\ (forall before sub after,
        dict_get_default "sub_rules" rule (VList [])
        = VList (before ++ VDict sub :: after) ->
        (forall s, In s before ->
           exists d, s = VDict d /\ block (RuleEngine.conditions_of d) = Ok false) ->
        block (RuleEngine.conditions_of sub) = Ok true ->
        result = Some (sub_result rule sub))
  /\ (forall subs,
        dict_get_default "sub_rules" rule (VList []) = VList subs ->
        (forall s, In s subs ->
           exists d, s = VDict d /\ block (RuleEngine.conditions_of d) = Ok false) ->
        result = Some (parent_result rule))
  /\ (forall before bad after,
        dict_get_default "sub_rules" rule (VList [])
        = VList (before ++ bad :: after) ->
        (forall s, In s before ->
           exists d, s = VDict d /\ block (RuleEngine.conditions_of d) = Ok false) ->
        sub_rule_raises depth self.(RuleEngine.templates) context ds bad ->
        result
        = RuleEngine.evaluate_loop depth self.(RuleEngine.templates) post
            context ds).
Proof.
  intros ds block result Hrules Hpre Hcond.
  assert (Hres : result
                 = match RuleEngine.try_rule depth self.(RuleEngine.templates)
                           rule context ds with
                   | Ok (Some m) => Some m
                   | _ => RuleEngine.evaluate_loop depth self.(RuleEngine.templates)
                            post context ds
                   end).
  { unfold result, RuleEngine.evaluate. fold ds. rewrite Hrules.
    rewrite evaluate_loop_skip by exact Hpre. reflexivity. }
  unfold block in Hcond.
  split; [|split; [|split]].
  - intros Hsub. rewrite Hres. unfold RuleEngine.try_rule.
    rewrite Hcond. simpl. now rewrite Hsub.
  - intros before sub after Hsub Hbefore Hfirst. rewrite Hres.
    unfold RuleEngine.try_rule. rewrite Hcond. simpl. rewrite Hsub.
    replace (truthy (VList (before ++ VDict sub :: after))) with true
      by (now destruct before).
    cbn [py_iter bind].
    now rewrite (sub_rules_loop_first _ _ _ _ rule sub before after Hbefore Hfirst).
  - intros subs Hsub Hall. rewrite Hres.
    unfold RuleEngine.try_rule. rewrite Hcond. simpl. rewrite Hsub.
    destruct (truthy (VList subs)); [|reflexivity].
    cbn [py_iter bind].
    now rewrite (sub_rules_loop_none _ _ _ _ rule subs Hall).
  - intros before bad after Hsub Hbefore Hbad. rewrite Hres.
    unfold RuleEngine.try_rule. rewrite Hcond. simpl. rewrite Hsub.
    replace (truthy (VList (before ++ bad :: after))) with true
      by (now destruct before).
    cbn [py_iter bind].
    pose proof (sub_rules_loop_raises depth self.(RuleEngine.templates) rule
                  before after bad context ds Hbefore Hbad) as Hraises.
    destruct (RuleEngine.sub_rules_loop depth self.(RuleEngine.templates) rule
                (before ++ bad :: after) context ds) as [found| |];
      [now contradiction (Hraises found) | reflexivity | reflexivity].
Qed.

Lemma C2_sub_rule_precedence_witness :
  exists m,
    RuleEngine.evaluate 3 Sample.member_engine Sample.member_context None = Some m
    /\ m.(RuleEngine.rule_id) = VStr "S2"
    /\ m.(RuleEngine.parent_rule_id) = Some (VStr "P")
    /\ m.(RuleEngine.message_ref) = VStr "PARENT".
Proof.
  exists (sub_result Sample.member_rule Sample.sub_va).
  split; [|repeat split].
  destruct (C2_sub_rule_precedence 3 Sample.member_engine Sample.member_context
              None [] [] Sample.member_rule eq_refl) as (_ & H & _).
  - intros r [].
  - reflexivity.
  - apply (H [VDict Sample.sub_ca] Sample.sub_va []).
    + reflexivity.
    + intros s [<-|[]]. exists Sample.sub_ca. split; reflexivity.
    + reflexivity.
Defined.

(** C2 as it is stated fails in two ways.  The engine built from one rule
    whose conditions hold, whose first sub-rule has conditions that cannot
    be evaluated and whose second sub-rule holds, returns no match at all,
    not the second sub-rule.  And of two rules whose conditions hold the
    second is never reached: its sub-rule that holds is not returned. *)
Lemma C2_counterexample :
  let block := fun b => RuleEngine._evaluate_block 2 (VDict []) b [] [] in
  let member := fun b =>
    RuleEngine._evaluate_block 3 (VDict []) b Sample.member_context [] in
  (RuleEngine.__init__ (Some (RuleEngine.config Sample.guarded_engine))
   = Ok Sample.guarded_engine
   /\ block (RuleEngine.conditions_of Sample.guarded_rule) = Ok true
   /\ dict_get "sub_rules" Sample.guarded_rule
      = Some (VList [VDict Sample.sub_bad; VDict Sample.sub_good])
   /\ block (RuleEngine.conditions_of Sample.sub_bad) = Raised
   /\ block (RuleEngine.conditions_of Sample.sub_good) = Ok true
   /\ RuleEngine.evaluate 2 Sample.guarded_engine [] None = None)
  /\ (RuleEngine.__init__ (Some (RuleEngine.config Sample.shadowed_engine))
      = Ok Sample.shadowed_engine
      /\ member (RuleEngine.conditions_of Sample.member_rule) = Ok true
      /\ dict_get "sub_rules" Sample.member_rule
         = Some (VList [VDict Sample.sub_ca; VDict Sample.sub_va])
      /\ member (RuleEngine.conditions_of Sample.sub_ca) = Ok false
      /\ member (RuleEngine.conditions_of Sample.sub_va) = Ok true
      /\ RuleEngine.evaluate 3 Sample.shadowed_engine Sample.member_context None
         = Some (parent_result Sample.rule_a)
      /\ (parent_result Sample.rule_a).(RuleEngine.rule_id) = VStr "A"
      /\ (sub_result Sample.member_rule Sample.sub_va).(RuleEngine.rule_id)
         = VStr "S2").
Proof. vm_compute. repeat split. Qed.

(* ================================================================== *)
(** ** [sorted]: ascending and stable *)

Section Sorting.

Context {A : Type} (key : A -> value).

Lemma insert_sorted_perm (x : A) (l s : list A) :
  insert_sorted key x l = Ok s -> Permutation (x :: l) s.
Proof.
  revert s. induction l as [|y l IH]; intros s; simpl.
  - intros [= <-]. apply Permutation_refl.
  - destruct (py_lt (key y) (key x)) as [[|]| |]; simpl; try discriminate.
    + destruct (insert_sorted key x l) as [rest| |]; simpl; try discriminate.
      intros [= <-]. rewrite perm_swap. constructor. now apply IH.
    + intros [= <-]. apply Permutation_refl.
Qed.

Lemma py_sorted_perm (l s : list A) :
  py_sorted key l = Ok s -> Permutation l s.
Proof.
  revert s. induction l as [|x l IH]; intros s; simpl.
  - intros [= <-]. constructor.
  - destruct (py_sorted key l) as [rest| |]; simpl; try discriminate.
    intros H. apply insert_sorted_perm in H.
    rewrite <- H. constructor. now apply IH.
Qed.

Lemma py_sorted_In (y : A) (l s : list A) :
  py_sorted key l = Ok s -> In y s <-> In y l.
Proof.
  intros H. apply py_sorted_perm in H. split; intros Hin.
  - now apply (Permutation_in _ (Permutation_sym H)).
  - now apply (Permutation_in _ H).
Qed.

Lemma insert_sorted_map {B : Type} (f : B -> A) (x : B) (l : list B) :
  insert_sorted key (f x) (map f l)
  = (s <- insert_sorted (fun b => key (f b)) x l ;; Ok (map f s)).
Proof.
  induction l as [|y l IH]; simpl; [reflexivity|].
  destruct (py_lt (key (f y)) (key (f x))) as [[|]| |]; simpl; try reflexivity.
  rewrite IH.
  destruct (insert_sorted (fun b => key (f b)) x l); reflexivity.
Qed.

Lemma py_sorted_map {B : Type} (f : B -> A) (l : list B) :
  py_sorted key (map f l)
  = (s <- py_sorted (fun b => key (f b)) l ;; Ok (map f s)).
Proof.
  induction l as [|x l IH]; simpl; [reflexivity|].
  rewrite IH.
  destruct (py_sorted (fun b => key (f b)) l) as [rest| |]; simpl;
    try reflexivity.
  apply insert_sorted_map.
Qed.

(** Keys that [<] compares with one another are sorted without an
    exception. *)
Lemma insert_sorted_total (x : A) (l : list A) :
  (forall y, In y l -> exists b, py_lt (key y) (key x) = Ok b) ->
  exists s, insert_sorted key x l = Ok s.
Proof.
  induction l as [|y l IH]; intros H; simpl; [now eexists|].
  destruct (H y (or_introl eq_refl)) as [b ->]. simpl.
  destruct b; [|now eexists].
  destruct IH as [s ->]; [|now eexists].
  intros z Hz. apply H. now right.
Qed.

Lemma py_sorted_total (l : list A) :
  (forall x y, In x l -> In y l -> exists b, py_lt (key y) (key x) = Ok b) ->
  exists s, py_sorted key l = Ok s.
Proof.
  induction l as [|x l IH]; intros H; simpl; [now eexists|].
  destruct IH as [rest Hrest].
  { intros a b Ha Hb. apply H; now right. }
  rewrite Hrest. simpl. apply insert_sorted_total.
  intros y Hy. apply H; [now left|].
  right. now apply (py_sorted_In y l rest Hrest).
Qed.

End Sorting.

Section Stability.

Context {A : Type} (key : A -> value) (keys : list value).

Hypothesis Hkeys : consistent_order keys.

Let pkey := fun a : nat * A => key (snd a).

Lemma insert_sorted_stable (x : nat * A) (s s' : list (nat * A)) :
  In (pkey x) keys ->
  Forall (fun y => In (pkey y) keys) s ->
  StronglySorted (stable_order key) s ->
  Forall (fun y => (fst x < fst y)%nat) s ->
  insert_sorted pkey x s = Ok s' ->
  StronglySorted (stable_order key) s'.
Proof.
  destruct Hkeys as [Hasym Htrans]. intros Kx.
  revert s'. induction s as [|y s IH]; intros s' Ks Hs Hx; simpl.
  - intros [= <-]. constructor; constructor.
  - apply StronglySorted_inv in Hs. destruct Hs as [Hs Hy].
    apply Forall_cons_iff in Hx. destruct Hx as [Hxy Hx].
    apply Forall_cons_iff in Ks. destruct Ks as [Ky Ks].
    destruct (py_lt (pkey y) (pkey x)) as [[|]| |] eqn:Elt; simpl;
      try discriminate.
    + destruct (insert_sorted pkey x s) as [rest| |] eqn:Erest; simpl;
        try discriminate.
      intros [= <-]. constructor; [now apply IH|].
      apply Forall_forall. intros z Hz.
      apply (Permutation_in _ (Permutation_sym (insert_sorted_perm _ _ _ _ Erest)))
        in Hz.
      destruct Hz as [<-|Hz].
      * split; [now apply Hasym|].
        fold (pkey y). fold (pkey x). rewrite Elt. discriminate.
      * rewrite Forall_forall in Hy. now apply Hy.
    + intros [= <-]. constructor; [now constructor|].
      constructor; [split; [exact Elt | intros _; exact Hxy]|].
      rewrite Forall_forall in *. intros z Hz.
      destruct (Hy z Hz) as [Hzy _].
      split; [|intros _; now apply Hx].
      apply (Htrans (pkey x) (pkey y) (pkey z)); auto.
Qed.

Lemma py_sorted_stable (l s : list (nat * A)) :
  Forall (fun y => In (pkey y) keys) l ->
  StronglySorted (fun a b => (fst a < fst b)%nat) l ->
  py_sorted pkey l = Ok s ->
  StronglySorted (stable_order key) s.
Proof.
  revert s. induction l as [|x l IH]; intros s Kl Hl; simpl.
  - intros [= <-]. constructor.
  - apply StronglySorted_inv in Hl. destruct Hl as [Hl Hx].
    apply Forall_cons_iff in Kl. destruct Kl as [Kx Kl].
    destruct (py_sorted pkey l) as [rest| |] eqn:Erest; simpl; try discriminate.
    pose proof (py_sorted_perm _ _ _ Erest) as Hperm.
    apply insert_sorted_stable.
    + exact Kx.
    + rewrite Forall_forall in *. intros y Hy. apply Kl.
      now apply (Permutation_in _ (Permutation_sym Hperm)).
    + now apply IH.
    + rewrite Forall_forall in *. intros y Hy. apply Hx.
      now apply (Permutation_in _ (Permutation_sym Hperm)).
Qed.

End Stability.

Section Numbered.

Context {A : Type}.

Lemma numbered_sorted (l : list A) (start : nat) :
  StronglySorted (fun a b : nat * A => (fst a < fst b)%nat) (numbered start l).
Proof.
  revert start. induction l as [|x l IH]; intros start; unfold numbered; simpl.
  - constructor.
  - constructor; [apply IH|].
    apply Forall_forall. intros [j y] Hin. simpl.
    apply in_combine_l in Hin. apply in_seq in Hin. lia.
Qed.

Lemma numbered_snd (l : list A) (start : nat) : map snd (numbered start l) = l.
Proof.
  revert start. induction l as [|x l IH]; intros start; unfold numbered; simpl.
  - reflexivity.
  - f_equal. apply IH.
Qed.

Lemma numbered_nth (l : list A) (start j : nat) (x : A) :
  nth_error l j = Some x -> In (start + j, x) (numbered start l).
Proof.
  revert start j. induction l as [|y l IH]; intros start j; unfold numbered.
  - destruct j; discriminate.
  - destruct j as [|j]; simpl.
    + intros [= ->]. left. f_equal. lia.
    + intros H. right. replace (start + S j) with (S start + j) by lia.
      now apply IH.
Qed.

Lemma numbered_In (l : list A) (start j : nat) (x : A) :
  In (j, x) (numbered start l) ->
  (start <= j)%nat /\ nth_error l (j - start) = Some x.
Proof.
  revert start. induction l as [|y l IH]; intros start; unfold numbered; simpl.
  - intros [].
  - intros [[= <- <-]|Hin].
    + split; [lia|]. now rewrite Nat.sub_diag.
    + destruct (IH (S start) Hin) as [Hle Hnth]. split; [lia|].
      replace (j - start) with (S (j - S start)) by lia. exact Hnth.
Qed.

Lemma strongly_sorted_after (R : A -> A -> Prop) (s1 s2 : list A) (x : A) :
  StronglySorted R (s1 ++ x :: s2) -> Forall (R x) s2.
Proof.
  induction s1 as [|y s1 IH]; simpl; intros H;
    apply StronglySorted_inv in H; destruct H as [H1 H2]; [exact H2 | now apply IH].
Qed.

(** Sorting by key is sorting the positioned elements and forgetting the
    positions. *)
Lemma py_sorted_numbered (key : A -> value) (l s : list A) :
  py_sorted key l = Ok s ->
  exists placed,
    py_sorted (fun a : nat * A => key (snd a)) (numbered 0 l) = Ok placed
    /\ s = map snd placed.
Proof.
  intros H. rewrite <- (numbered_snd l 0) in H at 1.
  rewrite (py_sorted_map key snd (numbered 0 l)) in H.
  destruct (py_sorted (fun b : nat * A => key (snd b)) (numbered 0 l))
    as [placed| |]; simpl in H; try discriminate.
  injection H as <-. now exists placed.
Qed.

End Numbered.

(** Integers (booleans among them) are ordered by [<]. *)
Lemma integer_lt (a b : value) :
  is_integer a = true -> is_integer b = true ->
  exists x y, number_of a = Some (NInt x) /\ number_of b = Some (NInt y)
              /\ py_lt a b = Ok (Z.ltb x y).
Proof.
  destruct a; try discriminate; destruct b; try discriminate; intros _ _;
    simpl; eexists; eexists; repeat split.
Qed.

Lemma integers_consistent (keys : list value) :
  Forall (fun k => is_integer k = true) keys -> consistent_order keys.
Proof.
  rewrite Forall_forall. intros H. split.
  - intros a b Ha Hb.
    destruct (integer_lt a b (H a Ha) (H b Hb)) as (x & y & Ea & Eb & ->).
    destruct (integer_lt b a (H b Hb) (H a Ha)) as (y' & x' & Eb' & Ea' & ->).
    rewrite Ea in Ea'. rewrite Eb in Eb'. injection Ea' as <-. injection Eb' as <-.
    intros [= E]. f_equal. apply Z.ltb_lt in E. apply Z.ltb_ge. lia.
  - intros a b c Ha Hb Hc.
    destruct (integer_lt b a (H b Hb) (H a Ha)) as (y & x & Eb & Ea & ->).
    destruct (integer_lt c b (H c Hc) (H b Hb)) as (z & y' & Ec & Eb' & ->).
    destruct (integer_lt c a (H c Hc) (H a Ha)) as (z' & x' & Ec' & Ea' & ->).
    rewrite Ea in Ea'. rewrite Eb in Eb'. rewrite Ec in Ec'.
    injection Ea' as <-. injection Eb' as <-. injection Ec' as <-.
    intros [= E1] [= E2]. f_equal.
    apply Z.ltb_ge in E1, E2. apply Z.ltb_ge. lia.
Qed.

Lemma sub_rules_loop_some (depth : nat) (templates : value) (rule : dict)
      (subs : list value) (context : dict) (ds : RuleEngine.source_results)
      (m : RuleEngine.MatchResult) :
  RuleEngine.sub_rules_loop depth templates rule subs context ds = Ok (Some m) ->
  exists sub, In (VDict sub) subs /\ m = RuleEngine.sub_match rule sub.
Proof.
  induction subs as [|s subs IH]; simpl; [discriminate|].
  destruct s; try discriminate.
  destruct (RuleEngine._evaluate_block depth templates
              (RuleEngine.conditions_of d) context ds) as [[|]| |];
    simpl; try discriminate.
  - intros [= <-]. exists d. split; [now left | reflexivity].
  - intros H. destruct (IH H) as (sub & Hin & ->). exists sub.
    split; [now right | reflexivity].
Qed.

(** Both [__init__] and [reload] leave in [self.rules] what [build_rules]
    makes of the configuration. *)
Lemma init_builds (cfg : value) (self : RuleEngine.t) :
  RuleEngine.__init__ (Some cfg) = Ok self ->
  RuleEngine.build_rules cfg = Ok self.(RuleEngine.rules).
Proof.
  unfold RuleEngine.__init__.
  destruct (RuleEngine.build_rules cfg) as [rs| |]; try discriminate.
  simpl.
  destruct (py_get cfg (VStr "condition_templates") (VDict [])) as [tpl| |];
    try discriminate.
  destruct (py_get cfg (VStr "data_sources") (VDict [])) as [dsc| |];
    try discriminate.
  simpl. now intros [= <-].
Qed.

Lemma reload_builds (cfg : value) (self self' : RuleEngine.t) :
  RuleEngine.reload self (Some cfg) = (self', Ok tt) ->
  RuleEngine.build_rules cfg = Ok self'.(RuleEngine.rules).
Proof.
  unfold RuleEngine.reload.
  destruct (RuleEngine.build_rules cfg) as [rs| |]; try discriminate.
  destruct (py_get cfg (VStr "condition_templates") (VDict [])) as [tpl| |];
    try discriminate.
  now intros [= <-].
Qed.

(** The list comprehension of [__init__] keeps the active rules, in the
    order they are declared in; it raises on an entry that is no dict. *)
Lemma active_rules_declared (items : list value) (active : list dict) :
  RuleEngine.active_rules items = Ok active ->
  active
  = flat_map
      (fun v =>
         match v with
         | VDict r => if is_active r then [r] else []
         | _ => []
         end)
      items.
Proof.
  revert active. induction items as [|v items IH]; intros active; simpl.
  - now intros [= <-].
  - destruct v; try discriminate.
    destruct (RuleEngine.active_rules items) as [keep| |]; simpl;
      try discriminate.
    intros [= <-]. rewrite <- (IH keep eq_refl).
    unfold is_active, dict_get_default.
    destruct (dict_get "active" d) as [a|]; simpl;
      [destruct (truthy a)|]; reflexivity.
Qed.

Lemma active_rules_strings (keys : list string) (active : list dict) :
  RuleEngine.active_rules (map VStr keys) = Ok active -> keys = [].
Proof. destruct keys; [reflexivity | discriminate]. Qed.

(** What [__init__] and [reload] assign to [self.rules] is the sorted list
    of the active rules of the configuration. *)
Lemma build_rules_declared (cfg : value) (rs : list dict) :
  RuleEngine.build_rules cfg = Ok rs ->
  py_sorted declared_priority (active_declared cfg) = Ok rs.
Proof.
  unfold RuleEngine.build_rules, active_declared, declared_rules.
  destruct cfg as [| | | | | |c]; try discriminate.
  cbn [py_get bind]. unfold dict_get_default.
  destruct (dict_get "rules" c) as [raw|]; [|now intros H].
  destruct raw as [| | | |s|l|d]; try discriminate; cbn [py_iter bind].
  - destruct (RuleEngine.active_rules _) as [active| |] eqn:E;
      try discriminate.
    assert (Hs : list_ascii_of_string s = []).
    { destruct (list_ascii_of_string s); [reflexivity | discriminate]. }
    rewrite Hs in E. injection E as <-. now intros H.
  - destruct (RuleEngine.active_rules l) as [active| |] eqn:E;
      try discriminate.
    rewrite <- (active_rules_declared l active E). now intros H.
  - destruct (RuleEngine.active_rules _) as [active| |] eqn:E;
      try discriminate.
    apply active_rules_strings in E as Hk.
    rewrite Hk in E. injection E as <-. now intros H.
Qed.

Lemma active_declared_In (cfg : value) (r : dict) :
  In r (active_declared cfg) <->
  In (VDict r) (declared_rules cfg) /\ is_active r = true.
Proof.
  unfold active_declared. rewrite in_flat_map. split.
  - intros (v & Hv & Hin). destruct v; try contradiction.
    destruct (is_active d) eqn:E; [|contradiction].
    destruct Hin as [<-|[]]. now split.
  - intros [Hin Ha]. exists (VDict r). split; [exact Hin|].
    rewrite Ha. now left.
Qed.

(** A rule whose conditions hold and whose sub-rules are gone through
    without an exception returns a match. *)
Lemma try_rule_returns (depth : nat) (templates : value) (context : dict)
      (ds : RuleEngine.source_results) (rule : dict) :
  RuleEngine._evaluate_block depth templates (RuleEngine.conditions_of rule)
    context ds = Ok true ->
  sub_rules_pass depth templates context ds rule ->
  exists m, RuleEngine.try_rule depth templates rule context ds = Ok (Some m).
Proof.
  intros Hc Hs. unfold RuleEngine.try_rule. rewrite Hc. simpl.
  unfold sub_rules_pass in Hs. cbv zeta in Hs.
  change (match dict_get "sub_rules" rule with
          | Some s => s
          | None => VList []
          end)
    with (dict_get_default "sub_rules" rule (VList [])) in Hs.
  destruct Hs as [->|(subs & -> & Hs)]; [now eexists|].
  destruct (truthy (VList subs)); [|now eexists].
  cbn [py_iter bind].
  destruct Hs as [Hall|(before & sub & after & -> & Hbefore & d & -> & Hd)].
  - rewrite (sub_rules_loop_none _ _ _ _ rule subs Hall). now eexists.
  - rewrite (sub_rules_loop_first _ _ _ _ rule d before after Hbefore Hd).
    now eexists.
Qed.

Lemma try_rule_holds (depth : nat) (templates : value) (context : dict)
      (ds : RuleEngine.source_results) (rule : dict)
      (m : RuleEngine.MatchResult) :
  RuleEngine.try_rule depth templates rule context ds = Ok (Some m) ->
  RuleEngine._evaluate_block depth templates (RuleEngine.conditions_of rule)
    context ds = Ok true.
Proof.
  unfold RuleEngine.try_rule.
  destruct (RuleEngine._evaluate_block depth templates
              (RuleEngine.conditions_of rule) context ds) as [[|]| |];
    simpl; [reflexivity | discriminate..].
Qed.

(** The match carries the priority of the rule it comes from. *)
Lemma try_rule_priority (depth : nat) (templates : value) (rule : dict)
      (context : dict) (ds : RuleEngine.source_results) (m : RuleEngine.MatchResult) :
  RuleEngine.try_rule depth templates rule context ds = Ok (Some m) ->
  m.(RuleEngine.priority) = dict_get_default "priority" rule VNone.
Proof.
  unfold RuleEngine.try_rule.
  destruct (RuleEngine._evaluate_block depth templates
              (RuleEngine.conditions_of rule) context ds) as [[|]| |];
    simpl; try discriminate.
  destruct (truthy _); [|now intros [= <-]].
  destruct (py_iter _) as [subs| |]; simpl; try discriminate.
  destruct (RuleEngine.sub_rules_loop depth templates rule subs context ds)
    as [[m'|]| |] eqn:E; simpl; try discriminate.
  - intros [= <-]. apply sub_rules_loop_some in E. now destruct E as (sub & _ & ->).
  - now intros [= <-].
Qed.

(** C1, as the code has it.  For an engine whose rules were built from a
    configuration, by [__init__] or by [reload], the priorities of the
    active rules being ordered by [<]: [self.rules] is the active rules of
    the configuration in ascending order of priority, rules of which
    neither has the lower priority in the order they are declared in.  When
    [evaluate] returns a match, it is the match of a rule of the
    configuration that is active and whose conditions hold, it carries that
    rule's priority, and every other active rule whose conditions hold and
    whose sub-rules are gone through without an exception has a priority
    that is not lower, and a later place in the declaration when the
    priorities are equal.  Between integer priorities that is [<=]. *)
Theorem C1_priority_order
        (depth : nat) (cfg : value) (self : RuleEngine.t) (context : dict)
        (data_source_results : option RuleEngine.source_results)
        (m : RuleEngine.MatchResult) :
  let ds := match data_source_results with Some d => d | None => [] end in
  let holds := fun r =>
    RuleEngine._evaluate_block depth self.(RuleEngine.templates)
      (RuleEngine.conditions_of r) context ds = Ok true in
  let active := active_declared cfg in
  RuleEngine.build_rules cfg = Ok self.(RuleEngine.rules) ->
  consistent_order (map declared_priority active) ->
  RuleEngine.evaluate depth self context data_source_results = Some m ->
  exists (placed : list (nat * dict)) (i : nat) (rule : dict),
    self.(RuleEngine.rules) = map snd placed
    /\ Permutation (numbered 0 active) placed
    /\ StronglySorted (stable_order declared_priority) placed
    /\ nth_error active i = Some rule
    /\ In (VDict rule) (declared_rules cfg)
    /\ is_active rule = true
    /\ holds rule
    /\ RuleEngine.try_rule depth self.(RuleEngine.templates) rule context ds
       = Ok (Some m)
    /\ m.(RuleEngine.priority)
       = match dict_get "priority" rule with Some p => p | None => VNone end
    /\ forall (j : nat) (other : dict),
         j <> i ->
         nth_error active j = Some other ->
         holds other ->
         sub_rules_pass depth self.(RuleEngine.templates) context ds other ->
         py_lt (declared_priority other) (declared_priority rule) = Ok false
         /\ (py_lt (declared_priority rule) (declared_priority other) = Ok false ->
             (i < j)%nat)
         /\ (forall z z',
               declared_priority rule = VInt z ->
               declared_priority other = VInt z' ->
               (z <= z')%Z /\ (z = z' -> (i < j)%nat)).
Proof.
  intros ds holds active Hb Hord Heval.
  unfold RuleEngine.evaluate in Heval. fold ds in Heval.
  apply build_rules_declared in Hb. fold active in Hb.
  destruct (py_sorted_numbered declared_priority active _ Hb)
    as (placed & Hplaced & Hrules).
  pose proof (py_sorted_perm _ _ _ Hplaced) as Hperm.
  assert (Hsorted : StronglySorted (stable_order declared_priority) placed).
  { apply (py_sorted_stable declared_priority (map declared_priority active) Hord
             (numbered 0 active) placed);
      [|apply numbered_sorted | exact Hplaced].
    apply Forall_forall. intros [j y] Hin. simpl.
    apply numbered_In in Hin. destruct Hin as [_ Hin].
    apply in_map. exact (nth_error_In _ _ Hin). }
  destruct (evaluate_loop_found _ _ _ _ _ _ Heval)
    as (pre & rule & post & Hsplit & Hpre & Hrule).
  rewrite Hrules in Hsplit.
  apply map_eq_app in Hsplit. destruct Hsplit as (s1 & s2' & Hs & Hs1 & Hs2).
  apply map_eq_cons in Hs2. destruct Hs2 as ([i rule'] & s2 & -> & Hx & Hs2).
  simpl in Hx. subst rule'.
  assert (Hin : In (i, rule) (numbered 0 active)).
  { apply (Permutation_in _ (Permutation_sym Hperm)). rewrite Hs. apply in_elt. }
  apply numbered_In in Hin. destruct Hin as [_ Hnth]. rewrite Nat.sub_0_r in Hnth.
  pose proof (proj1 (active_declared_In cfg rule) (nth_error_In _ _ Hnth))
    as [Hdecl Hact].
  exists placed, i, rule.
  split; [exact Hrules|]. split; [exact Hperm|]. split; [exact Hsorted|].
  split; [exact Hnth|]. split; [exact Hdecl|]. split; [exact Hact|].
  split; [exact (try_rule_holds _ _ _ _ _ _ Hrule)|].
  split; [exact Hrule|].
  split; [exact (try_rule_priority _ _ _ _ _ _ Hrule)|].
  intros j other Hji Hj Hholds Hpass.
  assert (Hinj : In (j, other) placed).
  { apply (Permutation_in _ Hperm). exact (numbered_nth active 0 j other Hj). }
  assert (Hgoal :
            py_lt (declared_priority other) (declared_priority rule) = Ok false
            /\ (py_lt (declared_priority rule) (declared_priority other) = Ok false ->
                (i < j)%nat)).
  { rewrite Hs in Hinj, Hsorted.
    apply in_app_or in Hinj. destruct Hinj as [Hinj|[Hinj|Hinj]].
    - exfalso. destruct (try_rule_returns _ _ _ _ _ Hholds Hpass) as [m' Hm'].
      apply (Hpre other) with (m' := m'); [|exact Hm'].
      rewrite <- Hs1. now apply (in_map snd) in Hinj.
    - injection Hinj as <- <-. now contradiction Hji.
    - pose proof (strongly_sorted_after _ _ _ _ Hsorted) as Hafter.
      rewrite Forall_forall in Hafter. exact (Hafter _ Hinj). }
  destruct Hgoal as [Hle Htie]. split; [exact Hle|]. split; [exact Htie|].
  intros z z' Ez Ez'. rewrite Ez, Ez' in Hle, Htie. simpl in Hle, Htie.
  injection Hle as Hle. apply Z.ltb_ge in Hle. split; [exact Hle|].
  intros ->. apply Htie. f_equal. apply Z.ltb_irrefl.
Qed.

Lemma C1_priority_order_witness :
  exists (m : RuleEngine.MatchResult) (i : nat) (rule : dict),
    RuleEngine.evaluate 2 Sample.tie_engine [] None = Some m
    /\ m.(RuleEngine.rule_id) = VStr "A"
    /\ nth_error [Sample.rule_low; Sample.rule_a; Sample.rule_b] i = Some rule
    /\ forall j other,
         j <> i ->
         nth_error [Sample.rule_low; Sample.rule_a; Sample.rule_b] j = Some other ->
         RuleEngine._evaluate_block 2 (VDict []) (RuleEngine.conditions_of other)
           [] [] = Ok true ->
         sub_rules_pass 2 (VDict []) [] [] other ->
         py_lt (declared_priority other) (declared_priority rule) = Ok false
         /\ (py_lt (declared_priority rule) (declared_priority other) = Ok false ->
             (i < j)%nat).
Proof.
  assert (Hord : consistent_order
                   (map declared_priority (active_declared Sample.tie_config))).
  { apply integers_consistent. repeat constructor. }
  destruct (@C1_priority_order 2 Sample.tie_config Sample.tie_engine [] None
              (RuleEngine.parent_match Sample.rule_a)
              (init_builds Sample.tie_config Sample.tie_engine eq_refl)
              Hord eq_refl)
    as (placed & i & rule & _ & _ & _ & Hi & _ & _ & _ & _ & _ & Hle).
  exists (RuleEngine.parent_match Sample.rule_a), i, rule.
  split; [reflexivity|]. split; [reflexivity|]. split; [exact Hi|].
  intros j other Hji Hj Hh Hp. destruct (Hle j other Hji Hj Hh Hp) as (H1 & H2 & _).
  now split.
Defined.

(** C1 as it is stated fails in three ways.  A rule of priority 1 whose
    conditions hold and whose sub-rules cannot be gone through is passed
    over, and the rule of priority 5 is returned.  Of three rules whose
    conditions hold and whose priorities are 2, NaN and 1, in that order,
    [sorted] moves none and the rule of priority 2 is returned.  And a rule
    that is not active is not looked at, whatever its priority: the rule of
    priority 1 is returned while the conditions of the inactive rule of
    priority 0 hold. *)
Lemma C1_counterexample :
  let holds := fun r =>
    RuleEngine._evaluate_block 2 (VDict []) (RuleEngine.conditions_of r) [] []
    = Ok true in
  (RuleEngine.__init__ (Some Sample.broken_config) = Ok Sample.broken_engine
   /\ RuleEngine.evaluate 2 Sample.broken_engine [] None
      = Some (parent_result Sample.rule_low)
   /\ holds Sample.rule_broken
   /\ dict_get "priority" Sample.rule_low = Some (VInt 5)
   /\ dict_get "priority" Sample.rule_broken = Some (VInt 1)
   /\ py_lt (VInt 1) (VInt 5) = Ok true)
  /\ (RuleEngine.__init__ (Some Sample.nan_config) = Ok Sample.nan_engine
      /\ RuleEngine.evaluate 2 Sample.nan_engine [] None
         = Some (parent_result Sample.rule_two)
      /\ holds Sample.rule_one
      /\ sub_rules_pass 2 (VDict []) [] [] Sample.rule_one
      /\ dict_get "priority" Sample.rule_two = Some (VInt 2)
      /\ dict_get "priority" Sample.rule_one = Some (VInt 1)
      /\ py_lt (VInt 1) (VInt 2) = Ok true)
  /\ (RuleEngine.__init__ (Some Sample.tie_config) = Ok Sample.tie_engine
      /\ RuleEngine.evaluate 2 Sample.tie_engine [] None
         = Some (parent_result Sample.rule_a)
      /\ In (VDict Sample.rule_off) (declared_rules Sample.tie_config)
      /\ holds Sample.rule_off
      /\ dict_get "priority" Sample.rule_a = Some (VInt 1)
      /\ dict_get "priority" Sample.rule_off = Some (VInt 0)
      /\ py_lt (VInt 0) (VInt 1) = Ok true).
Proof.
  intros holds. unfold holds.
  split; [|split].
  - repeat split.
  - split; [reflexivity|]. split; [reflexivity|]. split; [reflexivity|].
    split; [left; reflexivity | repeat split].
  - split; [reflexivity|]. split; [reflexivity|].
    split; [right; right; left; reflexivity | repeat split].
Qed.

(* ================================================================== *)
(** ** Termination of [_evaluate_block] *)

Lemma dict_find_get {A : Type} (key : string) (f : value -> A) (default : A)
      (d : dict) :
  dict_find key f default d
  = match dict_get key d with Some v => f v | None => default end.
Proof.
  induction d as [|[k v] d IH]; simpl; [reflexivity|].
  destruct (String.eqb key k); [reflexivity | exact IH].
Qed.

Lemma dict_has_item (key : string) (d : dict) :
  dict_has key d = true -> dict_get key d = Some (dict_item key d).
Proof.
  unfold dict_has, dict_item, dict_get_default.
  destruct (dict_get key d); [reflexivity | discriminate].
Qed.

Lemma dict_get_In (key : string) (d : dict) (v : value) :
  dict_get key d = Some v -> In (key, v) d.
Proof.
  induction d as [|[k w] d IH]; simpl; [discriminate|].
  destruct (String.eqb_spec key k) as [->|_].
  - intros [= ->]. now left.
  - intros H. right. now apply IH.
Qed.

Lemma vsize_dict_get (key : string) (d : dict) (v : value) :
  dict_get key d = Some v -> vsize v < vsize (VDict d).
Proof.
  intros H. apply dict_get_In in H. simpl.
  induction d as [|[k w] d IH]; simpl in *; [contradiction|].
  destruct H as [H|H]; [injection H as _ ->; lia|]. specialize (IH H). lia.
Qed.

Lemma vsize_In (c : value) (l : list value) :
  In c l -> vsize c < vsize (VList l).
Proof.
  simpl. induction l as [|x l IH]; simpl; [contradiction|].
  intros [->|H]; [lia|]. specialize (IH H). lia.
Qed.

Section Evaluation.

Variable templates : value.

Let block := fun depth b context ds =>
  RuleEngine._evaluate_block depth templates b context ds.

Lemma py_all_upto (f g : value -> result bool) (l : list value) :
  (forall c, In c l -> f c <> RecursionLimit -> g c = f c) ->
  py_all f l <> RecursionLimit -> py_all g l = py_all f l.
Proof.
  induction l as [|c l IH]; simpl; intros Hfg Hf; [reflexivity|].
  destruct (f c) as [[|]| |] eqn:E; simpl in Hf; [| | |now contradiction Hf];
    rewrite (Hfg c (or_introl eq_refl)) by (rewrite E; discriminate);
    rewrite E; simpl; try reflexivity.
  apply IH; [|exact Hf]. intros c' Hin. apply Hfg. now right.
Qed.

Lemma py_any_upto (f g : value -> result bool) (l : list value) :
  (forall c, In c l -> f c <> RecursionLimit -> g c = f c) ->
  py_any f l <> RecursionLimit -> py_any g l = py_any f l.
Proof.
  induction l as [|c l IH]; simpl; intros Hfg Hf; [reflexivity|].
  destruct (f c) as [[|]| |] eqn:E; simpl in Hf; [| | |now contradiction Hf];
    rewrite (Hfg c (or_introl eq_refl)) by (rewrite E; discriminate);
    rewrite E; simpl; try reflexivity.
  apply IH; [|exact Hf]. intros c' Hin. apply Hfg. now right.
Qed.

Lemma py_all_no_limit (f : value -> result bool) (l : list value) :
  (forall c, In c l -> f c <> RecursionLimit) -> py_all f l <> RecursionLimit.
Proof.
  induction l as [|c l IH]; simpl; intros H; [discriminate|].
  pose proof (H c (or_introl eq_refl)) as Hc.
  destruct (f c) as [[|]| |]; simpl; try discriminate; try contradiction.
  apply IH. intros c' Hin. apply H. now right.
Qed.

Lemma py_any_no_limit (f : value -> result bool) (l : list value) :
  (forall c, In c l -> f c <> RecursionLimit) -> py_any f l <> RecursionLimit.
Proof.
  induction l as [|c l IH]; simpl; intros H; [discriminate|].
  pose proof (H c (or_introl eq_refl)) as Hc.
  destruct (f c) as [[|]| |]; simpl; try discriminate; try contradiction.
  apply IH. intros c' Hin. apply H. now right.
Qed.

Lemma evaluate_condition_no_limit (cond context : dict)
      (ds : RuleEngine.source_results) :
  RuleEngine._evaluate_condition cond context ds <> RecursionLimit.
Proof.
  unfold RuleEngine._evaluate_condition, RuleEngine.ds_get, py_get,
    RuleEngine._get_field.
  repeat match goal with
         | |- context [if ?b then _ else _] => destruct b
         | |- context [match ?v with VNone => _ | _ => _ end] => destruct v
         | |- context [match dict_get ?k ?d with _ => _ end] =>
             destruct (dict_get k d)
         end; simpl; discriminate.
Qed.

(** One more level of nesting allowed changes nothing once the call
    returns. *)
Lemma evaluate_block_step (depth : nat) (b : value) (context : dict)
      (ds : RuleEngine.source_results) :
  block depth b context ds <> RecursionLimit ->
  block (S depth) b context ds = block depth b context ds.
Proof.
  unfold block. revert b.
  induction depth as [|depth IH]; intros b H; [now contradiction H|].
  remember (S depth) as d eqn:Hd.
  rewrite Hd in H at 1. rewrite Hd at 2.
  simpl in H |- *.
  destruct b as [| | | | | |b]; try reflexivity.
  destruct (dict_has "use_template" b).
  { destruct (py_get templates (dict_item "use_template" b) VNone) as [t| |];
      simpl in *; try reflexivity.
    subst d. destruct t; try reflexivity; now apply IH. }
  destruct (dict_has "all" b).
  { destruct (py_iter (dict_item "all" b)) as [cs| |]; simpl in *;
      try reflexivity.
    subst d. apply py_all_upto; [|exact H]. intros c _. apply IH. }
  destruct (dict_has "any" b).
  { destruct (py_iter (dict_item "any" b)) as [cs| |]; simpl in *;
      try reflexivity.
    subst d. apply py_any_upto; [|exact H]. intros c _. apply IH. }
  destruct (dict_has "not" b); [|reflexivity].
  subst d. rewrite IH; [reflexivity|].
  intros E. apply H. now rewrite E.
Qed.

Lemma evaluate_block_mono (N depth : nat) (b : value) (context : dict)
      (ds : RuleEngine.source_results) :
  N <= depth ->
  block N b context ds <> RecursionLimit ->
  block depth b context ds = block N b context ds.
Proof.
  induction 1 as [|depth Hle IH]; intros H; [reflexivity|].
  rewrite evaluate_block_step; rewrite IH; auto.
Qed.

Lemma returns_within_mono (b : value) (N N' : nat) :
  N <= N' -> returns_within templates b N -> returns_within templates b N'.
Proof.
  intros Hle H context ds. specialize (H context ds).
  fold (block N' b context ds).
  rewrite (evaluate_block_mono N N' b context ds Hle); exact H.
Qed.

Lemma halts_common (cs : list value) :
  (forall c, In c cs -> halts templates c) ->
  exists N, forall c, In c cs -> returns_within templates c N.
Proof.
  induction cs as [|c cs IH]; intros H.
  - exists 0. intros c [].
  - destruct (H c (or_introl eq_refl)) as [Nc Hc].
    destruct IH as [N HN]; [intros c' Hin; apply H; now right|].
    exists (Nat.max Nc N). intros c' [<-|Hin].
    + apply (returns_within_mono c Nc); [lia | exact Hc].
    + apply (returns_within_mono c' N); [lia | now apply HN].
Qed.

End Evaluation.

Lemma block_refs_ref (d : dict) :
  dict_has "use_template" d = true ->
  block_refs (VDict d)
  = match dict_item "use_template" d with VStr n => [n] | _ => [] end.
Proof. intros H. simpl. now rewrite H. Qed.

Lemma block_refs_all (d : dict) (cs : list value) :
  dict_has "use_template" d = false -> dict_has "all" d = true ->
  dict_item "all" d = VList cs ->
  block_refs (VDict d) = flat_map block_refs cs.
Proof.
  intros Hu Ha Hcs. simpl. rewrite Hu, Ha, dict_find_get, (dict_has_item _ _ Ha).
  now rewrite Hcs.
Qed.

Lemma block_refs_any (d : dict) (cs : list value) :
  dict_has "use_template" d = false -> dict_has "all" d = false ->
  dict_has "any" d = true -> dict_item "any" d = VList cs ->
  block_refs (VDict d) = flat_map block_refs cs.
Proof.
  intros Hu Ha Hy Hcs. simpl.
  rewrite Hu, Ha, Hy, dict_find_get, (dict_has_item _ _ Hy). now rewrite Hcs.
Qed.

Lemma block_refs_not (d : dict) :
  dict_has "use_template" d = false -> dict_has "all" d = false ->
  dict_has "any" d = false -> dict_has "not" d = true ->
  block_refs (VDict d) = block_refs (dict_item "not" d).
Proof.
  intros Hu Ha Hy Hn. simpl.
  now rewrite Hu, Ha, Hy, Hn, dict_find_get, (dict_has_item _ _ Hn).
Qed.

Lemma wf_block_all (d : dict) :
  dict_has "use_template" d = false -> dict_has "all" d = true ->
  wf_block (VDict d) = true ->
  exists cs, dict_item "all" d = VList cs /\ forallb wf_block cs = true.
Proof.
  intros Hu Ha. simpl. rewrite Hu, Ha, dict_find_get, (dict_has_item _ _ Ha).
  destruct (dict_item "all" d); try discriminate. intros H. now exists l.
Qed.

Lemma wf_block_any (d : dict) :
  dict_has "use_template" d = false -> dict_has "all" d = false ->
  dict_has "any" d = true -> wf_block (VDict d) = true ->
  exists cs, dict_item "any" d = VList cs /\ forallb wf_block cs = true.
Proof.
  intros Hu Ha Hy. simpl.
  rewrite Hu, Ha, Hy, dict_find_get, (dict_has_item _ _ Hy).
  destruct (dict_item "any" d); try discriminate. intros H. now exists l.
Qed.

Lemma wf_block_not (d : dict) :
  dict_has "use_template" d = false -> dict_has "all" d = false ->
  dict_has "any" d = false -> dict_has "not" d = true ->
  wf_block (VDict d) = true -> wf_block (dict_item "not" d) = true.
Proof.
  intros Hu Ha Hy Hn. simpl.
  now rewrite Hu, Ha, Hy, Hn, dict_find_get, (dict_has_item _ _ Hn).
Qed.

Lemma wf_block_leaf (d : dict) :
  dict_has "use_template" d = false -> dict_has "all" d = false ->
  dict_has "any" d = false -> dict_has "not" d = false ->
  wf_block (VDict d) = true -> wf_leaf d = true.
Proof. intros Hu Ha Hy Hn. simpl. now rewrite Hu, Ha, Hy, Hn. Qed.

Section Termination.

Variable templates : value.

Let block := fun depth b context ds =>
  RuleEngine._evaluate_block depth templates b context ds.

(** What [self.templates.get(name)] gives when it gives a template. *)
Lemma py_get_template (key t : value) :
  py_get templates key VNone = Ok t -> t <> VNone ->
  exists n, key = VStr n /\ template_body templates n = Some t.
Proof.
  unfold py_get, template_body, dict_get_default.
  destruct templates as [| | | | | |td]; try discriminate.
  destruct key as [| | | |n| |]; try discriminate;
    try (intros [= <-] H; now contradiction H).
  destruct (dict_get n td) as [v|] eqn:E; intros [= <-] H;
    [|now contradiction H].
  exists n. split; [reflexivity|]. rewrite E. destruct v; try reflexivity.
  now contradiction H.
Qed.

Lemma ref_halts (d : dict) :
  dict_has "use_template" d = true ->
  (forall n t, dict_item "use_template" d = VStr n ->
               template_body templates n = Some t -> halts templates t) ->
  halts templates (VDict d).
Proof.
  intros Hu Hrefs.
  destruct (py_get templates (dict_item "use_template" d) VNone) as [t| |] eqn:Eg.
  - assert (Ht : t = VNone \/ t <> VNone) by (destruct t; auto; right; discriminate).
    destruct Ht as [->|Ht].
    + exists 1. intros context ds. simpl. rewrite Hu, Eg. discriminate.
    + destruct (py_get_template _ _ Eg Ht) as (n & Hn & Hbody).
      destruct (Hrefs n t Hn Hbody) as [N HN].
      exists (S N). intros context ds. simpl. rewrite Hu, Eg. simpl.
      destruct t; try apply HN. now contradiction Ht.
  - exists 1. intros context ds. simpl. rewrite Hu, Eg. discriminate.
  - exfalso. revert Eg. unfold py_get.
    destruct templates; try discriminate.
    destruct (dict_item "use_template" d); discriminate.
Qed.

(** The children [iter] gives for a value that is no list are strings,
    and a string is no block. *)
Lemma iter_children_halt (v : value) (cs : list value) :
  py_iter v = Ok cs ->
  (forall l, v = VList l -> forall c, In c l -> halts templates c) ->
  exists N, forall c, In c cs -> returns_within templates c N.
Proof.
  destruct v as [| | | |s|l|d]; simpl; try discriminate; intros [= <-] H.
  - exists 1. intros c Hin context ds.
    apply in_map_iff in Hin. destruct Hin as (a & <- & _). discriminate.
  - apply halts_common. now apply H.
  - exists 1. intros c Hin context ds.
    apply in_map_iff in Hin. destruct Hin as (a & <- & _). discriminate.
Qed.

Lemma all_halts (d : dict) :
  dict_has "use_template" d = false -> dict_has "all" d = true ->
  (forall l, dict_item "all" d = VList l ->
             forall c, In c l -> halts templates c) ->
  halts templates (VDict d).
Proof.
  intros Hu Ha Hcs.
  destruct (py_iter (dict_item "all" d)) as [cs| |] eqn:Ei.
  - destruct (iter_children_halt _ _ Ei Hcs) as [N HN].
    exists (S N). intros context ds. simpl. rewrite Hu, Ha, Ei. simpl.
    apply py_all_no_limit. intros c Hin. now apply HN.
  - exists 1. intros context ds. simpl. rewrite Hu, Ha, Ei. discriminate.
  - exfalso. destruct (dict_item "all" d); discriminate.
Qed.

Lemma any_halts (d : dict) :
  dict_has "use_template" d = false -> dict_has "all" d = false ->
  dict_has "any" d = true ->
  (forall l, dict_item "any" d = VList l ->
             forall c, In c l -> halts templates c) ->
  halts templates (VDict d).
Proof.
  intros Hu Ha Hy Hcs.
  destruct (py_iter (dict_item "any" d)) as [cs| |] eqn:Ei.
  - destruct (iter_children_halt _ _ Ei Hcs) as [N HN].
    exists (S N). intros context ds. simpl. rewrite Hu, Ha, Hy, Ei. simpl.
    apply py_any_no_limit. intros c Hin. now apply HN.
  - exists 1. intros context ds. simpl. rewrite Hu, Ha, Hy, Ei. discriminate.
  - exfalso. destruct (dict_item "any" d); discriminate.
Qed.

Lemma not_halts (d : dict) :
  dict_has "use_template" d = false -> dict_has "all" d = false ->
  dict_has "any" d = false -> dict_has "not" d = true ->
  halts templates (dict_item "not" d) ->
  halts templates (VDict d).
Proof.
  intros Hu Ha Hy Hn [N HN].
  exists (S N). intros context ds. simpl. rewrite Hu, Ha, Hy, Hn.
  specialize (HN context ds).
  destruct (RuleEngine._evaluate_block N templates (dict_item "not" d) context ds);
    simpl; try discriminate. now contradiction HN.
Qed.

(** A block halts when the templates it refers to do: induction on the
    nesting of the block. *)
Lemma halts_by_refs (n : nat) (b : value) :
  vsize b < n ->
  (forall r t, In r (block_refs b) -> template_body templates r = Some t ->
               halts templates t) ->
  halts templates b.
Proof.
  revert b. induction n as [|n IH]; intros b Hsize Hrefs; [lia|].
  destruct b as [| | | | | |d];
    try (exists 1; intros context ds; discriminate).
  destruct (dict_has "use_template" d) eqn:Hu.
  { apply ref_halts; [exact Hu|]. intros r t Hr Ht.
    apply (Hrefs r t); [|exact Ht].
    rewrite (block_refs_ref _ Hu), Hr. now left. }
  destruct (dict_has "all" d) eqn:Ha.
  { apply all_halts; try assumption. intros l Hl c Hc.
    pose proof (vsize_dict_get _ _ _ (dict_has_item _ _ Ha)) as Hs1.
    rewrite Hl in Hs1. pose proof (vsize_In _ _ Hc) as Hs2.
    apply IH; [lia|]. intros r t Hr Ht. apply (Hrefs r t); [|exact Ht].
    rewrite (block_refs_all _ _ Hu Ha Hl). apply in_flat_map. now exists c. }
  destruct (dict_has "any" d) eqn:Hy.
  { apply any_halts; try assumption. intros l Hl c Hc.
    pose proof (vsize_dict_get _ _ _ (dict_has_item _ _ Hy)) as Hs1.
    rewrite Hl in Hs1. pose proof (vsize_In _ _ Hc) as Hs2.
    apply IH; [lia|]. intros r t Hr Ht. apply (Hrefs r t); [|exact Ht].
    rewrite (block_refs_any _ _ Hu Ha Hy Hl). apply in_flat_map. now exists c. }
  destruct (dict_has "not" d) eqn:Hn.
  { apply not_halts; try assumption.
    pose proof (vsize_dict_get _ _ _ (dict_has_item _ _ Hn)) as Hs1.
    apply IH; [lia|]. intros r t Hr Ht. apply (Hrefs r t); [|exact Ht].
    now rewrite (block_refs_not _ Hu Ha Hy Hn). }
  exists 1. intros context ds. simpl. rewrite Hu, Ha, Hy, Hn.
  apply evaluate_condition_no_limit.
Qed.

(** Induction on the fuel of the visit: the templates a block refers to
    have passed the visit with less fuel. *)
Lemma no_cycle_halts (fuel : nat) (visiting : list string) (b : value) :
  no_cycle templates fuel visiting b = true -> halts templates b.
Proof.
  revert visiting b. induction fuel as [|fuel IH]; intros visiting b H;
    [discriminate|].
  simpl in H. rewrite forallb_forall in H.
  apply (halts_by_refs (S (vsize b))); [lia|].
  intros r t Hr Ht. specialize (H r Hr). rewrite Ht in H.
  apply andb_true_iff in H. destruct H as [_ H]. exact (IH _ _ H).
Qed.

Lemma py_all_ok (f : value -> result bool) (l : list value) :
  (forall c, In c l -> f c <> RecursionLimit -> exists v, f c = Ok v) ->
  py_all f l <> RecursionLimit -> exists v, py_all f l = Ok v.
Proof.
  induction l as [|c l IH]; simpl; intros H Hl; [now exists true|].
  destruct (f c) as [[|]| |] eqn:E; simpl in *.
  - apply IH; [|exact Hl]. intros c' Hin. apply H. now right.
  - now exists false.
  - destruct (H c (or_introl eq_refl)) as [v Hv];
      [rewrite E; discriminate | rewrite E in Hv; discriminate Hv].
  - now contradiction Hl.
Qed.

Lemma py_any_ok (f : value -> result bool) (l : list value) :
  (forall c, In c l -> f c <> RecursionLimit -> exists v, f c = Ok v) ->
  py_any f l <> RecursionLimit -> exists v, py_any f l = Ok v.
Proof.
  induction l as [|c l IH]; simpl; intros H Hl; [now exists false|].
  destruct (f c) as [[|]| |] eqn:E; simpl in *.
  - now exists true.
  - apply IH; [|exact Hl]. intros c' Hin. apply H. now right.
  - destruct (H c (or_introl eq_refl)) as [v Hv];
      [rewrite E; discriminate | rewrite E in Hv; discriminate Hv].
  - now contradiction Hl.
Qed.

Lemma wf_leaf_items (cond : dict) :
  wf_leaf cond = true ->
  (dict_has "source" cond = true -> exists s, dict_item "source" cond = VStr s)
  /\ (dict_has "field" cond = true -> exists f, dict_item "field" cond = VStr f).
Proof.
  unfold wf_leaf, dict_has, dict_item, dict_get_default. intros H.
  apply andb_true_iff in H. destruct H as [Hs Hf].
  split.
  - destruct (dict_get "source" cond) as [v|]; [|discriminate].
    intros _. destruct v; try discriminate. now exists s.
  - destruct (dict_get "field" cond) as [v|]; [|discriminate].
    intros _. destruct v; try discriminate. now exists s.
Qed.

Lemma get_field_str (context : dict) (f : string) :
  exists v, RuleEngine._get_field context (VStr f) = Ok v.
Proof.
  unfold RuleEngine._get_field. destruct (dict_get f context); eexists; reflexivity.
Qed.

Lemma evaluate_condition_wf (cond context : dict) (ds : RuleEngine.source_results) :
  wf_leaf cond = true ->
  exists v, RuleEngine._evaluate_condition cond context ds = Ok v.
Proof.
  intros H. destruct (wf_leaf_items cond H) as [Hs Hf].
  unfold RuleEngine._evaluate_condition.
  destruct (dict_has "source" cond) eqn:Es;
    destruct (dict_has "field" cond) eqn:Ef; cbn [andb negb].
  - destruct (Hs eq_refl) as [s ->]. destruct (Hf eq_refl) as [f ->].
    cbn [RuleEngine.ds_get bind py_get]. eexists; reflexivity.
  - destruct (Hs eq_refl) as [s ->]. cbn [RuleEngine.ds_get bind].
    destruct (py_eq _ (VStr "is_not_empty")); [eexists; reflexivity|].
    destruct (py_eq _ (VStr "is_empty")); eexists; reflexivity.
  - destruct (Hf eq_refl) as [f Hitem].
    assert (E : dict_get_default "field" cond (VStr "") = VStr f).
    { revert Hitem Ef. unfold dict_item, dict_has, dict_get_default.
      destruct (dict_get "field" cond); [tauto | discriminate]. }
    rewrite E. destruct (get_field_str context f) as [v ->].
    cbn [bind]. eexists; reflexivity.
  - assert (E : dict_get_default "field" cond (VStr "") = VStr "").
    { revert Ef. unfold dict_has, dict_get_default.
      destruct (dict_get "field" cond); [discriminate | reflexivity]. }
    rewrite E. destruct (get_field_str context "") as [v ->].
    cbn [bind]. eexists; reflexivity.
Qed.

Hypothesis templates_wf : wf_templates templates = true.

Lemma template_wf (key t : value) :
  py_get templates key VNone = Ok t -> t <> VNone -> wf_block t = true.
Proof.
  intros Hg Ht. destruct (py_get_template _ _ Hg Ht) as (n & _ & Hbody).
  unfold template_body in Hbody. unfold wf_templates in templates_wf.
  destruct templates as [| | | | | |td]; try discriminate.
  rewrite forallb_forall in templates_wf.
  destruct (dict_get n td) as [v|] eqn:E; [|discriminate].
  apply dict_get_In in E. specialize (templates_wf _ E). simpl in templates_wf.
  destruct v; try discriminate; now injection Hbody as <-.
Qed.

(** On nodes of the data model a call that returns returns a boolean. *)
Lemma wf_returns_bool (depth : nat) (b : value) (context : dict)
      (ds : RuleEngine.source_results) :
  wf_block b = true ->
  block depth b context ds <> RecursionLimit ->
  exists v, block depth b context ds = Ok v.
Proof.
  unfold block. revert b.
  induction depth as [|depth IH]; intros b Hwf H; [now contradiction H|].
  destruct b as [| | | | | |d]; try discriminate.
  simpl in H |- *.
  destruct (dict_has "use_template" d) eqn:Hu.
  { destruct (py_get templates (dict_item "use_template" d) VNone)
      as [t| |] eqn:Eg; simpl in *.
    - assert (Ht : t = VNone \/ t <> VNone)
        by (destruct t; auto; right; discriminate).
      destruct Ht as [->|Ht]; [now exists false|].
      pose proof (template_wf _ _ Eg Ht) as Hwt.
      destruct t; try (apply IH; assumption). now contradiction Ht.
    - exfalso. revert Eg. simpl in Hwf. rewrite Hu in Hwf.
      unfold py_get, wf_templates in *.
      destruct templates; try discriminate.
      destruct (dict_item "use_template" d); discriminate.
    - now contradiction H. }
  destruct (dict_has "all" d) eqn:Ha.
  { destruct (wf_block_all _ Hu Ha Hwf) as (cs & Hcs & Hwcs).
    rewrite Hcs in *. simpl in *. apply py_all_ok; [|exact H].
    intros c Hin. apply IH. rewrite forallb_forall in Hwcs. now apply Hwcs. }
  destruct (dict_has "any" d) eqn:Hy.
  { destruct (wf_block_any _ Hu Ha Hy Hwf) as (cs & Hcs & Hwcs).
    rewrite Hcs in *. simpl in *. apply py_any_ok; [|exact H].
    intros c Hin. apply IH. rewrite forallb_forall in Hwcs. now apply Hwcs. }
  destruct (dict_has "not" d) eqn:Hn.
  { pose proof (wf_block_not _ Hu Ha Hy Hn Hwf) as Hwc.
    destruct (IH _ Hwc) as [v Hv].
    - intros E. apply H. now rewrite E.
    - rewrite Hv. simpl. now exists (negb v). }
  apply evaluate_condition_wf. now apply wf_block_leaf.
Qed.

End Termination.

Lemma cyclic_never_returns (depth : nat) (context : dict)
      (ds : RuleEngine.source_results) :
  RuleEngine._evaluate_block depth Sample.cyclic_templates Sample.cyclic_block
    context ds = RecursionLimit.
Proof. induction depth as [|depth IH]; [reflexivity | exact IH]. Qed.

(** C10. When no chain of template expansions from a block comes back to a
    template on it, [_evaluate_block] terminates: there is a nesting depth
    from which on the call returns the same result, a boolean or an ordinary
    exception, for every context and every data-source result; on a block
    and a registry made of nodes of the data model the result is a boolean.
    Without the premise it need not hold: on a template that refers to
    itself the call exceeds every depth. *)
Theorem C10_evaluate_block_terminates (templates block : value) :
  acyclic templates block = true ->
  (exists N, forall depth context ds,
      N <= depth ->
      RuleEngine._evaluate_block depth templates block context ds
      = RuleEngine._evaluate_block N templates block context ds
      /\ RuleEngine._evaluate_block depth templates block context ds
         <> RecursionLimit
      /\ (wf_templates templates = true -> wf_block block = true ->
          exists v, RuleEngine._evaluate_block depth templates block context ds
                    = Ok v))
  /\ acyclic Sample.cyclic_templates Sample.cyclic_block = false
  /\ (forall depth context ds,
        RuleEngine._evaluate_block depth Sample.cyclic_templates
          Sample.cyclic_block context ds = RecursionLimit).
Proof.
  intros Hacyclic. split; [|split; [reflexivity | exact cyclic_never_returns]].
  destruct (no_cycle_halts _ _ _ _ Hacyclic) as [N HN].
  exists N. intros depth context ds Hle.
  pose proof (evaluate_block_mono templates N depth block context ds Hle
                (HN context ds))
    as Hsame.
  split; [exact Hsame|]. split; [rewrite Hsame; apply HN|].
  intros Hwt Hwb. apply wf_returns_bool; try assumption.
  rewrite Hsame. apply HN.
Qed.

Lemma C10_evaluate_block_terminates_witness :
  exists N, forall depth context ds,
    N <= depth ->
    exists v, RuleEngine._evaluate_block depth Sample.chain_templates
                Sample.chain_block context ds = Ok v.
Proof.
  destruct (C10_evaluate_block_terminates Sample.chain_templates Sample.chain_block
              eq_refl) as [[N HN] _].
  exists N. intros depth context ds Hle.
  destruct (HN depth context ds Hle) as (_ & _ & Hbool).
  apply Hbool; reflexivity.
Defined.

(* ================================================================== *)
(** ** Configuration defects *)

Lemma compare_unknown_operator (actual expected op : value) :
  py_in op defined_operators = false ->
  RuleEngine._compare actual expected op = false.
Proof.
  unfold defined_operators, py_in. cbn [map existsb]. intros H.
  repeat (apply orb_false_iff in H; destruct H as [?E H]).
  unfold RuleEngine._compare, py_in. cbn [existsb].
  now rewrite E, E0, E1, E2, E3, E4, E5, E6, E7, E8.
Qed.

Lemma leaf_block (depth : nat) (templates : value) (cond context : dict)
      (ds : RuleEngine.source_results) :
  is_leaf cond = true ->
  RuleEngine._evaluate_block (S depth) templates (VDict cond) context ds
  = RuleEngine._evaluate_condition cond context ds.
Proof.
  unfold is_leaf. rewrite !andb_true_iff, !negb_true_iff.
  intros [[[Hu Ha] Hy] Hn]. simpl. now rewrite Hu, Ha, Hy, Hn.
Qed.

Lemma field_leaf_unknown_operator (cond context : dict)
      (ds : RuleEngine.source_results) :
  wf_leaf cond = true ->
  dict_has "field" cond = true \/ dict_has "source" cond = false ->
  py_in (dict_get_default "op" cond (VStr "eq")) defined_operators = false ->
  RuleEngine._evaluate_condition cond context ds = Ok false.
Proof.
  intros Hwf Hshape Hop. destruct (wf_leaf_items cond Hwf) as [Hs Hf].
  unfold RuleEngine._evaluate_condition.
  destruct (dict_has "source" cond) eqn:Es;
    destruct (dict_has "field" cond) eqn:Ef; cbn [andb negb].
  - destruct (Hs eq_refl) as [s ->]. destruct (Hf eq_refl) as [f ->].
    cbn [RuleEngine.ds_get bind py_get].
    now rewrite compare_unknown_operator.
  - destruct Hshape; discriminate.
  - destruct (Hf eq_refl) as [f Hitem].
    assert (E : dict_get_default "field" cond (VStr "") = VStr f).
    { revert Hitem Ef. unfold dict_item, dict_has, dict_get_default.
      destruct (dict_get "field" cond); [tauto | discriminate]. }
    rewrite E. destruct (get_field_str context f) as [v ->].
    cbn [bind]. now rewrite compare_unknown_operator.
  - assert (E : dict_get_default "field" cond (VStr "") = VStr "").
    { revert Ef. unfold dict_has, dict_get_default.
      destruct (dict_get "field" cond); [discriminate | reflexivity]. }
    rewrite E. destruct (get_field_str context "") as [v ->].
    cbn [bind]. now rewrite compare_unknown_operator.
Qed.

Lemma source_leaf_other_operator (cond context : dict)
      (ds : RuleEngine.source_results) (s : string) :
  dict_has "field" cond = false ->
  dict_get "source" cond = Some (VStr s) ->
  py_eq (dict_get_default "op" cond (VStr "eq")) (VStr "is_not_empty") = false ->
  py_eq (dict_get_default "op" cond (VStr "eq")) (VStr "is_empty") = false ->
  RuleEngine._evaluate_condition cond context ds
  = Ok (match RuleEngine.source_get s ds with
        | Some (_ :: _) => true
        | _ => false
        end).
Proof.
  intros Ef Es Hn He.
  assert (Hs : dict_has "source" cond = true)
    by (unfold dict_has; now rewrite Es).
  assert (Hi : dict_item "source" cond = VStr s)
    by (unfold dict_item, dict_get_default; now rewrite Es).
  unfold RuleEngine._evaluate_condition.
  rewrite Hs, Ef, Hi. cbn [andb negb RuleEngine.ds_get bind].
  rewrite Hn, He.
  destruct (RuleEngine.source_get s ds) as [[|]|]; reflexivity.
Qed.

(** C6, as the code has it.  An operator that [_compare] does not define
    compares false, so a leaf with a field (or with neither field nor
    source) and such an operator evaluates to false without raising, its
    field and source being strings; a leaf with a source, a string, and no
    field evaluates every operator other than [is_empty] and [is_not_empty]
    (the default [eq] of a leaf without [op] among them) as "the source
    returned something".  A reference to a template that the registry does
    not have evaluates to false.  A rule whose conditions raise is passed
    over, and the loop goes on with the rules after it. *)
Theorem C6_defects_degrade :
  (forall actual expected op,
      py_in op defined_operators = false ->
      RuleEngine._compare actual expected op = false)
  /\ (forall depth templates cond context ds,
        is_leaf cond = true -> wf_leaf cond = true ->
        dict_has "field" cond = true \/ dict_has "source" cond = false ->
        py_in (dict_get_default "op" cond (VStr "eq")) defined_operators = false ->
        RuleEngine._evaluate_block (S depth) templates (VDict cond) context ds
        = Ok false)
  /\ (forall depth templates cond context ds s,
        is_leaf cond = true ->
        dict_has "field" cond = false ->
        dict_get "source" cond = Some (VStr s) ->
        let op := match dict_get "op" cond with Some o => o | None => VStr "eq" end in
        py_eq op (VStr "is_not_empty") = false ->
        py_eq op (VStr "is_empty") = false ->
        RuleEngine._evaluate_block (S depth) templates (VDict cond) context ds
        = Ok (match RuleEngine.source_get s ds with
              | Some (_ :: _) => true
              | _ => false
              end))
  /\ (forall depth registry block name context ds,
        dict_get "use_template" block = Some (VStr name) ->
        dict_get name registry = None ->
        RuleEngine._evaluate_block (S depth) (VDict registry) (VDict block)
          context ds = Ok false)
  /\ (forall depth templates rule rest context ds,
        (forall b, RuleEngine._evaluate_block depth templates
                     (RuleEngine.conditions_of rule) context ds <> Ok b) ->
        RuleEngine.evaluate_loop depth templates (rule :: rest) context ds
        = RuleEngine.evaluate_loop depth templates rest context ds).
Proof.
  split; [exact compare_unknown_operator|].
  split; [|split; [|split]].
  - intros depth templates cond context ds Hleaf Hwf Hshape Hop.
    rewrite leaf_block by exact Hleaf.
    now apply field_leaf_unknown_operator.
  - intros depth templates cond context ds s Hleaf Ef Es op Hn He.
    rewrite leaf_block by exact Hleaf.
    now apply source_leaf_other_operator.
  - intros depth registry block name context ds Hname Habsent.
    simpl. unfold dict_has, dict_item, dict_get_default. rewrite Hname.
    cbn [py_get bind]. unfold dict_get_default. now rewrite Habsent.
  - intros depth templates rule rest context ds Hraise.
    simpl. unfold RuleEngine.try_rule.
    destruct (RuleEngine._evaluate_block depth templates
                (RuleEngine.conditions_of rule) context ds) as [b| |];
      [now contradiction (Hraise b) | reflexivity | reflexivity].
Qed.

Lemma C6_defects_degrade_witness :
  RuleEngine._evaluate_block 1 (VDict [])
    (VDict [("field", VStr "state"); ("op", VStr "bogus"); ("val", VStr "VA")])
    [("state", VStr "VA")] [] = Ok false
  /\ RuleEngine._evaluate_block 1 (VDict [])
       (VDict [("source", VStr "fehbp_address")]) []
       [("fehbp_address", [("MailingAddress", VStr "PO Box 1")])] = Ok true
  /\ RuleEngine._evaluate_block 1 (VDict [])
       (VDict [("use_template", VStr "missing")]) [] [] = Ok false
  /\ RuleEngine.evaluate_loop 2 (VDict [])
       [[("id", VStr "BAD"); ("conditions", VInt 5)]; Sample.rule_a] [] []
     = RuleEngine.evaluate_loop 2 (VDict []) [Sample.rule_a] [] [].
Proof.
  destruct C6_defects_degrade as (_ & Hleaf & Hsource & Hmissing & Hskip).
  split; [|split; [|split]].
  - apply Hleaf; try reflexivity. now left.
  - apply (Hsource 0 (VDict []) [("source", VStr "fehbp_address")] []
             [("fehbp_address", [("MailingAddress", VStr "PO Box 1")])]
             "fehbp_address"); reflexivity.
  - apply (Hmissing 0 [] [("use_template", VStr "missing")] "missing");
      reflexivity.
  - apply Hskip. intros b. discriminate.
Defined.

(** C6 as it is stated fails on a leaf with a source and no field: an
    operator that is not defined evaluates to true there when the source
    returned something. *)
Lemma C6_counterexample :
  let cond := [("source", VStr "fehbp_address"); ("op", VStr "bogus")] in
  let ds := [("fehbp_address", [("MailingAddress", VStr "PO Box 1")])] in
  is_leaf cond = true
  /\ py_in (VStr "bogus") defined_operators = false
  /\ RuleEngine._evaluate_block 1 (VDict []) (VDict cond) [] ds = Ok true
  /\ RuleEngine._evaluate_block 1 (VDict []) (VDict cond) [] ds <> Ok false.
Proof. repeat split. discriminate. Qed.

(* ================================================================== *)
(** ** The message resolver *)

Lemma prefix_cons (a b : ascii) (s1 s2 : string) :
  prefix (String a s1) (String b s2) = if Ascii.eqb a b then prefix s1 s2 else false.
Proof.
  cbn [prefix]. destruct (ascii_dec a b) as [->|H].
  - now rewrite Ascii.eqb_refl.
  - apply Ascii.eqb_neq in H. now rewrite H.
Qed.

Lemma prefix_empty (s : string) : prefix "" s = true.
Proof. destruct s; reflexivity. Qed.

Lemma append_char (a : string) (c : ascii) (s : string) :
  ((a ++ String c EmptyString) ++ s = a ++ String c s)%string.
Proof. induction a as [|x a IH]; simpl; [reflexivity | now rewrite IH]. Qed.

Lemma append_empty (a : string) : (a ++ "" = a)%string.
Proof. induction a as [|x a IH]; simpl; [reflexivity | now rewrite IH]. Qed.

Lemma append_assoc (a b c : string) : ((a ++ b) ++ c = a ++ (b ++ c))%string.
Proof. induction a as [|x a IH]; simpl; [reflexivity | now rewrite IH]. Qed.

Lemma append_length (a b : string) :
  String.length (a ++ b) = String.length a + String.length b.
Proof. induction a as [|x a IH]; simpl; [reflexivity | now rewrite IH]. Qed.

Lemma split_go_spent (sep cur s : string) :
  PyStr.split_go sep (Some 0) 0 cur s = [(cur ++ s)%string].
Proof.
  revert cur. induction s as [|c s IH]; intros cur; simpl.
  - now rewrite append_empty.
  - now rewrite IH, append_char.
Qed.

Lemma split_max_dot (s cur : string) :
  PyStr.contains "." s = true ->
  exists a b,
    PyStr.split_go "." (Some 1) 0 cur s = [(cur ++ a)%string; b]
    /\ s = (a ++ "." ++ b)%string
    /\ PyStr.contains "." a = false.
Proof.
  revert cur. induction s as [|c s IH]; intros cur; [discriminate|].
  cbn [PyStr.contains PyStr.split_go andb]. rewrite prefix_cons, prefix_empty.
  destruct (Ascii.eqb_spec "."%char c) as [<-|Hc].
  - intros _. exists EmptyString, s.
    cbn [option_map pred String.length Nat.sub].
    rewrite split_go_spent, append_empty. auto.
  - cbn [orb]. intros H.
    destruct (IH (cur ++ String c EmptyString)%string H)
      as (a & b & Hsplit & -> & Ha).
    exists (String c a), b. rewrite Hsplit, append_char.
    split; [reflexivity|]. split; [reflexivity|].
    cbn [PyStr.contains]. rewrite prefix_cons.
    apply Ascii.eqb_neq in Hc. now rewrite Hc.
Qed.

Lemma sub_go_skip (f : string -> string) (a s : string) :
  MessageResolver.sub_go f (String.length a) (a ++ s) = MessageResolver.sub_go f 0 s.
Proof. induction a as [|c a IH]; simpl; [reflexivity | exact IH]. Qed.

Lemma lazy_group_plain (g post : string) :
  plain_chars g = true ->
  MessageResolver.lazy_group false (g ++ "}}" ++ post) = Some g.
Proof.
  induction g as [|c g IH].
  - intros _. cbn [append MessageResolver.lazy_group negb andb].
    now rewrite !prefix_cons, prefix_empty.
  - cbn [plain_chars]. rewrite !andb_true_iff, !negb_true_iff.
    intros [[Hb Hn] Hg].
    cbn [append MessageResolver.lazy_group negb andb].
    rewrite prefix_cons, Ascii.eqb_sym, Hb, Hn.
    specialize (IH Hg). cbn [append] in IH. now rewrite IH.
Qed.

Lemma sub_go_eq (f : string -> string) (skip : nat) (c : ascii) (s : string) :
  MessageResolver.sub_go f skip (String c s)
  = match skip with
    | S k => MessageResolver.sub_go f k s
    | O =>
        if prefix "{{" (String c s) then
          match MessageResolver.lazy_group true (PyStr.drop 2 (String c s)) with
          | Some g => (f g ++ MessageResolver.sub_go f (String.length g + 3) s)%string
          | None => String c (MessageResolver.sub_go f 0 s)
          end
        else String c (MessageResolver.sub_go f 0 s)
    end.
Proof. reflexivity. Qed.

Lemma re_sub_token (f : string -> string) (g post : string) :
  plain_token g = true ->
  MessageResolver.re_sub f ("{{" ++ g ++ "}}" ++ post)
  = (f g ++ MessageResolver.re_sub f post)%string.
Proof.
  unfold plain_token, MessageResolver.re_sub.
  rewrite andb_true_iff, negb_true_iff. intros [Hne Hplain].
  assert (Hgroup : MessageResolver.lazy_group true (g ++ "}}" ++ post) = Some g).
  { destruct g as [|c g]; [discriminate|].
    cbn [plain_chars] in Hplain.
    rewrite !andb_true_iff, !negb_true_iff in Hplain.
    destruct Hplain as [[Hb Hn] Hg].
    change ((String c g ++ "}}" ++ post)%string)
      with (String c (g ++ "}}" ++ post)).
    cbn [MessageResolver.lazy_group negb andb]. rewrite Hn.
    now rewrite (lazy_group_plain g post Hg). }
  change ("{{" ++ g ++ "}}" ++ post)%string
    with (String "{" (String "{" (g ++ "}}" ++ post))).
  rewrite sub_go_eq. rewrite !prefix_cons, prefix_empty.
  change (PyStr.drop 2 (String "{" (String "{" (g ++ "}}" ++ post))))
    with (g ++ "}}" ++ post)%string.
  rewrite Hgroup. cbn [Ascii.eqb Bool.eqb]. f_equal.
  change (String "{" (g ++ "}}" ++ post))
    with ("{" ++ (g ++ ("}}" ++ post)))%string.
  rewrite <- (append_assoc g "}}" post).
  rewrite <- (append_assoc "{" (g ++ "}}") post).
  replace (String.length g + 3)
    with (String.length ("{" ++ g ++ "}}")%string)
    by (cbn [append String.length]; rewrite append_length; simpl; lia).
  apply sub_go_skip.
Qed.

Lemma re_sub_char (f : string -> string) (c : ascii) (s : string) :
  c <> "{"%char ->
  MessageResolver.re_sub f (String c s) = String c (MessageResolver.re_sub f s).
Proof.
  intros Hc. unfold MessageResolver.re_sub. rewrite sub_go_eq.
  rewrite prefix_cons.
  destruct (Ascii.eqb_spec "{"%char c) as [E|_]; [now contradiction Hc|].
  reflexivity.
Qed.

(** C7, as the code has it.  The token is the placeholder text, trimmed.
    Without a dot it is looked up in the context, and when that gives
    nothing the token in square brackets is substituted.  With a dot, it is
    cut at its first dot: when what is before the dot names a data source
    and that source's value for what is after the dot is truthy ([None],
    [False], zero and the empty string, list and dict are not), that value
    is used; otherwise the whole token is looked up in the context, then
    what is after the first dot, and when both give nothing the token in
    square brackets is substituted.  [resolve] returns a result for every
    known [message_ref]: each [{{token}}] is replaced by its resolution and
    the text outside the placeholders is kept. *)
Theorem C7_placeholder_resolution
        (render : string -> string) (repr_compound : value -> string)
        (context : dict) (ds : RuleEngine.source_results) (group : string) :
  let token := PyStr.strip group in
  let bracketed := ("[" ++ token ++ "]")%string in
  let lookup := MessageResolver.context_str repr_compound context in
  let replaced :=
    MessageResolver.replace_placeholder repr_compound context ds group in
  (PyStr.contains "." token = false ->
   replaced = MessageResolver.or_else (lookup token) bracketed)
  /\ (PyStr.contains "." token = true ->
      exists source rest,
        token = (source ++ "." ++ rest)%string
        /\ PyStr.contains "." source = false
        /\ replaced
           = let from_context :=
               MessageResolver.or_else (lookup token)
                 (MessageResolver.or_else (lookup rest) bracketed) in
             match RuleEngine.source_get source ds with
             | Some results =>
                 let v := dict_get_default rest results (VStr "") in
                 if truthy v then py_str repr_compound v else from_context
             | None => from_context
             end)
  /\ (forall self message_ref template,
        MessageResolver.cache_get message_ref self = Some template ->
        MessageResolver.resolve render repr_compound self message_ref context
          (Some ds)
        = let md :=
            MessageResolver.re_sub
              (MessageResolver.replace_placeholder repr_compound context ds)
              template in
          Some (md, render md))
  /\ (forall f g post,
        plain_token g = true ->
        MessageResolver.re_sub f ("{{" ++ g ++ "}}" ++ post)
        = (f g ++ MessageResolver.re_sub f post)%string)
  /\ (forall f c s,
        c <> "{"%char ->
        MessageResolver.re_sub f (String c s)
        = String c (MessageResolver.re_sub f s))
  /\ MessageResolver.resolve Sample.no_render Sample.no_repr
       [("T", "Dear member, {{unknown_token}}.")] "T" [] None
     = Some ("Dear member, [unknown_token].", "Dear member, [unknown_token].")
  /\ MessageResolver.resolve Sample.no_render Sample.no_repr
       Sample.loaded_cache "FEHBP_MEMBER" []
       (Some [("fehbp_address", [("MailingAddress", VStr "PO Box 1")])])
     = Some ("Send to PO Box 1", "Send to PO Box 1").
Proof.
  intros token bracketed lookup replaced.
  split; [|split; [|split; [|split; [|split; [|split; reflexivity]]]]].
  - intros Hdot. unfold replaced, MessageResolver.replace_placeholder.
    fold token. now rewrite Hdot.
  - intros Hdot. unfold replaced, MessageResolver.replace_placeholder.
    fold token. rewrite Hdot.
    destruct (split_max_dot token EmptyString Hdot)
      as (source & rest & Hsplit & Htoken & Hsource).
    exists source, rest. split; [exact Htoken|]. split; [exact Hsource|].
    unfold PyStr.split_max. rewrite Hsplit. cbn [nth last append].
    unfold MessageResolver.str. fold bracketed. fold lookup.
    destruct (lookup token); destruct (lookup rest); reflexivity.
  - intros self message_ref template Hcache.
    unfold MessageResolver.resolve. now rewrite Hcache.
  - exact re_sub_token.
  - exact re_sub_char.
Qed.

Lemma C7_placeholder_resolution_witness :
  MessageResolver.replace_placeholder Sample.no_repr
    [("Policy.PolicyState", VStr "VA"); ("GroupNumber", VInt 42)] []
    " GroupNumber " = "42"
  /\ MessageResolver.resolve Sample.no_render Sample.no_repr
       Sample.loaded_cache "FEHBP_MEMBER" [] (Some [])
     = Some ("Send to [fehbp_address.MailingAddress]",
             "Send to [fehbp_address.MailingAddress]").
Proof.
  destruct (C7_placeholder_resolution Sample.no_render Sample.no_repr
              [("Policy.PolicyState", VStr "VA"); ("GroupNumber", VInt 42)] []
              " GroupNumber ") as (Hplain & _).
  destruct (C7_placeholder_resolution Sample.no_render Sample.no_repr
              [] [] "") as (_ & _ & Hresolve & _).
  split.
  - exact (Hplain eq_refl).
  - exact (Hresolve Sample.loaded_cache "FEHBP_MEMBER"
             "Send to {{fehbp_address.MailingAddress}}" eq_refl).
Defined.

(** C7 as it is stated fails in two ways.  On a token with two dots it is
    the text after the first dot that is looked up in the context, not the
    last segment.  And a source's value that is not empty but counts as
    false, the number 0, is not used: the lookup goes on in the context. *)
Lemma C7_counterexample :
  let context := [("c", VStr "X")] in
  let ds := [("s", [("n", VInt 0)])] in
  (last (PyStr.split "." "a.b.c") "" = "c"
   /\ resolve_token_as_specified Sample.no_repr context [] "a.b.c" = "X"
   /\ MessageResolver.replace_placeholder Sample.no_repr context [] "a.b.c"
      = "[a.b.c]"
   /\ MessageResolver.replace_placeholder Sample.no_repr context [] "a.b.c"
      <> resolve_token_as_specified Sample.no_repr context [] "a.b.c")
  /\ (py_in (VInt 0) RuleEngine.blank_values = false
      /\ resolve_token_as_specified Sample.no_repr [] ds "s.n" = "0"
      /\ MessageResolver.replace_placeholder Sample.no_repr [] ds "s.n" = "[s.n]"
      /\ MessageResolver.replace_placeholder Sample.no_repr [] ds "s.n"
         <> resolve_token_as_specified Sample.no_repr [] ds "s.n").
Proof. repeat split; discriminate. Qed.

(* ================================================================== *)
(** ** Frontmatter *)

Lemma prefix_app (a s : string) :
  prefix a s = true -> exists t, s = (a ++ t)%string.
Proof.
  revert s. induction a as [|x a IH]; intros s H.
  - now exists s.
  - destruct s as [|y s]; [discriminate|].
    rewrite prefix_cons in H.
    destruct (Ascii.eqb_spec x y) as [->|]; [|discriminate].
    destruct (IH s H) as [t ->]. now exists t.
Qed.

Lemma split_go_skip (sep : string) (budget : option nat) (a cur s : string) :
  PyStr.split_go sep budget (String.length a) cur (a ++ s)
  = PyStr.split_go sep budget 0 cur s.
Proof. induction a as [|c a IH]; simpl; [reflexivity | exact IH]. Qed.

Lemma split_go_eq (sep : string) (cur : string) (c : ascii) (s : string) :
  PyStr.split_go sep None 0 cur (String c s)
  = if prefix sep (String c s)
    then cur :: PyStr.split_go sep None (String.length sep - 1) EmptyString s
    else PyStr.split_go sep None 0 (cur ++ String c EmptyString) s.
Proof. reflexivity. Qed.

Lemma split_go_cons (sep : string) (budget : option nat) (skip : nat)
      (cur s : string) :
  exists x l, PyStr.split_go sep budget skip cur s = x :: l.
Proof.
  revert budget skip cur. induction s as [|c s IH]; intros budget skip cur.
  - now exists cur, [].
  - cbn [PyStr.split_go]. destruct skip as [|k]; [|apply IH].
    destruct (_ && _); [now eexists; eexists | apply IH].
Qed.

(** Cutting at every separator and joining with the separator gives the
    text back. *)
Lemma join_split_go (a : ascii) (sep' : string) (n : nat) :
  forall s cur,
    String.length s <= n ->
    PyStr.join (String a sep') (PyStr.split_go (String a sep') None 0 cur s)
    = (cur ++ s)%string.
Proof.
  induction n as [|n IH]; intros s cur Hlen.
  - destruct s; [|simpl in Hlen; lia]. simpl. now rewrite append_empty.
  - destruct s as [|c s]; [simpl; now rewrite append_empty|].
    rewrite split_go_eq.
    destruct (prefix (String a sep') (String c s)) eqn:Hp.
    + destruct (prefix_app _ _ Hp) as [t Ht].
      injection Ht as -> ->.
      cbn [String.length Nat.sub]. rewrite Nat.sub_0_r, split_go_skip.
      destruct (split_go_cons (String a sep') None 0 EmptyString t)
        as (x & l & Hx).
      unfold PyStr.join in *. rewrite Hx.
      change (concat (String a sep') (cur :: x :: l))
        with (cur ++ String a sep' ++ concat (String a sep') (x :: l))%string.
      rewrite <- Hx.
      rewrite IH by (simpl in Hlen; rewrite append_length in Hlen; lia).
      reflexivity.
    + rewrite IH by (simpl in Hlen; lia). apply append_char.
Qed.

Lemma join_split (sep s : string) :
  sep <> "" -> PyStr.join sep (PyStr.split sep s) = s.
Proof.
  intros Hsep. destruct sep as [|a sep']; [now contradiction Hsep|].
  unfold PyStr.split. now rewrite (join_split_go a sep' (String.length s)).
Qed.

Lemma split_go_plain (sep cur s : string) :
  PyStr.contains sep s = false ->
  PyStr.split_go sep None 0 cur s = [(cur ++ s)%string].
Proof.
  revert cur. induction s as [|c s IH]; intros cur H.
  - simpl. now rewrite append_empty.
  - cbn [PyStr.contains] in H. apply orb_false_iff in H. destruct H as [Hp Hs].
    rewrite split_go_eq, Hp, IH by exact Hs. now rewrite append_char.
Qed.

(** No [---] begins inside [fm], the dashes that follow it counted. *)
Lemma no_cut_inside (fm rest : string) :
  fm <> "" ->
  prefix "---" (fm ++ "--") = false ->
  prefix "---" (fm ++ "---" ++ rest) = false.
Proof.
  destruct fm as [|c1 [|c2 [|c3 fm]]]; intros Hne; [now contradiction Hne| | |];
    cbn [append]; rewrite ?prefix_cons, ?prefix_empty;
    repeat match goal with
           | |- context [Ascii.eqb ?x ?y] => destruct (Ascii.eqb x y)
           end; auto.
Qed.

Lemma split_go_frontmatter (fm cur rest : string) :
  PyStr.contains "---" (fm ++ "--") = false ->
  PyStr.split_go "---" None 0 cur (fm ++ "---" ++ rest)
  = (cur ++ fm)%string :: PyStr.split_go "---" None 0 EmptyString rest.
Proof.
  revert cur. induction fm as [|c fm IH]; intros cur H.
  - cbn [append]. rewrite split_go_eq, !prefix_cons, prefix_empty.
    cbn [Ascii.eqb Bool.eqb String.length Nat.sub].
    now rewrite append_empty.
  - change ((String c fm ++ "--")%string) with (String c (fm ++ "--")) in H.
    cbn [PyStr.contains] in H. apply orb_false_iff in H. destruct H as [Hp Hc].
    change ((String c fm ++ "---" ++ rest)%string)
      with (String c (fm ++ "---" ++ rest)).
    rewrite split_go_eq.
    change (String c (fm ++ "---" ++ rest))
      with ((String c fm ++ "---" ++ rest)%string).
    rewrite (no_cut_inside (String c fm) rest) by (discriminate || exact Hp).
    rewrite IH by exact Hc. now rewrite append_char.
Qed.

(** Where the file begins with a frontmatter block that has no [---]
    inside, the body stored is the text after the block. *)
Lemma strip_frontmatter_leading (fm body : string) :
  PyStr.contains "---" (fm ++ "--") = false ->
  MessageResolver.strip_frontmatter ("---" ++ fm ++ "---" ++ body)
  = PyStr.strip body.
Proof.
  intros H. unfold MessageResolver.strip_frontmatter, PyStr.split.
  change ("---" ++ fm ++ "---" ++ body)%string
    with ("" ++ "---" ++ (fm ++ "---" ++ body))%string.
  rewrite (split_go_frontmatter "" "" (fm ++ "---" ++ body) eq_refl).
  rewrite (split_go_frontmatter fm "" body H).
  destruct (split_go_cons "---" None 0 EmptyString body) as (x & l & Hx).
  rewrite Hx. cbn [List.length Nat.leb skipn]. rewrite <- Hx.
  fold (PyStr.split "---" body). now rewrite join_split.
Qed.

(** A file without any [---] is stored as it is, trimmed. *)
Lemma strip_frontmatter_plain (content : string) :
  PyStr.contains "---" content = false ->
  MessageResolver.strip_frontmatter content = PyStr.strip content.
Proof.
  intros H. unfold MessageResolver.strip_frontmatter, PyStr.split.
  now rewrite split_go_plain.
Qed.

(** C9 fails on the code.  [_load_all] cuts at every [---], wherever it
    stands: a template without frontmatter loses its text up to the second
    [---], be it in the separator row of a table or in two horizontal
    rules.  A template that begins with a frontmatter block, and one without
    any [---], are stored as specified ([strip_frontmatter_leading],
    [strip_frontmatter_plain]). *)
Theorem C9_frontmatter_strip_cuts_body :
  MessageResolver.strip_frontmatter Sample.table_template
  = ("|" ++ PyStr.nl ++ "| 1 | 2 |")%string
  /\ MessageResolver.strip_frontmatter Sample.ruled_template = "End"
  /\ PyStr.strip Sample.table_template = Sample.table_template
  /\ MessageResolver.strip_frontmatter Sample.table_template
     <> PyStr.strip Sample.table_template
  /\ MessageResolver.strip_frontmatter Sample.titled_template
     = "Send to {{fehbp_address.MailingAddress}}"
  /\ MessageResolver.strip_frontmatter "No frontmatter here. "
     = "No frontmatter here.".
Proof.
  split; [reflexivity|]. split; [reflexivity|]. split; [reflexivity|].
  split; [discriminate|]. split.
  - exact (strip_frontmatter_leading
             (PyStr.nl ++ "title: FEHBP" ++ PyStr.nl)
             (PyStr.nl ++ "Send to {{fehbp_address.MailingAddress}}" ++ PyStr.nl)
             eq_refl).
  - exact (strip_frontmatter_plain "No frontmatter here. " eq_refl).
Qed.

(* ================================================================== *)
(** ** Reload *)

(** A failed [reload] of the rule engine leaves [self.rules] and
    [self.templates] as they were, and with them every [evaluate]. *)
Lemma rule_engine_reload_failed (self self' : RuleEngine.t)
      (loaded : option value) (outcome : result unit) :
  RuleEngine.reload self loaded = (self', outcome) ->
  outcome <> Ok tt ->
  self'.(RuleEngine.rules) = self.(RuleEngine.rules)
  /\ self'.(RuleEngine.templates) = self.(RuleEngine.templates)
  /\ forall depth context data_source_results,
       RuleEngine.evaluate depth self' context data_source_results
       = RuleEngine.evaluate depth self context data_source_results.
Proof.
  unfold RuleEngine.reload. intros H Hfail.
  destruct loaded as [cfg|].
  - destruct (RuleEngine.build_rules cfg) as [rs| |] eqn:Eb.
    + assert (Htpl : exists tpl,
                 py_get cfg (VStr "condition_templates") (VDict []) = Ok tpl).
      { revert Eb. unfold RuleEngine.build_rules, py_get.
        destruct cfg; try discriminate. intros _. eexists; reflexivity. }
      destruct Htpl as [tpl Htpl]. rewrite Htpl in H.
      injection H as <- <-. now contradiction Hfail.
    + injection H as <- <-. repeat split.
    + injection H as <- <-. repeat split.
  - injection H as <- <-. repeat split.
Qed.

(** C8 fails on the code for the message templates.  [MessageResolver.reload]
    empties the cache before it reads anything: when a file cannot be read
    the exception leaves the cache without the templates it held, and
    [resolve] no longer finds a template it found before; when the directory
    is missing the cache is left empty without any exception.  A file read
    before the failing one stays, so the cache can also be left half
    reloaded.  The rule engine, for its part, evaluates as before after a
    reload that failed. *)
Theorem C8_reload_clears_templates :
  MessageResolver.resolve Sample.no_render Sample.no_repr Sample.loaded_cache
    "FEHBP_MEMBER" [] None
  = Some ("Send to [fehbp_address.MailingAddress]",
          "Send to [fehbp_address.MailingAddress]")
  /\ MessageResolver.reload Sample.unreadable_dir Sample.loaded_cache = ([], Raised)
  /\ MessageResolver.resolve Sample.no_render Sample.no_repr
       (fst (MessageResolver.reload Sample.unreadable_dir Sample.loaded_cache))
       "FEHBP_MEMBER" [] None = None
  /\ MessageResolver.reload Sample.missing_dir Sample.loaded_cache = ([], Ok tt)
  /\ MessageResolver.reload
       {| MessageResolver.dir_exists := true;
          MessageResolver.md_files := [("NEW", Some "New text"); ("FEHBP_MEMBER", None)] |}
       Sample.loaded_cache
     = ([("NEW", "New text")], Raised)
  /\ (forall self name rest,
        MessageResolver.reload
          {| MessageResolver.dir_exists := true;
             MessageResolver.md_files := (name, None) :: rest |} self
        = ([], Raised))
  /\ (forall depth context data_source_results,
        RuleEngine.evaluate depth
          (fst (RuleEngine.reload Sample.tie_engine (Some (VList []))))
          context data_source_results
        = RuleEngine.evaluate depth Sample.tie_engine context data_source_results).
Proof.
  repeat (split; [reflexivity|]).
  apply (rule_engine_reload_failed Sample.tie_engine _ (Some (VList [])) Raised);
    [reflexivity | discriminate].
Qed.

(* ================================================================== *)
(** ** More on [_compare] *)

(** Two strings normalize to equal values exactly when their lower-cased,
    trimmed texts are the same. *)
Lemma normalize_str_eq (s t : string) :
  py_eq (RuleEngine._normalize (VStr s)) (RuleEngine._normalize (VStr t))
  = String.eqb (PyStr.strip (PyStr.lower s)) (PyStr.strip (PyStr.lower t)).
Proof.
  destruct (normalize_str_cases s) as [[Es E] | [[Es E] | [N1 [N2 E]]]];
    destruct (normalize_str_cases t) as [[Et F] | [[Et F] | [M1 [M2 F]]]];
    rewrite E, F; cbv zeta in *; try rewrite Es; try rewrite Et;
    try reflexivity; cbn -[String.eqb]; symmetry.
  - now apply String.eqb_neq, not_eq_sym.
  - now apply String.eqb_neq, not_eq_sym.
  - now apply String.eqb_neq.
  - now apply String.eqb_neq.
Qed.

(** X1. Between two strings, [eq] and its alias [equals] compare the
    lower-cased, trimmed texts, and [neq] and [not_equals] are the negation:
    letter case and surrounding white space never make a difference. *)
Theorem X1_compare_strings (s t : string) :
  let same :=
    String.eqb (PyStr.strip (PyStr.lower s)) (PyStr.strip (PyStr.lower t)) in
  RuleEngine._compare (VStr s) (VStr t) (VStr "eq") = same
  /\ RuleEngine._compare (VStr s) (VStr t) (VStr "equals") = same
  /\ RuleEngine._compare (VStr s) (VStr t) (VStr "neq") = negb same
  /\ RuleEngine._compare (VStr s) (VStr t) (VStr "not_equals") = negb same.
Proof.
  cbv zeta. rewrite <- normalize_str_eq. repeat split.
Qed.

(** X2. [eq] between a boolean or an integer and a string: the string
    counts as the boolean its lower-cased, trimmed text spells, so [True]
    and the integer 1 equal any spelling of [true], [False] and 0 any
    spelling of [false], and no other integer equals any string: a number
    is never compared with the digits of a string. *)
Theorem X2_compare_number_with_text (t : string) :
  let low := PyStr.strip (PyStr.lower t) in
  (forall b : bool,
      RuleEngine._compare (VBool b) (VStr t) (VStr "eq")
      = String.eqb low (if b then "true" else "false")
      /\ RuleEngine._compare (VStr t) (VBool b) (VStr "eq")
         = String.eqb low (if b then "true" else "false"))
  /\ (forall z : Z,
         RuleEngine._compare (VInt z) (VStr t) (VStr "eq")
         = (Z.eqb z 1 && String.eqb low "true")
           || (Z.eqb z 0 && String.eqb low "false")).
Proof.
  cbv zeta.
  change ((forall b : bool,
             py_eq (VBool b) (RuleEngine._normalize (VStr t))
             = String.eqb (PyStr.strip (PyStr.lower t)) (if b then "true" else "false")
             /\ py_eq (RuleEngine._normalize (VStr t)) (VBool b)
                = String.eqb (PyStr.strip (PyStr.lower t))
                    (if b then "true" else "false"))
         /\ (forall z : Z,
                py_eq (VInt z) (RuleEngine._normalize (VStr t))
                = (Z.eqb z 1 && String.eqb (PyStr.strip (PyStr.lower t)) "true")
                  || (Z.eqb z 0 && String.eqb (PyStr.strip (PyStr.lower t)) "false"))).
  destruct (normalize_str_cases t) as [[Et F] | [[Et F] | [M1 [M2 F]]]];
    cbv zeta in *; rewrite F.
  - rewrite Et. split; [intros [|]; split; reflexivity|].
    intros z. cbn -[Z.eqb]. now rewrite andb_true_r, andb_false_r, orb_false_r.
  - rewrite Et. split; [intros [|]; split; reflexivity|].
    intros z. cbn -[Z.eqb]. now rewrite andb_true_r, andb_false_r.
  - apply String.eqb_neq in M1, M2.
    split; [intros [|]; [rewrite M1 | rewrite M2]; split; reflexivity|].
    intros z. rewrite M1, M2. cbn -[Z.eqb]. now rewrite !andb_false_r.
Qed.


(** X4. [is_empty_or_false] holds exactly for the values [is_empty] holds
    for and for the two texts [false] and [False] as they stand: the value
    is not normalized, so [FALSE] or a padded [false] does not count. *)
Theorem X4_is_empty_or_false (actual expected : value) :
  RuleEngine._compare actual expected (VStr "is_empty_or_false") = true
  <-> RuleEngine._compare actual expected (VStr "is_empty") = true
      \/ actual = VStr "false" \/ actual = VStr "False".
Proof.
  change (RuleEngine._compare actual expected (VStr "is_empty_or_false"))
    with (py_in actual (RuleEngine.empty_values ++ [VStr "false"; VStr "False"])).
  change (RuleEngine._compare actual expected (VStr "is_empty"))
    with (py_in actual RuleEngine.empty_values).
  unfold py_in. rewrite existsb_app. cbn [existsb].
  rewrite orb_false_r, !orb_true_iff, !py_eq_str_r. tauto.
Qed.

(* ================================================================== *)
(** ** More on conditions and blocks *)

Lemma blank_negation (p : value -> bool) (vs : list value) :
  negb (existsb (fun v => negb (p v)) vs) = forallb p vs.
Proof.
  induction vs as [|v vs IH]; simpl; [reflexivity|].
  now rewrite negb_orb, negb_involutive, IH.
Qed.

(** X5. For a leaf that names a source and no field, [is_empty] is the
    exact negation of [is_not_empty]: two such leaves on the same source
    give opposite answers, and raise together. *)
Theorem X5_source_leaf_empty_negation
        (empty_leaf filled_leaf context : dict) (ds : RuleEngine.source_results) :
  source_only empty_leaf = true ->
  source_only filled_leaf = true ->
  dict_item "source" empty_leaf = dict_item "source" filled_leaf ->
  dict_get "op" empty_leaf = Some (VStr "is_empty") ->
  dict_get "op" filled_leaf = Some (VStr "is_not_empty") ->
  RuleEngine._evaluate_condition empty_leaf context ds
  = (filled <- RuleEngine._evaluate_condition filled_leaf context ds ;;
     Ok (negb filled)).
Proof.
  unfold source_only, RuleEngine._evaluate_condition, dict_get_default.
  intros He Hf Hs Hoe Hof. rewrite He, Hf, Hoe, Hof, Hs.
  destruct (RuleEngine.ds_get ds (dict_item "source" filled_leaf))
    as [source_data| |]; [|reflexivity|reflexivity].
  cbn [bind py_eq String.eqb Ascii.eqb Bool.eqb].
  rewrite negb_andb, blank_negation. reflexivity.
Qed.

Lemma X5_source_leaf_empty_negation_witness :
  RuleEngine._evaluate_condition
    [("source", VStr "fehbp_address"); ("op", VStr "is_empty")] []
    [("fehbp_address", [("MailingAddress", VStr "")])]
  = Ok true.
Proof.
  rewrite (X5_source_leaf_empty_negation
             [("source", VStr "fehbp_address"); ("op", VStr "is_empty")]
             [("source", VStr "fehbp_address"); ("op", VStr "is_not_empty")]
             [] [("fehbp_address", [("MailingAddress", VStr "")])]
             eq_refl eq_refl eq_refl eq_refl eq_refl).
  reflexivity.
Defined.

Lemma evaluate_empty_leaf (context : dict) (ds : RuleEngine.source_results) :
  RuleEngine._evaluate_condition [] context ds
  = Ok (is_none (dict_get_default "" context VNone)).
Proof.
  unfold RuleEngine._evaluate_condition, RuleEngine._get_field, dict_get_default.
  cbn [dict_has dict_get andb negb].
  destruct (dict_get "" context) as [v|] eqn:Hg; cbn [bind].
  - f_equal. destruct v as [| b | z | f | s | l | d]; try reflexivity.
    destruct (normalize_str_cases s) as [[_ E] | [[_ E] | [_ [_ E]]]];
      unfold RuleEngine._compare; cbn [py_in existsb py_eq String.eqb Ascii.eqb
                                        Bool.eqb orb number_of];
      rewrite E; reflexivity.
  - change (PyStr.split "." "") with [""].
    cbn [last RuleEngine.get_field_loop]. unfold dict_get_default.
    rewrite Hg. reflexivity.
Qed.

(** X6. A condition block without any key, which is what a rule without
    [conditions] is given, tests the field named by the empty string for
    equality with [None]: it is true for every context that has no value
    under the empty key.  So a rule without conditions and without
    sub-rules that stands first in [self.rules] matches whatever is
    asked. *)
Theorem X6_rule_without_conditions
        (depth : nat) (self : RuleEngine.t) (rule : dict) (rest : list dict)
        (context : dict)
        (data_source_results : option RuleEngine.source_results) :
  self.(RuleEngine.rules) = rule :: rest ->
  dict_has "conditions" rule = false ->
  dict_has "sub_rules" rule = false ->
  (forall ds,
      RuleEngine._evaluate_block (S depth) self.(RuleEngine.templates)
        (RuleEngine.conditions_of rule) context ds
      = Ok (is_none (dict_get_default "" context VNone)))
  /\ (dict_has "" context = false ->
      RuleEngine.evaluate (S depth) self context data_source_results
      = Some (RuleEngine.parent_match rule)).
Proof.
  intros Hrules Hc Hs.
  assert (Hcond : RuleEngine.conditions_of rule = VDict []).
  { unfold RuleEngine.conditions_of, dict_get_default. unfold dict_has in Hc.
    now destruct (dict_get "conditions" rule). }
  assert (Hblock : forall ds,
             RuleEngine._evaluate_block (S depth) self.(RuleEngine.templates)
               (RuleEngine.conditions_of rule) context ds
             = Ok (is_none (dict_get_default "" context VNone))).
  { intros ds. rewrite Hcond. cbn [RuleEngine._evaluate_block dict_has dict_get].
    apply evaluate_empty_leaf. }
  split; [exact Hblock|].
  intros Hctx. unfold RuleEngine.evaluate. rewrite Hrules.
  cbn [RuleEngine.evaluate_loop]. unfold RuleEngine.try_rule.
  rewrite Hblock. unfold dict_has in Hctx, Hs. unfold dict_get_default.
  destruct (dict_get "" context); [discriminate|].
  destruct (dict_get "sub_rules" rule); [discriminate|]. reflexivity.
Qed.

Lemma X6_rule_without_conditions_witness :
  RuleEngine.evaluate 1
    {| RuleEngine.config := VNone;
       RuleEngine.rules := [[("id", VStr "CATCH_ALL")]];
       RuleEngine.templates := VDict [];
       RuleEngine.data_sources := VDict [] |}
    [("HCCustomerType", VStr "Member")] None
  = Some (RuleEngine.parent_match [("id", VStr "CATCH_ALL")]).
Proof.
  apply (X6_rule_without_conditions 0
           {| RuleEngine.config := VNone;
              RuleEngine.rules := [[("id", VStr "CATCH_ALL")]];
              RuleEngine.templates := VDict [];
              RuleEngine.data_sources := VDict [] |}
           [("id", VStr "CATCH_ALL")] []
           [("HCCustomerType", VStr "Member")] None
           eq_refl eq_refl eq_refl).
  reflexivity.
Defined.

Lemma py_all_negated (f : value -> result bool) (cs : list value) :
  (r <- py_all f cs ;; Ok (negb r))
  = py_any (fun c => r <- f c ;; Ok (negb r)) cs.
Proof.
  induction cs as [|c cs IH]; simpl; [reflexivity|].
  destruct (f c) as [[|]| |]; simpl; try reflexivity. exact IH.
Qed.

Lemma py_any_negated (f : value -> result bool) (cs : list value) :
  (r <- py_any f cs ;; Ok (negb r))
  = py_all (fun c => r <- f c ;; Ok (negb r)) cs.
Proof.
  induction cs as [|c cs IH]; simpl; [reflexivity|].
  destruct (f c) as [[|]| |]; simpl; try reflexivity. exact IH.
Qed.

Lemma py_all_map (f : value -> result bool) (g : value -> value)
      (cs : list value) :
  py_all f (map g cs) = py_all (fun c => f (g c)) cs.
Proof.
  induction cs as [|c cs IH]; simpl; [reflexivity|]. now rewrite IH.
Qed.

Lemma py_any_map (f : value -> result bool) (g : value -> value)
      (cs : list value) :
  py_any f (map g cs) = py_any (fun c => f (g c)) cs.
Proof.
  induction cs as [|c cs IH]; simpl; [reflexivity|]. now rewrite IH.
Qed.

Lemma evaluate_block_not (depth : nat) (templates b : value) (context : dict)
      (ds : RuleEngine.source_results) :
  RuleEngine._evaluate_block (S depth) templates (block_not b) context ds
  = (r <- RuleEngine._evaluate_block depth templates b context ds ;;
     Ok (negb r)).
Proof. reflexivity. Qed.

Lemma evaluate_block_all (depth : nat) (templates : value) (cs : list value)
      (context : dict) (ds : RuleEngine.source_results) :
  RuleEngine._evaluate_block (S depth) templates (block_all cs) context ds
  = py_all (fun c => RuleEngine._evaluate_block depth templates c context ds) cs.
Proof. reflexivity. Qed.

Lemma evaluate_block_any (depth : nat) (templates : value) (cs : list value)
      (context : dict) (ds : RuleEngine.source_results) :
  RuleEngine._evaluate_block (S depth) templates (block_any cs) context ds
  = py_any (fun c => RuleEngine._evaluate_block depth templates c context ds) cs.
Proof. reflexivity. Qed.

(** X7. The combinators obey De Morgan's laws and double negation, faults
    included: from a recursion depth of two on, [not] over [all] evaluates
    as [any] over the negated children, [not] over [any] as [all] over the
    negated children, and a doubly negated block as the block itself; each
    pair returns the same boolean, or raises alike. *)
Theorem X7_de_morgan (depth : nat) (templates : value) (cs : list value)
        (b : value) (context : dict) (ds : RuleEngine.source_results) :
  let eval := fun d block =>
    RuleEngine._evaluate_block d templates block context ds in
  eval (S (S depth)) (block_not (block_all cs))
  = eval (S (S depth)) (block_any (map block_not cs))
  /\ eval (S (S depth)) (block_not (block_any cs))
     = eval (S (S depth)) (block_all (map block_not cs))
  /\ eval (S (S depth)) (block_not (block_not b)) = eval depth b.
Proof.
  cbv zeta. split; [|split].
  - rewrite evaluate_block_not, evaluate_block_all, evaluate_block_any.
    rewrite py_all_negated, py_any_map. reflexivity.
  - rewrite evaluate_block_not, evaluate_block_all, evaluate_block_any.
    rewrite py_any_negated, py_all_map. reflexivity.
  - rewrite !evaluate_block_not.
    destruct (RuleEngine._evaluate_block depth templates b context ds)
      as [r| |]; simpl; [|reflexivity|reflexivity].
    now rewrite negb_involutive.
Qed.

Lemma py_all_decided (f : value -> result bool) (before after : list value)
      (c : value) :
  Forall (fun b => f b = Ok true) before -> f c = Ok false ->
  py_all f (before ++ c :: after) = Ok false.
Proof.
  intros Hb Hc. induction Hb as [|b before Hb _ IH]; simpl.
  - now rewrite Hc.
  - now rewrite Hb.
Qed.

Lemma py_any_decided (f : value -> result bool) (before after : list value)
      (c : value) :
  Forall (fun b => f b = Ok false) before -> f c = Ok true ->
  py_any f (before ++ c :: after) = Ok true.
Proof.
  intros Hb Hc. induction Hb as [|b before Hb _ IH]; simpl.
  - now rewrite Hc.
  - now rewrite Hb.
Qed.

(** X8. [all] and [any] stop at the child that decides them: once the
    children before it are true and one is false, [all] is false, and once
    those before it are false and one is true, [any] is true, whatever
    follows; a malformed block after the deciding child is never looked
    at. *)
Theorem X8_short_circuit (depth : nat) (templates : value)
        (before after : list value) (c : value) (decided : bool)
        (context : dict) (ds : RuleEngine.source_results) :
  let eval := fun d block =>
    RuleEngine._evaluate_block d templates block context ds in
  Forall (fun b => eval depth b = Ok (negb decided)) before ->
  eval depth c = Ok decided ->
  eval (S depth)
       ((if decided then block_any else block_all) (before ++ c :: after))
  = Ok decided.
Proof.
  cbv zeta. intros Hb Hc. destruct decided.
  - rewrite evaluate_block_any. now apply py_any_decided.
  - rewrite evaluate_block_all. now apply py_all_decided.
Qed.

Lemma X8_short_circuit_witness :
  RuleEngine._evaluate_block 2 (VDict [])
    (block_all [VDict []; Sample.leaf "state" "eq" "VA"; VInt 7]) [] []
  = Ok false.
Proof.
  apply (X8_short_circuit 1 (VDict []) [VDict []] [VInt 7]
           (Sample.leaf "state" "eq" "VA") false [] []).
  - repeat constructor.
  - reflexivity.
Defined.

(* ================================================================== *)
(** ** More on [evaluate] *)

Lemma sub_rules_loop_mono (N depth : nat) (templates : value) (rule : dict)
      (subs : list value) (context : dict) (ds : RuleEngine.source_results) :
  N <= depth ->
  RuleEngine.sub_rules_loop N templates rule subs context ds <> RecursionLimit ->
  RuleEngine.sub_rules_loop depth templates rule subs context ds
  = RuleEngine.sub_rules_loop N templates rule subs context ds.
Proof.
  intros Hle. induction subs as [|s subs IH]; simpl; [reflexivity|].
  destruct s as [| | | | | |sub]; try reflexivity.
  intros H.
  rewrite (evaluate_block_mono templates N depth (RuleEngine.conditions_of sub)
             context ds Hle).
  - destruct (RuleEngine._evaluate_block N templates
                (RuleEngine.conditions_of sub) context ds) as [[|]| |];
      simpl in *; try reflexivity. now apply IH.
  - intros E. rewrite E in H. now apply H.
Qed.

Lemma try_rule_mono (N depth : nat) (templates : value) (rule : dict)
      (context : dict) (ds : RuleEngine.source_results) :
  N <= depth ->
  RuleEngine.try_rule N templates rule context ds <> RecursionLimit ->
  RuleEngine.try_rule depth templates rule context ds
  = RuleEngine.try_rule N templates rule context ds.
Proof.
  intros Hle. unfold RuleEngine.try_rule. intros H.
  rewrite (evaluate_block_mono templates N depth (RuleEngine.conditions_of rule)
             context ds Hle).
  - destruct (RuleEngine._evaluate_block N templates
                (RuleEngine.conditions_of rule) context ds) as [[|]| |];
      simpl in *; try reflexivity.
    destruct (truthy (dict_get_default "sub_rules" rule (VList [])));
      [|reflexivity].
    destruct (py_iter (dict_get_default "sub_rules" rule (VList [])))
      as [subs| |]; simpl in *; try reflexivity.
    rewrite (sub_rules_loop_mono N depth templates rule subs context ds Hle);
      [reflexivity|].
    intros E. rewrite E in H. now apply H.
  - intros E. rewrite E in H. now apply H.
Qed.

(** X9. The answer of [evaluate] does not depend on the recursion limit once
    it is large enough: if at some depth no rule of [self.rules] runs into
    the limit, every larger depth gives the same match, or the same
    [None]. *)
Theorem X9_evaluate_depth_independent
        (N depth : nat) (self : RuleEngine.t) (context : dict)
        (data_source_results : option RuleEngine.source_results) :
  let ds := match data_source_results with Some d => d | None => [] end in
  N <= depth ->
  (forall rule, In rule self.(RuleEngine.rules) ->
     RuleEngine.try_rule N self.(RuleEngine.templates) rule context ds
     <> RecursionLimit) ->
  RuleEngine.evaluate depth self context data_source_results
  = RuleEngine.evaluate N self context data_source_results.
Proof.
  cbv zeta. intros Hle. unfold RuleEngine.evaluate.
  induction (RuleEngine.rules self) as [|rule rules IH]; intros H;
    [reflexivity|].
  cbn [RuleEngine.evaluate_loop].
  rewrite (try_rule_mono N depth _ rule context _ Hle (H rule (or_introl eq_refl))).
  rewrite IH by (intros r Hin; apply H; now right). reflexivity.
Qed.

Lemma X9_evaluate_depth_independent_witness :
  RuleEngine.evaluate 5 Sample.member_engine Sample.member_context None
  = RuleEngine.evaluate 2 Sample.member_engine Sample.member_context None.
Proof.
  apply (X9_evaluate_depth_independent 2 5 Sample.member_engine
           Sample.member_context None).
  - repeat constructor.
  - intros rule [<-|[]]. discriminate.
Defined.

(** X10. [evaluate] returns [None] exactly when no rule of [self.rules]
    matches: a rule whose conditions and sub-rule scan go through is never
    passed over. *)
Theorem X10_no_match_iff
        (depth : nat) (self : RuleEngine.t) (context : dict)
        (data_source_results : option RuleEngine.source_results) :
  let ds := match data_source_results with Some d => d | None => [] end in
  RuleEngine.evaluate depth self context data_source_results = None
  <-> Forall (fun rule =>
                forall m,
                  RuleEngine.try_rule depth self.(RuleEngine.templates) rule
                    context ds <> Ok (Some m))
             self.(RuleEngine.rules).
Proof.
  cbv zeta. unfold RuleEngine.evaluate.
  induction (RuleEngine.rules self) as [|rule rules IH]; simpl.
  - split; [constructor | reflexivity].
  - destruct (RuleEngine.try_rule depth (RuleEngine.templates self) rule context
                match data_source_results with Some d => d | None => [] end)
      as [[m|]| |] eqn:E.
    + split; [discriminate|]. intros H. apply Forall_inv in H.
      now contradiction (H m).
    + rewrite IH. split; [intros H; constructor; [intros m; rewrite E; discriminate | exact H]|].
      intros H. now inversion H.
    + rewrite IH. split; [intros H; constructor; [intros m; rewrite E; discriminate | exact H]|].
      intros H. now inversion H.
    + rewrite IH. split; [intros H; constructor; [intros m; rewrite E; discriminate | exact H]|].
      intros H. now inversion H.
Qed.

(* ================================================================== *)
(** ** The rule listing and the lookup by id *)

Lemma rule_by_id_loop_spec (rs : list dict) (rule_id : value) :
  match RuleEngine.rule_by_id_loop rs rule_id with
  | Some r =>
      exists before after,
        rs = before ++ r :: after
        /\ py_eq (dict_get_default "id" r VNone) rule_id = true
        /\ Forall (fun other =>
                     py_eq (dict_get_default "id" other VNone) rule_id = false)
                  before
  | None =>
      Forall (fun other =>
                py_eq (dict_get_default "id" other VNone) rule_id = false) rs
  end.
Proof.
  induction rs as [|r rs IH]; simpl; [constructor|].
  destruct (py_eq (dict_get_default "id" r VNone) rule_id) eqn:E.
  - exists [], rs. repeat split; [exact E | constructor].
  - destruct (RuleEngine.rule_by_id_loop rs rule_id) as [found|].
    + destruct IH as (before & after & -> & Hid & Hb).
      exists (r :: before), after. repeat split; [exact Hid|].
      now constructor.
    + now constructor.
Qed.

(** X11. For an engine whose rules were built from a configuration,
    [get_rule_by_id] answers from the active rules only: the rule it
    returns is a rule of the configuration that is active, and its id
    equals the one asked for; it returns [None] exactly when no active rule
    has the id, so a rule with [active] false cannot be fetched.  Where the
    priorities of the active rules are ordered by [<], no other active rule
    with that id has a lower priority, and of those with the same priority
    the one declared first is returned. *)
Theorem X11_get_rule_by_id (cfg : value) (self : RuleEngine.t)
        (rule_id : value) :
  let active := active_declared cfg in
  let id := fun r : dict =>
    match dict_get "id" r with Some i => i | None => VNone end in
  RuleEngine.build_rules cfg = Ok self.(RuleEngine.rules) ->
  match RuleEngine.get_rule_by_id self rule_id with
  | Some r =>
      In (VDict r) (declared_rules cfg)
      /\ is_active r = true
      /\ py_eq (id r) rule_id = true
      /\ (consistent_order (map declared_priority active) ->
          exists i,
            nth_error active i = Some r
            /\ forall j other,
                 j <> i ->
                 nth_error active j = Some other ->
                 py_eq (id other) rule_id = true ->
                 py_lt (declared_priority other) (declared_priority r) = Ok false
                 /\ (py_lt (declared_priority r) (declared_priority other)
                     = Ok false -> (i < j)%nat))
  | None =>
      forall other,
        In (VDict other) (declared_rules cfg) ->
        is_active other = true ->
        py_eq (id other) rule_id = false
  end.
Proof.
  intros active id Hb.
  apply build_rules_declared in Hb. fold active in Hb.
  destruct (py_sorted_numbered declared_priority active _ Hb)
    as (placed & Hplaced & Hrules).
  pose proof (py_sorted_perm _ _ _ Hplaced) as Hperm.
  unfold RuleEngine.get_rule_by_id. rewrite Hrules.
  pose proof (rule_by_id_loop_spec (map snd placed) rule_id) as Hspec.
  destruct (RuleEngine.rule_by_id_loop (map snd placed) rule_id) as [r|].
  - destruct Hspec as (before & after & Hsplit & Hid & Hbefore).
    apply map_eq_app in Hsplit. destruct Hsplit as (s1 & s2' & Hs & Hs1 & Hs2).
    apply map_eq_cons in Hs2. destruct Hs2 as ([i r'] & s2 & -> & Hx & Hs2).
    simpl in Hx. subst r'.
    assert (Hin : In (i, r) (numbered 0 active)).
    { apply (Permutation_in _ (Permutation_sym Hperm)). rewrite Hs. apply in_elt. }
    apply numbered_In in Hin. destruct Hin as [_ Hnth].
    rewrite Nat.sub_0_r in Hnth.
    pose proof (proj1 (active_declared_In cfg r) (nth_error_In _ _ Hnth))
      as [Hdecl Hact].
    split; [exact Hdecl|]. split; [exact Hact|]. split; [exact Hid|].
    intros Hord. exists i. split; [exact Hnth|].
    intros j other Hji Hj Hsame.
    assert (Hsorted : StronglySorted (stable_order declared_priority) placed).
    { apply (py_sorted_stable declared_priority (map declared_priority active)
               Hord (numbered 0 active) placed);
        [|apply numbered_sorted | exact Hplaced].
      apply Forall_forall. intros [k y] Hk. simpl.
      apply numbered_In in Hk. destruct Hk as [_ Hk].
      apply in_map. exact (nth_error_In _ _ Hk). }
    assert (Hinj : In (j, other) placed).
    { apply (Permutation_in _ Hperm). exact (numbered_nth active 0 j other Hj). }
    rewrite Hs in Hinj, Hsorted.
    apply in_app_or in Hinj. destruct Hinj as [Hinj|[Hinj|Hinj]].
    + exfalso. rewrite Forall_forall in Hbefore.
      assert (Hob : In other before)
        by (rewrite <- Hs1; now apply (in_map snd) in Hinj).
      specialize (Hbefore other Hob). unfold id in Hsame.
      unfold dict_get_default in Hbefore. rewrite Hsame in Hbefore.
      discriminate.
    + injection Hinj as <- <-. now contradiction Hji.
    + pose proof (strongly_sorted_after _ _ _ _ Hsorted) as Hafter.
      rewrite Forall_forall in Hafter. exact (Hafter _ Hinj).
  - intros other Hother Hact. rewrite Forall_forall in Hspec.
    apply (Hspec other).
    assert (Hin : In other active) by (apply active_declared_In; now split).
    apply In_nth_error in Hin. destruct Hin as [j Hj].
    apply (in_map snd placed (j, other)).
    apply (Permutation_in _ Hperm). exact (numbered_nth active 0 j other Hj).
Qed.

Lemma X11_get_rule_by_id_witness :
  exists r i,
    RuleEngine.get_rule_by_id Sample.tie_engine (VStr "B") = Some r
    /\ is_active r = true
    /\ nth_error (active_declared Sample.tie_config) i = Some r.
Proof.
  pose proof (X11_get_rule_by_id Sample.tie_config Sample.tie_engine (VStr "B")
                (init_builds Sample.tie_config Sample.tie_engine eq_refl)) as H.
  change (RuleEngine.get_rule_by_id Sample.tie_engine (VStr "B"))
    with (Some Sample.rule_b) in H.
  destruct H as (_ & Ha & _ & Hp).
  assert (Hord : consistent_order
                   (map declared_priority (active_declared Sample.tie_config))).
  { apply integers_consistent. repeat constructor. }
  destruct (Hp Hord) as (i & Hi & _).
  exists Sample.rule_b, i. split; [reflexivity|]. split; [exact Ha | exact Hi].
Defined.

Lemma rule_by_id_loop_unique (rs : list dict) (r : dict) (s : string) :
  NoDup (map (dict_get "id") rs) ->
  In r rs ->
  dict_get "id" r = Some (VStr s) ->
  RuleEngine.rule_by_id_loop rs (VStr s) = Some r.
Proof.
  induction rs as [|r0 rs IH]; simpl; [intros _ []|].
  intros Hnd Hin Hid. inversion Hnd as [|? ? Hnotin Hnd']; subst.
  destruct Hin as [->|Hin].
  - unfold dict_get_default. rewrite Hid. simpl. now rewrite String.eqb_refl.
  - destruct (py_eq (dict_get_default "id" r0 VNone) (VStr s)) eqn:E.
    + exfalso. apply py_eq_str_r in E. apply Hnotin.
      assert (Hr0 : dict_get "id" r0 = Some (VStr s)).
      { unfold dict_get_default in E. destruct (dict_get "id" r0); congruence. }
      rewrite Hr0, <- Hid. now apply in_map.
    + now apply IH.
Qed.

(** X12. When the rules of the engine carry pairwise distinct ids that are
    strings, every entry of [get_all_rules] can be fetched back:
    [get_rule_by_id] on the id the entry shows returns the rule the entry
    summarizes.  The listing has one entry per rule of [self.rules], in
    the same order. *)
Theorem X12_listed_rules_fetchable (self : RuleEngine.t) :
  NoDup (map (dict_get "id") self.(RuleEngine.rules)) ->
  Forall (fun r => exists s, dict_get "id" r = Some (VStr s))
         self.(RuleEngine.rules) ->
  List.length (RuleEngine.get_all_rules self)
  = List.length self.(RuleEngine.rules)
  /\ forall i r,
       nth_error self.(RuleEngine.rules) i = Some r ->
       exists summary,
         nth_error (RuleEngine.get_all_rules self) i = Some summary
         /\ summary = RuleEngine.rule_summary r
         /\ RuleEngine.get_rule_by_id self (dict_item "id" summary) = Some r.
Proof.
  intros Hnd Hstr. unfold RuleEngine.get_all_rules, RuleEngine.get_rule_by_id.
  split; [apply length_map|].
  intros i r Hi. exists (RuleEngine.rule_summary r).
  split; [now rewrite nth_error_map, Hi|]. split; [reflexivity|].
  assert (Hin : In r (RuleEngine.rules self)) by (eapply nth_error_In; eassumption).
  rewrite Forall_forall in Hstr. destruct (Hstr r Hin) as [s Hs].
  assert (Hitem : dict_item "id" (RuleEngine.rule_summary r) = VStr s).
  { unfold RuleEngine.rule_summary, dict_item, dict_get_default.
    cbn [dict_get String.eqb Ascii.eqb Bool.eqb]. now rewrite Hs. }
  rewrite Hitem. now apply rule_by_id_loop_unique.
Qed.

Lemma X12_listed_rules_fetchable_witness :
  RuleEngine.get_rule_by_id Sample.tie_engine (VStr "B") = Some Sample.rule_b.
Proof.
  assert (Hnd : NoDup (map (dict_get "id") (RuleEngine.rules Sample.tie_engine))).
  { repeat constructor; simpl; intuition discriminate. }
  assert (Hstr : Forall (fun r => exists s, dict_get "id" r = Some (VStr s))
                        (RuleEngine.rules Sample.tie_engine)).
  { repeat constructor; eexists; reflexivity. }
  destruct (X12_listed_rules_fetchable Sample.tie_engine Hnd Hstr) as [_ H].
  destruct (H 1 Sample.rule_b eq_refl) as (summary & _ & -> & Hget).
  exact Hget.
Defined.

(** X13. [reload] succeeds exactly when building an engine from the same
    file would; it then holds the configuration, the rules and the
    templates the new engine would hold, and the [data_sources] it had
    before: that attribute is set by [__init__] alone and never
    refreshed. *)
Theorem X13_reload_keeps_data_sources (self self' : RuleEngine.t) (cfg : value) :
  RuleEngine.reload self (Some cfg) = (self', Ok tt)
  <-> exists fresh,
        RuleEngine.__init__ (Some cfg) = Ok fresh
        /\ self' = {| RuleEngine.config := fresh.(RuleEngine.config);
                      RuleEngine.rules := fresh.(RuleEngine.rules);
                      RuleEngine.templates := fresh.(RuleEngine.templates);
                      RuleEngine.data_sources := self.(RuleEngine.data_sources) |}.
Proof.
  unfold RuleEngine.reload, RuleEngine.__init__.
  destruct (RuleEngine.build_rules cfg) as [rs| |] eqn:Eb; simpl.
  2-3: split; [discriminate | intros (fresh & H & _); discriminate].
  assert (Hcfg : exists c, cfg = VDict c).
  { unfold RuleEngine.build_rules in Eb.
    destruct cfg; try discriminate. now eexists. }
  destruct Hcfg as [c ->]. cbn [py_get bind]. split.
  - intros [= <-]. eexists. split; reflexivity.
  - intros (fresh & [= <-] & ->). reflexivity.
Qed.

(* ================================================================== *)
(** ** The template cache *)

Lemma cache_get_set (k k' v : string) (c : MessageResolver.cache) :
  MessageResolver.cache_get k (MessageResolver.cache_set k' v c)
  = if String.eqb k k' then Some v else MessageResolver.cache_get k c.
Proof.
  induction c as [|[k0 v0] c IH]; simpl.
  - reflexivity.
  - destruct (String.eqb_spec k' k0) as [->|Hne]; simpl.
    + now destruct (String.eqb k k0).
    + destruct (String.eqb_spec k k0) as [->|Hk].
      * apply String.eqb_neq in Hne. rewrite String.eqb_sym in Hne.
        now rewrite Hne.
      * exact IH.
Qed.

Lemma load_files_other (files : list (string * option string))
      (c : MessageResolver.cache) (k : string) :
  ~ In k (map fst files) ->
  MessageResolver.cache_get k (fst (MessageResolver.load_files files c))
  = MessageResolver.cache_get k c.
Proof.
  revert c. induction files as [|[k0 [content|]] files IH]; intros c Hk;
    simpl in *; try reflexivity.
  rewrite IH by tauto. rewrite cache_get_set.
  destruct (String.eqb_spec k k0) as [->|_]; [|reflexivity].
  exfalso. apply Hk. now left.
Qed.

Lemma load_files_readable (files : list (string * option string))
      (c : MessageResolver.cache) :
  Forall (fun f => snd f <> None) files ->
  snd (MessageResolver.load_files files c) = Ok tt.
Proof.
  intros H. revert c. induction H as [|[k [content|]] files Hf _ IH]; intros c;
    simpl; [reflexivity | apply IH | now contradiction Hf].
Qed.

Lemma load_files_stored (files : list (string * option string))
      (c : MessageResolver.cache) (k content : string) :
  NoDup (map fst files) ->
  Forall (fun f => snd f <> None) files ->
  In (k, Some content) files ->
  MessageResolver.cache_get k (fst (MessageResolver.load_files files c))
  = Some (MessageResolver.strip_frontmatter content).
Proof.
  intros Hnd Hall. revert c.
  induction Hall as [|[k0 [c0|]] files Hf _ IH]; intros c Hin;
    simpl in *; [contradiction | | now contradiction Hf].
  inversion Hnd as [|? ? Hnotin Hnd']; subst.
  destruct Hin as [[= -> ->]|Hin].
  - rewrite load_files_other by exact Hnotin.
    now rewrite cache_get_set, String.eqb_refl.
  - now apply IH.
Qed.

(** X14. Loading a directory all of whose files can be read goes through,
    and afterwards the cache answers for exactly the files found: under the
    stem of each file it holds that file's text with the frontmatter
    stripped, and under any other name nothing, so that [resolve] returns
    [None] exactly for the names that are no file's stem.  (Stems are
    distinct, as file names in one directory are.) *)
Theorem X14_load_all_lookup
        (render : string -> string) (repr_compound : value -> string)
        (dir : MessageResolver.directory) :
  dir.(MessageResolver.dir_exists) = true ->
  NoDup (map fst dir.(MessageResolver.md_files)) ->
  Forall (fun f => snd f <> None) dir.(MessageResolver.md_files) ->
  exists loaded,
    MessageResolver.__init__ dir = (loaded, Ok tt)
    /\ (forall key content,
           In (key, Some content) dir.(MessageResolver.md_files) ->
           MessageResolver.cache_get key loaded
           = Some (MessageResolver.strip_frontmatter content))
    /\ (forall key context data_source_results,
           MessageResolver.resolve render repr_compound loaded key context
             data_source_results = None
           <-> ~ In key (map fst dir.(MessageResolver.md_files))).
Proof.
  intros He Hnd Hall.
  unfold MessageResolver.__init__, MessageResolver._load_all. rewrite He.
  cbn [negb].
  exists (fst (MessageResolver.load_files dir.(MessageResolver.md_files) [])).
  split; [|split].
  - rewrite <- (load_files_readable _ [] Hall). now destruct MessageResolver.load_files.
  - intros key content Hin. now apply load_files_stored.
  - intros key context dsr. unfold MessageResolver.resolve. split.
    + intros Hnone Hin. apply in_map_iff in Hin.
      destruct Hin as ([k content] & <- & Hin). simpl in Hnone.
      destruct content as [content|].
      * rewrite (load_files_stored _ [] k content Hnd Hall Hin) in Hnone.
        discriminate.
      * rewrite Forall_forall in Hall. now apply (Hall _ Hin).
    + intros Hnot. now rewrite (load_files_other _ [] key Hnot).
Qed.

Lemma X14_load_all_lookup_witness :
  exists loaded,
    MessageResolver.__init__
      {| MessageResolver.dir_exists := true;
         MessageResolver.md_files := [("FEHBP_MEMBER", Some Sample.titled_template)] |}
    = (loaded, Ok tt)
    /\ MessageResolver.cache_get "FEHBP_MEMBER" loaded
       = Some (MessageResolver.strip_frontmatter Sample.titled_template).
Proof.
  destruct (X14_load_all_lookup Sample.no_render Sample.no_repr
              {| MessageResolver.dir_exists := true;
                 MessageResolver.md_files :=
                   [("FEHBP_MEMBER", Some Sample.titled_template)] |})
    as (loaded & Hl & Hget & _).
  - reflexivity.
  - repeat constructor. intros [].
  - repeat constructor. discriminate.
  - exists loaded. split; [exact Hl|]. apply Hget. now left.
Defined.

Lemma strip_frontmatter_trimmed (content : string) :
  PyStr.strip (MessageResolver.strip_frontmatter content)
  = MessageResolver.strip_frontmatter content.
Proof.
  unfold MessageResolver.strip_frontmatter.
  destruct (3 <=? List.length (PyStr.split "---" content))%nat; apply strip_idem.
Qed.

Lemma load_files_trimmed (files : list (string * option string))
      (c : MessageResolver.cache) :
  (forall k body, MessageResolver.cache_get k c = Some body ->
                  PyStr.strip body = body) ->
  forall k body,
    MessageResolver.cache_get k (fst (MessageResolver.load_files files c))
    = Some body ->
    PyStr.strip body = body.
Proof.
  revert c. induction files as [|[k0 [content|]] files IH]; intros c Hc;
    simpl; try exact Hc.
  apply IH. intros k body. rewrite cache_get_set.
  destruct (String.eqb k k0); [|apply Hc].
  intros [= <-]. apply strip_frontmatter_trimmed.
Qed.

(** X15. Whatever the directory holds, and whether the load goes through
    or breaks off at an unreadable file, every body the cache holds after
    [__init__] or [reload] is trimmed: it neither begins nor ends with
    white space. *)
Theorem X15_cached_bodies_trimmed
        (dir : MessageResolver.directory) (old : MessageResolver.cache)
        (key body : string) :
  (MessageResolver.cache_get key (fst (MessageResolver.__init__ dir)) = Some body
   \/ MessageResolver.cache_get key (fst (MessageResolver.reload dir old))
      = Some body) ->
  PyStr.strip body = body.
Proof.
  unfold MessageResolver.__init__, MessageResolver.reload,
    MessageResolver._load_all.
  intros H.
  assert (H' : MessageResolver.cache_get key
                 (fst (if negb (MessageResolver.dir_exists dir)
                       then ([], Ok tt)
                       else MessageResolver.load_files
                              (MessageResolver.md_files dir) []))
               = Some body) by (destruct H; assumption).
  destruct (negb (MessageResolver.dir_exists dir)); [discriminate|].
  revert H'. apply load_files_trimmed. intros k b. discriminate.
Qed.

Lemma X15_cached_bodies_trimmed_witness :
  PyStr.strip "Send to {{fehbp_address.MailingAddress}}"
  = "Send to {{fehbp_address.MailingAddress}}".
Proof.
  apply (X15_cached_bodies_trimmed
           {| MessageResolver.dir_exists := true;
              MessageResolver.md_files :=
                [("FEHBP_MEMBER", Some Sample.titled_template)] |}
           [] "FEHBP_MEMBER").
  left. reflexivity.
Defined.

(** *** [list_templates] *)

Lemma ltb_trans (a b c : string) :
  String.ltb a b = true -> String.ltb b c = true -> String.ltb a c = true.
Proof.
  unfold String.ltb. intros Hab Hbc.
  destruct (String.compare a b) eqn:Eab; try discriminate.
  destruct (String.compare b c) eqn:Ebc; try discriminate.
  apply OrderedTypeEx.String_as_OT.cmp_lt in Eab, Ebc.
  pose proof (OrderedTypeEx.String_as_OT.lt_trans a b c Eab Ebc) as Hac.
  apply OrderedTypeEx.String_as_OT.cmp_lt in Hac.
  unfold OrderedTypeEx.String_as_OT.cmp in Hac. now rewrite Hac.
Qed.

Lemma ltb_total (a b : string) :
  String.ltb a b = false -> a = b \/ String.ltb b a = true.
Proof.
  unfold String.ltb. intros H.
  pose proof (OrderedTypeEx.String_as_OT.cmp_antisym b a) as Ha.
  unfold OrderedTypeEx.String_as_OT.cmp in Ha.
  destruct (String.compare a b) eqn:Eab; try discriminate.
  - left. now apply OrderedTypeEx.String_as_OT.cmp_eq.
  - right. now rewrite Ha.
Qed.

Lemma insert_str_In (x y : string) (l : list string) :
  In y (MessageResolver.insert_str x l) <-> y = x \/ In y l.
Proof.
  induction l as [|z l IH]; simpl; [intuition|].
  destruct (String.ltb z x); simpl; [rewrite IH|]; intuition.
Qed.

Lemma sort_str_In (y : string) (l : list string) :
  In y (MessageResolver.sort_str l) <-> In y l.
Proof.
  induction l as [|x l IH]; simpl; [reflexivity|].
  rewrite insert_str_In, IH. intuition.
Qed.

Lemma insert_str_sorted (x : string) (l : list string) :
  ~ In x l ->
  StronglySorted (fun a b => String.ltb a b = true) l ->
  StronglySorted (fun a b => String.ltb a b = true) (MessageResolver.insert_str x l).
Proof.
  intros Hx H. induction H as [|y l Hl IH Hy]; simpl.
  - repeat constructor.
  - destruct (String.ltb y x) eqn:E.
    + constructor; [apply IH; intros Hin; apply Hx; now right|].
      rewrite Forall_forall in *. intros z Hz.
      apply insert_str_In in Hz. destruct Hz as [->|Hz]; [exact E | now apply Hy].
    + assert (Hxy : String.ltb x y = true).
      { destruct (ltb_total y x E) as [->|Hlt]; [|exact Hlt].
        exfalso. apply Hx. now left. }
      constructor; [now constructor|].
      constructor; [exact Hxy|].
      rewrite Forall_forall in *. intros z Hz.
      apply (ltb_trans x y z Hxy). now apply Hy.
Qed.

Lemma sort_str_sorted (l : list string) :
  NoDup l ->
  StronglySorted (fun a b => String.ltb a b = true) (MessageResolver.sort_str l).
Proof.
  induction 1 as [|x l Hx Hnd IH]; simpl; [constructor|].
  apply insert_str_sorted; [|exact IH]. now rewrite sort_str_In.
Qed.

Lemma mem_string_In (k : string) (l : list string) :
  mem_string k l = true <-> In k l.
Proof.
  unfold mem_string. rewrite existsb_exists. split.
  - intros (x & Hin & E). apply String.eqb_eq in E. now subst.
  - intros Hin. exists k. split; [exact Hin | apply String.eqb_refl].
Qed.

Lemma cache_keys_from_spec (c : MessageResolver.cache) (seen : list string) :
  NoDup (MessageResolver.cache_keys_from seen c)
  /\ forall k,
       In k (MessageResolver.cache_keys_from seen c)
       <-> ~ In k seen /\ MessageResolver.cache_get k c <> None.
Proof.
  revert seen. induction c as [|[k0 v0] c IH]; intros seen; simpl.
  - split; [constructor|]. intros k. split; [intros [] | intros [_ H]; now apply H].
  - destruct (mem_string k0 seen) eqn:E.
    + destruct (IH seen) as [Hnd Hin]. split; [exact Hnd|].
      intros k. rewrite Hin. apply mem_string_In in E.
      destruct (String.eqb_spec k k0) as [->|_]; [|reflexivity].
      split; [intros [H _]; contradiction | intros [H _]; contradiction].
    + destruct (IH (k0 :: seen)) as [Hnd Hin].
      assert (Hk0 : ~ In k0 seen).
      { intros H. apply mem_string_In in H. congruence. }
      split.
      * constructor; [|exact Hnd]. rewrite Hin. simpl. tauto.
      * intros k. simpl. rewrite Hin. simpl.
        destruct (String.eqb_spec k k0) as [->|Hne].
        -- split; [intros _; split; [exact Hk0 | discriminate] | now left].
        -- split.
           ++ intros [H|H]; [now contradiction Hne | tauto].
           ++ intros [H1 H2]. right. split; [|exact H2].
              intros [H|H]; [now contradiction Hne | contradiction].
Qed.

(** X16. [list_templates] gives every name the cache answers for, each
    once, in strictly ascending order of code points. *)
Theorem X16_list_templates_sorted (self : MessageResolver.cache) :
  StronglySorted (fun a b => String.ltb a b = true)
                 (MessageResolver.list_templates self)
  /\ forall key,
       In key (MessageResolver.list_templates self)
       <-> exists body, MessageResolver.cache_get key self = Some body.
Proof.
  unfold MessageResolver.list_templates, MessageResolver.cache_keys.
  destruct (cache_keys_from_spec self []) as [Hnd Hin]. split.
  - now apply sort_str_sorted.
  - intros key. rewrite sort_str_In, Hin. split.
    + intros [_ H]. destruct (MessageResolver.cache_get key self) as [body|];
        [now exists body | now contradiction H].
    + intros [body ->]. split; [intros [] | discriminate].
Qed.

(** *** Templates without placeholders *)

Lemma sub_go_plain (f : string -> string) (s : string) :
  PyStr.contains "{{" s = false -> MessageResolver.sub_go f 0 s = s.
Proof.
  induction s as [|c s IH]; [reflexivity|].
  cbn [PyStr.contains]. rewrite orb_false_iff. intros [Hp Hc].
  rewrite sub_go_eq, Hp. now rewrite IH.
Qed.

(** X17. A template without [{{] is returned as it is stored, rendered and
    raw, whatever the context and the data sources hold. *)
Theorem X17_plain_template_verbatim
        (render : string -> string) (repr_compound : value -> string)
        (self : MessageResolver.cache) (message_ref template : string)
        (context : dict)
        (data_source_results : option RuleEngine.source_results) :
  MessageResolver.cache_get message_ref self = Some template ->
  PyStr.contains "{{" template = false ->
  MessageResolver.resolve render repr_compound self message_ref context
    data_source_results
  = Some (template, render template).
Proof.
  intros Hget Hplain. unfold MessageResolver.resolve, MessageResolver.re_sub.
  rewrite Hget. now rewrite sub_go_plain.
Qed.

Lemma X17_plain_template_verbatim_witness :
  MessageResolver.resolve Sample.no_render Sample.no_repr
    [("CALL", "Call Member Services.")] "CALL" [] None
  = Some ("Call Member Services.", "Call Member Services.").
Proof.
  apply (X17_plain_template_verbatim Sample.no_render Sample.no_repr
           [("CALL", "Call Member Services.")] "CALL" "Call Member Services."
           [] None); reflexivity.
Defined.

(* ================================================================== *)
(** ** The data sources *)

Ltac split_ifs :=
  repeat match goal with
         | |- context [if ?b then _ else _] =>
             match type of b with bool => destruct b end
         end.

Lemma resolved_flags_of_context (context : dict) :
  Chat.resolved_flags (DataSourceResolver.resolve_all context)
  = [("fehbp_address",
      py_eq (dict_get_default "account_type" context (VStr "")) (VStr "FEHBP")
      || truthy (dict_get_default "has_fehbp_address" context (VBool false)));
     ("group_details", true);
     ("account_type", true)].
Proof.
  unfold Chat.resolved_flags, DataSourceResolver.resolve_all,
    DataSourceResolver._resolve_fehbp, DataSourceResolver._resolve_group_details,
    DataSourceResolver._resolve_account_type.
  cbn [map fst snd].
  split_ifs; reflexivity.
Qed.

(** X18. The resolver reports [group_details] and [account_type] as
    resolved for every context: their mappings always hold their one key,
    a funding code among [A], [E] and the empty text, an account type
    among [SHBP], [National], [FEHBP], [Individual] and the empty text.
    [fehbp_address] is resolved exactly when the context's [account_type]
    equals [FEHBP] or its [has_fehbp_address] is truthy. *)
Theorem X18_resolved_flags (context : dict) :
  Chat.resolved_flags (DataSourceResolver.resolve_all context)
  = [("fehbp_address",
      py_eq (dict_get_default "account_type" context (VStr "")) (VStr "FEHBP")
      || truthy (dict_get_default "has_fehbp_address" context (VBool false)));
     ("group_details", true);
     ("account_type", true)]
  /\ (exists code,
         DataSourceResolver._resolve_group_details context
         = [("FundingTypeCode", VStr code)]
         /\ In code ["A"; "E"; ""])
  /\ (exists account,
         DataSourceResolver._resolve_account_type context
         = [("AccountType", VStr account)]
         /\ In account ["SHBP"; "National"; "FEHBP"; "Individual"; ""]).
Proof.
  split; [apply resolved_flags_of_context|].
  unfold DataSourceResolver._resolve_group_details,
    DataSourceResolver._resolve_account_type.
  split;
    split_ifs;
    eexists; (split; [reflexivity | simpl; tauto]).
Qed.

Lemma source_leaf_filled (cond context : dict) (ds : RuleEngine.source_results)
      (name : string) :
  source_only cond = true ->
  dict_get "op" cond = Some (VStr "is_not_empty") ->
  dict_item "source" cond = VStr name ->
  RuleEngine._evaluate_condition cond context ds
  = Ok (existsb (fun v => negb (py_in v RuleEngine.blank_values))
          (dict_values
             (match RuleEngine.source_get name ds with
              | Some d => d
              | None => []
              end))).
Proof.
  unfold source_only, RuleEngine._evaluate_condition, dict_get_default.
  intros Hs Hop Hn. rewrite Hs, Hop, Hn.
  cbn [RuleEngine.ds_get bind py_eq String.eqb Ascii.eqb Bool.eqb].
  now destruct (RuleEngine.source_get name ds) as [[|kv d]|].
Qed.

(** X19. What a leaf [{source: ..., op: is_not_empty}] without a field
    tests on the results of [resolve_all]: on [fehbp_address], that the
    account is FEHBP or has an FEHBP address; on [group_details], that
    [IsASO] is truthy or [funding_type] is [Fully Insured]; on
    [account_type], that [account_type] is one of [SHBP], [National],
    [FEHBP], [Individual] and [Exchange]; on any other source name it is
    false. *)
Theorem X19_source_leaf_on_resolved (cond context : dict) :
  let result :=
    RuleEngine._evaluate_condition cond context
      (DataSourceResolver.resolve_all context) in
  let account := dict_get_default "account_type" context (VStr "") in
  source_only cond = true ->
  dict_get "op" cond = Some (VStr "is_not_empty") ->
  (dict_item "source" cond = VStr "fehbp_address" ->
   result
   = Ok (py_eq account (VStr "FEHBP")
         || truthy (dict_get_default "has_fehbp_address" context (VBool false))))
  /\ (dict_item "source" cond = VStr "group_details" ->
      result
      = Ok (truthy (dict_get_default "IsASO" context (VBool false))
            || py_eq (dict_get_default "funding_type" context (VStr ""))
                 (VStr "Fully Insured")))
  /\ (dict_item "source" cond = VStr "account_type" ->
      result
      = Ok (py_in account
              [VStr "SHBP"; VStr "National"; VStr "FEHBP"; VStr "Individual";
               VStr "Exchange"]))
  /\ (forall name,
         dict_item "source" cond = VStr name ->
         ~ In name ["fehbp_address"; "group_details"; "account_type"] ->
         result = Ok false).
Proof.
  cbv zeta. intros Hs Hop. split; [|split; [|split]].
  - intros Hn. rewrite (source_leaf_filled _ _ _ _ Hs Hop Hn).
    unfold DataSourceResolver.resolve_all, DataSourceResolver._resolve_fehbp.
    cbn [RuleEngine.source_get String.eqb Ascii.eqb Bool.eqb].
    now destruct (py_eq _ _ || truthy _).
  - intros Hn. rewrite (source_leaf_filled _ _ _ _ Hs Hop Hn).
    unfold DataSourceResolver.resolve_all, DataSourceResolver._resolve_group_details.
    cbn [RuleEngine.source_get String.eqb Ascii.eqb Bool.eqb].
    destruct (truthy (dict_get_default "IsASO" context (VBool false)));
      [reflexivity|].
    now destruct (py_eq _ _).
  - intros Hn. rewrite (source_leaf_filled _ _ _ _ Hs Hop Hn).
    unfold DataSourceResolver.resolve_all, DataSourceResolver._resolve_account_type.
    cbn [RuleEngine.source_get String.eqb Ascii.eqb Bool.eqb].
    unfold py_in. cbn [existsb].
    destruct (py_eq (dict_get_default "account_type" context (VStr "")) (VStr "SHBP"));
      [reflexivity|].
    destruct (py_eq (dict_get_default "account_type" context (VStr ""))
                (VStr "National")); [reflexivity|].
    destruct (py_eq (dict_get_default "account_type" context (VStr ""))
                (VStr "FEHBP")); [reflexivity|].
    cbn [orb].
    now destruct (py_eq (dict_get_default "account_type" context (VStr ""))
                    (VStr "Individual")
                  || (py_eq (dict_get_default "account_type" context (VStr ""))
                        (VStr "Exchange") || false)).
  - intros name Hn Hnot. rewrite (source_leaf_filled _ _ _ _ Hs Hop Hn).
    unfold DataSourceResolver.resolve_all. cbn [RuleEngine.source_get].
    destruct (String.eqb_spec name "fehbp_address") as [->|_];
      [exfalso; apply Hnot; now left|].
    destruct (String.eqb_spec name "group_details") as [->|_];
      [exfalso; apply Hnot; right; now left|].
    destruct (String.eqb_spec name "account_type") as [->|_];
      [exfalso; apply Hnot; right; right; now left|].
    reflexivity.
Qed.

Lemma X19_source_leaf_on_resolved_witness :
  RuleEngine._evaluate_condition
    [("source", VStr "group_details"); ("op", VStr "is_not_empty")]
    [("IsASO", VBool true)]
    (DataSourceResolver.resolve_all [("IsASO", VBool true)])
  = Ok true.
Proof.
  destruct (X19_source_leaf_on_resolved
              [("source", VStr "group_details"); ("op", VStr "is_not_empty")]
              [("IsASO", VBool true)] eq_refl eq_refl) as (_ & H & _).
  exact (H eq_refl).
Defined.

(** X20. The placeholder [{{fehbp_address.MailingAddress}}], resolved
    against the results of [resolve_all] for the same context, is the FEHBP
    mailing address when the account is FEHBP or has an FEHBP address;
    otherwise the source gives nothing and the context is asked, first for
    the whole token, then for [MailingAddress], before the token is put in
    square brackets. *)
Theorem X20_fehbp_address_placeholder
        (repr_compound : value -> string) (context : dict) :
  MessageResolver.replace_placeholder repr_compound context
    (DataSourceResolver.resolve_all context) " fehbp_address.MailingAddress "
  = if py_eq (dict_get_default "account_type" context (VStr "")) (VStr "FEHBP")
       || truthy (dict_get_default "has_fehbp_address" context (VBool false))
    then DataSourceResolver.fehbp_mailing_address
    else
      MessageResolver.or_else
        (MessageResolver.context_str repr_compound context
           "fehbp_address.MailingAddress")
        (MessageResolver.or_else
           (MessageResolver.context_str repr_compound context "MailingAddress")
           "[fehbp_address.MailingAddress]").
Proof.
  unfold MessageResolver.replace_placeholder.
  change (PyStr.strip " fehbp_address.MailingAddress ")
    with "fehbp_address.MailingAddress".
  change (PyStr.contains "." "fehbp_address.MailingAddress") with true.
  change (PyStr.split_max "." 1 "fehbp_address.MailingAddress")
    with ["fehbp_address"; "MailingAddress"].
  cbv iota. cbn [nth last].
  unfold DataSourceResolver.resolve_all, DataSourceResolver._resolve_fehbp.
  cbn [RuleEngine.source_get String.eqb Ascii.eqb Bool.eqb].
  destruct (py_eq _ _ || truthy _).
  - reflexivity.
  - cbn [dict_get_default dict_get truthy String.eqb negb].
    destruct (MessageResolver.context_str repr_compound context
                "fehbp_address.MailingAddress"); [reflexivity|].
    cbn [MessageResolver.or_else].
    now destruct (MessageResolver.context_str repr_compound context
                    "MailingAddress").
Qed.

(* ================================================================== *)
(** ** The keyword extraction *)

Lemma dict_get_set (k k' : string) (v : value) (d : dict) :
  dict_get k (ContextExtractor.dict_set k' v d)
  = if String.eqb k k' then Some v else dict_get k d.
Proof.
  induction d as [|[k0 v0] d IH]; simpl.
  - reflexivity.
  - destruct (String.eqb_spec k' k0) as [->|Hne]; simpl.
    + now destruct (String.eqb k k0).
    + destruct (String.eqb_spec k k0) as [->|Hk].
      * apply String.eqb_neq in Hne. rewrite String.eqb_sym in Hne.
        now rewrite Hne.
      * exact IH.
Qed.

Lemma dict_set_keys (k k0 : string) (v : value) (d : dict) :
  In k0 (map fst (ContextExtractor.dict_set k v d)) <-> k0 = k \/ In k0 (map fst d).
Proof.
  induction d as [|[k1 v1] d IH]; simpl; [intuition|].
  destruct (String.eqb_spec k k1) as [->|Hne]; simpl; [intuition|].
  rewrite IH. intuition.
Qed.

Lemma dict_set_nodup (k : string) (v : value) (d : dict) :
  NoDup (map fst d) -> NoDup (map fst (ContextExtractor.dict_set k v d)).
Proof.
  induction d as [|[k1 v1] d IH]; simpl; intros H.
  - repeat constructor. intros [].
  - inversion H as [|? ? Hnotin Hnd]; subst.
    destruct (String.eqb_spec k k1) as [->|Hne]; simpl.
    + now constructor.
    + constructor; [|now apply IH].
      rewrite dict_set_keys. intros [E|Hin]; [now apply Hne | contradiction].
Qed.

Ltac untouched Hk :=
  split_ifs;
  rewrite ?dict_get_set;
  repeat match goal with
         | |- context [String.eqb ?k ?x] =>
             replace (String.eqb k x) with false
               by (symmetry; apply String.eqb_neq; intros ->; apply Hk;
                   simpl; tauto)
         end;
  reflexivity.

Ltac keeps_nodup :=
  split_ifs;
  repeat apply dict_set_nodup; assumption.

Section Steps.

Variable has : string -> bool.

Lemma customer_type_other (k : string) (context : dict) :
  ~ In k ["HCCustomerType"; "ParentName"] ->
  dict_get k (ContextExtractor.customer_type has context) = dict_get k context.
Proof. intros Hk. unfold ContextExtractor.customer_type. untouched Hk. Qed.

Lemma account_type_other (k : string) (context : dict) :
  ~ In k ["has_fehbp_address"; "account_type"; "Policy.BusinessUnit";
          "Policy.MBUCode"] ->
  dict_get k (ContextExtractor.account_type has context) = dict_get k context.
Proof. intros Hk. unfold ContextExtractor.account_type. untouched Hk. Qed.

Lemma funding_type_other (k : string) (context : dict) :
  ~ In k ["IsASO"; "funding_type"] ->
  dict_get k (ContextExtractor.funding_type has context) = dict_get k context.
Proof. intros Hk. unfold ContextExtractor.funding_type. untouched Hk. Qed.

Lemma expedited_other (k : string) (context : dict) :
  ~ In k ["IsVAExpedited"] ->
  dict_get k (ContextExtractor.expedited has context) = dict_get k context.
Proof. intros Hk. unfold ContextExtractor.expedited. untouched Hk. Qed.

Lemma written_or_verbal_other (k : string) (context : dict) :
  ~ In k ["IsGandAInWritingAllowed"; "is_written_request";
          "IsVerbalGandAAllowed"] ->
  dict_get k (ContextExtractor.written_or_verbal has context) = dict_get k context.
Proof. intros Hk. unfold ContextExtractor.written_or_verbal. untouched Hk. Qed.

Lemma request_type_other (k : string) (context : dict) :
  ~ In k ["request_type"] ->
  dict_get k (ContextExtractor.request_type has context) = dict_get k context.
Proof. intros Hk. unfold ContextExtractor.request_type. untouched Hk. Qed.

Lemma customer_type_nodup (context : dict) :
  NoDup (map fst context) ->
  NoDup (map fst (ContextExtractor.customer_type has context)).
Proof. intros H. unfold ContextExtractor.customer_type. keeps_nodup. Qed.

Lemma account_type_nodup (context : dict) :
  NoDup (map fst context) ->
  NoDup (map fst (ContextExtractor.account_type has context)).
Proof. intros H. unfold ContextExtractor.account_type. keeps_nodup. Qed.

Lemma funding_type_nodup (context : dict) :
  NoDup (map fst context) ->
  NoDup (map fst (ContextExtractor.funding_type has context)).
Proof. intros H. unfold ContextExtractor.funding_type. keeps_nodup. Qed.

Lemma expedited_nodup (context : dict) :
  NoDup (map fst context) ->
  NoDup (map fst (ContextExtractor.expedited has context)).
Proof. intros H. unfold ContextExtractor.expedited. keeps_nodup. Qed.

Lemma written_or_verbal_nodup (context : dict) :
  NoDup (map fst context) ->
  NoDup (map fst (ContextExtractor.written_or_verbal has context)).
Proof. intros H. unfold ContextExtractor.written_or_verbal. keeps_nodup. Qed.

Lemma request_type_nodup (context : dict) :
  NoDup (map fst context) ->
  NoDup (map fst (ContextExtractor.request_type has context)).
Proof. intros H. unfold ContextExtractor.request_type. keeps_nodup. Qed.

End Steps.

Lemma state_loop_other (msg_lower : string) (states : list (string * string))
      (k : string) (context : dict) :
  k <> "Policy.PolicyState" ->
  dict_get k (ContextExtractor.state_loop msg_lower states context)
  = dict_get k context.
Proof.
  intros Hk. induction states as [|[name code] states IH]; simpl; [reflexivity|].
  destruct (_ || _); [|exact IH].
  rewrite dict_get_set. apply String.eqb_neq in Hk. now rewrite Hk.
Qed.

Lemma state_loop_nodup (msg_lower : string) (states : list (string * string))
      (context : dict) :
  NoDup (map fst context) ->
  NoDup (map fst (ContextExtractor.state_loop msg_lower states context)).
Proof.
  intros H. induction states as [|[name code] states IH]; simpl; [exact H|].
  destruct (_ || _); [now apply dict_set_nodup | exact IH].
Qed.

Lemma state_loop_first (msg_lower : string) (states : list (string * string))
      (context : dict) :
  dict_get "Policy.PolicyState"
    (ContextExtractor.state_loop msg_lower states context)
  = match find (mentions_state msg_lower) states with
    | Some entry => Some (VStr (snd entry))
    | None => dict_get "Policy.PolicyState" context
    end.
Proof.
  induction states as [|[name code] states IH]; simpl; [reflexivity|].
  unfold mentions_state at 1. cbn [fst snd].
  destruct (_ || _); [|exact IH].
  now rewrite dict_get_set, String.eqb_refl.
Qed.

Ltac skip_step lemma :=
  rewrite lemma by (simpl; intuition discriminate).

(** The entries of the fallback context that the data sources read. *)
Lemma fallback_entries (msg : string) :
  let has := fun keyword => PyStr.contains keyword (PyStr.lower msg) in
  let context := ContextExtractor._fallback_extract msg in
  let fehbp := has "fehbp" || has "federal employee" in
  let aso := has "aso" || has "self-funded" || has "self funded" in
  dict_get "account_type" context
  = (if fehbp then Some (VStr "FEHBP")
     else if has "shbp" || has "state health benefit" then Some (VStr "SHBP")
     else if has "national" then Some (VStr "National")
     else if has "individual" || has "exchange" || has "marketplace"
          then Some (VStr "Individual")
     else None)
  /\ dict_get "has_fehbp_address" context
     = (if fehbp then Some (VBool true) else None)
  /\ dict_get "IsASO" context = Some (VBool aso)
  /\ dict_get "funding_type" context
     = (if aso then None
        else if has "fully insured" then Some (VStr "Fully Insured") else None).
Proof.
  cbv zeta. unfold ContextExtractor._fallback_extract. cbv zeta.
  repeat split.
  - skip_step request_type_other. skip_step written_or_verbal_other.
    skip_step expedited_other. skip_step funding_type_other.
    unfold ContextExtractor.account_type; cbv beta.
    split_ifs;
      rewrite ?dict_get_set; cbn [String.eqb Ascii.eqb Bool.eqb];
      try reflexivity.
    rewrite state_loop_other by discriminate.
    unfold ContextExtractor.customer_type; cbv beta; cbv beta.
    split_ifs; reflexivity.
  - skip_step request_type_other. skip_step written_or_verbal_other.
    skip_step expedited_other. skip_step funding_type_other.
    unfold ContextExtractor.account_type; cbv beta.
    split_ifs;
      rewrite ?dict_get_set; cbn [String.eqb Ascii.eqb Bool.eqb];
      try reflexivity;
      rewrite state_loop_other by discriminate;
      unfold ContextExtractor.customer_type; cbv beta;
      split_ifs; reflexivity.
  - skip_step request_type_other. skip_step written_or_verbal_other.
    skip_step expedited_other.
    unfold ContextExtractor.funding_type; cbv beta.
    split_ifs;
      rewrite ?dict_get_set; cbn [String.eqb Ascii.eqb Bool.eqb]; reflexivity.
  - skip_step request_type_other. skip_step written_or_verbal_other.
    skip_step expedited_other.
    unfold ContextExtractor.funding_type; cbv beta.
    split_ifs;
      rewrite ?dict_get_set; cbn [String.eqb Ascii.eqb Bool.eqb];
      try reflexivity;
      skip_step account_type_other;
      rewrite state_loop_other by discriminate;
      unfold ContextExtractor.customer_type; cbv beta;
      split_ifs; reflexivity.
Qed.

Ltac by_keywords :=
  repeat match goal with
         | |- context [PyStr.contains ?k ?m] => destruct (PyStr.contains k m)
         end.

(** X21. Whatever the message, the context the keyword extraction builds
    has no key twice, always tells the customer type ([Broker], [Provider]
    or [Member]), [IsASO] as a boolean and the request type ([both],
    [appeal] or [grievance]); it has [has_fehbp_address] (true) exactly
    when its [account_type] is [FEHBP], and a [funding_type] only together
    with [IsASO] false. *)
Theorem X21_fallback_context (msg : string) :
  let context := ContextExtractor._fallback_extract msg in
  NoDup (map fst context)
  /\ (exists t, dict_get "HCCustomerType" context = Some (VStr t)
                /\ In t ["Broker"; "Provider"; "Member"])
  /\ (exists b, dict_get "IsASO" context = Some (VBool b))
  /\ (exists r, dict_get "request_type" context = Some (VStr r)
                /\ In r ["both"; "appeal"; "grievance"])
  /\ (dict_get "has_fehbp_address" context = Some (VBool true)
      <-> dict_get "account_type" context = Some (VStr "FEHBP"))
  /\ (dict_has "has_fehbp_address" context = true
      <-> dict_get "account_type" context = Some (VStr "FEHBP"))
  /\ (dict_has "funding_type" context = true ->
      dict_get "IsASO" context = Some (VBool false)).
Proof.
  cbv zeta.
  destruct (fallback_entries msg) as (Hacc & Hfehbp & Haso & Hfund).
  cbv zeta in Hacc, Hfehbp, Haso, Hfund.
  split; [|split; [|split; [|split; [|split; [|split]]]]].
  - unfold ContextExtractor._fallback_extract. cbv zeta.
    apply request_type_nodup, written_or_verbal_nodup, expedited_nodup,
      funding_type_nodup, account_type_nodup, state_loop_nodup,
      customer_type_nodup.
    constructor.
  - unfold ContextExtractor._fallback_extract. cbv zeta.
    skip_step request_type_other. skip_step written_or_verbal_other.
    skip_step expedited_other. skip_step funding_type_other.
    skip_step account_type_other. rewrite state_loop_other by discriminate.
    unfold ContextExtractor.customer_type; cbv beta.
    split_ifs;
      rewrite ?dict_get_set; cbn [String.eqb Ascii.eqb Bool.eqb];
      eexists; (split; [reflexivity | simpl; tauto]).
  - rewrite Haso. now eexists.
  - unfold ContextExtractor._fallback_extract. cbv zeta.
    unfold ContextExtractor.request_type; cbv beta.
    split_ifs;
      rewrite ?dict_get_set; cbn [String.eqb Ascii.eqb Bool.eqb];
      eexists; (split; [reflexivity | simpl; tauto]).
  - rewrite Hacc, Hfehbp.
    split_ifs; split; intros H; (reflexivity || (cbv in H; discriminate H)).
  - unfold dict_has. rewrite Hacc, Hfehbp.
    split_ifs; split; intros H; (reflexivity || (cbv in H; discriminate H)).
  - unfold dict_has. rewrite Haso, Hfund.
    split_ifs; intros H; (reflexivity || (cbv in H; discriminate H)).
Qed.

(** X22. The keyword extraction followed by the data-source resolver: the
    FEHBP address is resolved exactly for a message that mentions [fehbp]
    or [federal employee]; the funding code is [A] for a message that
    mentions [aso], [self-funded] or [self funded], else [E] for one that
    mentions [fully insured], else empty; and the account type follows the
    first of the account keywords found, in the order FEHBP, SHBP,
    National, Individual.  Letter case in the message plays no part. *)
Theorem X22_fallback_data_sources (msg : string) :
  let has := fun keyword => PyStr.contains keyword (PyStr.lower msg) in
  let context := ContextExtractor._fallback_extract msg in
  let fehbp := has "fehbp" || has "federal employee" in
  Chat.resolved_flags (DataSourceResolver.resolve_all context)
  = [("fehbp_address", fehbp); ("group_details", true); ("account_type", true)]
  /\ DataSourceResolver._resolve_group_details context
     = [("FundingTypeCode",
         VStr (if has "aso" || has "self-funded" || has "self funded" then "A"
               else if has "fully insured" then "E" else ""))]
  /\ DataSourceResolver._resolve_account_type context
     = [("AccountType",
         VStr (if fehbp then "FEHBP"
               else if has "shbp" || has "state health benefit" then "SHBP"
               else if has "national" then "National"
               else if has "individual" || has "exchange" || has "marketplace"
                    then "Individual"
               else ""))]
  /\ ContextExtractor._fallback_extract (PyStr.lower msg) = context.
Proof.
  cbv zeta.
  destruct (fallback_entries msg) as (Hacc & Hfehbp & Haso & Hfund).
  cbv zeta in Hacc, Hfehbp, Haso, Hfund.
  split; [|split; [|split]].
  - rewrite resolved_flags_of_context. unfold dict_get_default.
    rewrite Hacc, Hfehbp. by_keywords; reflexivity.
  - unfold DataSourceResolver._resolve_group_details, dict_get_default.
    rewrite Haso, Hfund. by_keywords; reflexivity.
  - unfold DataSourceResolver._resolve_account_type, dict_get_default.
    rewrite Hacc. by_keywords; reflexivity.
  - unfold ContextExtractor._fallback_extract. cbv zeta.
    now rewrite lower_idem.
Qed.

(** X23. The state is the code of the first entry of [state_map], in the
    order of the map, that the message mentions, by the state's name
    anywhere or by its code as a word between spaces; where in the message
    it stands plays no part, so [virginia] wins over every other state
    named beside it.  A message that mentions no entry gets no
    [Policy.PolicyState]. *)
Theorem X23_state_by_map_order (msg : string) :
  let context := ContextExtractor._fallback_extract msg in
  dict_get "Policy.PolicyState" context
  = option_map (fun entry => VStr (snd entry))
      (find (mentions_state (PyStr.lower msg)) ContextExtractor.state_map)
  /\ (PyStr.contains "virginia" (PyStr.lower msg) = true ->
      dict_get "Policy.PolicyState" context = Some (VStr "VA")).
Proof.
  cbv zeta.
  assert (H : dict_get "Policy.PolicyState" (ContextExtractor._fallback_extract msg)
              = option_map (fun entry => VStr (snd entry))
                  (find (mentions_state (PyStr.lower msg))
                        ContextExtractor.state_map)).
  { unfold ContextExtractor._fallback_extract. cbv zeta.
    skip_step request_type_other. skip_step written_or_verbal_other.
    skip_step expedited_other. skip_step funding_type_other.
    skip_step account_type_other. rewrite state_loop_first.
    destruct (find _ _); [reflexivity|].
    now skip_step customer_type_other. }
  split; [exact H|].
  intros Hva. rewrite H. unfold ContextExtractor.state_map.
  cbn [find]. unfold mentions_state at 1. cbn [fst snd]. now rewrite Hva.
Qed.

Lemma X23_state_by_map_order_witness :
  dict_get "Policy.PolicyState"
    (ContextExtractor._fallback_extract "I moved from Texas to Virginia")
  = Some (VStr "VA").
Proof.
  destruct (X23_state_by_map_order "I moved from Texas to Virginia") as [_ H].
  apply H. reflexivity.
Defined.

(* ================================================================== *)
(** ** The chat pipeline *)

Lemma try_rule_origin (depth : nat) (templates : value) (rule : dict)
      (context : dict) (ds : RuleEngine.source_results)
      (m : RuleEngine.MatchResult) :
  RuleEngine.try_rule depth templates rule context ds = Ok (Some m) ->
  m = RuleEngine.parent_match rule
  \/ exists subs sub,
       dict_get_default "sub_rules" rule (VList []) = VList subs
       /\ In (VDict sub) subs
       /\ m = RuleEngine.sub_match rule sub.
Proof.
  unfold RuleEngine.try_rule.
  destruct (RuleEngine._evaluate_block depth templates
              (RuleEngine.conditions_of rule) context ds) as [[|]| |];
    simpl; try discriminate.
  destruct (truthy _); [|intros [= <-]; now left].
  destruct (py_iter _) as [subs| |] eqn:Ei; simpl; try discriminate.
  destruct (RuleEngine.sub_rules_loop depth templates rule subs context ds)
    as [[m'|]| |] eqn:E; simpl; try discriminate.
  - intros [= <-]. apply sub_rules_loop_some in E.
    destruct E as (sub & Hin & ->). right.
    destruct (dict_get_default "sub_rules" rule (VList []))
      as [| | | |s|l|d]; try discriminate.
    + exfalso. injection Ei as Hl. subst subs. apply in_map_iff in Hin.
      destruct Hin as (c & Hc & _). discriminate.
    + injection Ei as Hl. subst subs. now exists l, sub.
    + exfalso. injection Ei as Hl. subst subs. apply in_map_iff in Hin.
      destruct Hin as (c & Hc & _). discriminate.
  - intros [= <-]. now left.
Qed.

Lemma try_rule_ref_hashable (depth : nat) (templates : value) (rule : dict)
      (context : dict) (ds : RuleEngine.source_results)
      (m : RuleEngine.MatchResult) :
  RuleEngine.try_rule depth templates rule context ds = Ok (Some m) ->
  message_refs_hashable rule = true ->
  Admin.hashable m.(RuleEngine.message_ref) = true.
Proof.
  intros Ht Hr. unfold message_refs_hashable in Hr.
  apply andb_true_iff in Hr. destruct Hr as [Hrule Hsubs].
  destruct (try_rule_origin _ _ _ _ _ _ Ht) as [->|(subs & sub & Hs & Hin & ->)].
  - cbn [RuleEngine.parent_match RuleEngine.message_ref].
    unfold dict_get_default in *.
    now destruct (dict_get "message_ref" rule).
  - cbn [RuleEngine.sub_match RuleEngine.message_ref].
    rewrite Hs in Hsubs. rewrite forallb_forall in Hsubs.
    specialize (Hsubs _ Hin). cbn beta iota in Hsubs.
    unfold dict_get_default in Hsubs |- *.
    destruct (dict_get "message_ref" sub); [exact Hsubs | exact Hrule].
Qed.

Lemma try_rule_names_valid (depth : nat) (templates : value) (rule : dict)
      (context : dict) (ds : RuleEngine.source_results)
      (m : RuleEngine.MatchResult) :
  RuleEngine.try_rule depth templates rule context ds = Ok (Some m) ->
  names_valid rule = true ->
  text_or_none m.(RuleEngine.rule_id) = true
  /\ text_or_none m.(RuleEngine.name) = true.
Proof.
  intros Ht Hr. unfold names_valid in Hr.
  apply andb_true_iff in Hr. destruct Hr as [Hr Hsubs].
  apply andb_true_iff in Hr. destruct Hr as [Hid Hname].
  assert (Hparent : text_or_none (RuleEngine.rule_id_of rule) = true).
  { unfold RuleEngine.rule_id_of, dict_get_default.
    now destruct (dict_get "id" rule). }
  assert (Hn : text_or_none (dict_get_default "name" rule (VStr "")) = true).
  { unfold dict_get_default. now destruct (dict_get "name" rule). }
  destruct (try_rule_origin _ _ _ _ _ _ Ht) as [->|(subs & sub & Hs & Hin & ->)].
  - split; [exact Hparent | exact Hn].
  - split; [|exact Hn].
    cbn [RuleEngine.sub_match RuleEngine.rule_id].
    unfold dict_get_default in Hs.
    destruct (dict_get "sub_rules" rule) as [raw|].
    + rewrite Hs in Hsubs. rewrite forallb_forall in Hsubs.
      specialize (Hsubs _ Hin). cbn beta iota in Hsubs.
      unfold dict_get_default.
      destruct (dict_get "id" sub); [exact Hsubs | exact Hparent].
    + injection Hs as <-. destruct Hin.
Qed.

Lemma new_ChatResponse_valid (md html : string) (matched named : value)
      (context : dict) (flags : list (string * bool)) (grade : string) :
  text_or_none matched = true ->
  text_or_none named = true ->
  exists response,
    Models.new_ChatResponse md html matched named context flags grade
    = Ok response
    /\ response.(Models.message) = md
    /\ response.(Models.message_html) = html
    /\ matched = as_value response.(Models.rule_matched)
    /\ named = as_value response.(Models.rule_name)
    /\ response.(Models.extracted_context) = context
    /\ response.(Models.data_sources_resolved) = flags
    /\ response.(Models.confidence) = grade.
Proof.
  destruct matched; try discriminate; destruct named; try discriminate;
    intros _ _; eexists; repeat split.
Qed.

Lemma new_ChatResponse_invalid (md html : string) (matched named : value)
      (context : dict) (flags : list (string * bool)) (grade : string) :
  text_or_none matched = false \/ text_or_none named = false ->
  Models.new_ChatResponse md html matched named context flags grade = Raised.
Proof.
  intros [H|H].
  - destruct matched; try discriminate; reflexivity.
  - destruct named; try discriminate; destruct matched; reflexivity.
Qed.

(** X24. When no [message_ref] of the engine's rules or sub-rules is a
    list or a dict, and the ids and names of the rules and the ids of the
    sub-rules are texts (or [None]) where they are given, [process_evaluate]
    answers every context: it returns a response that carries the context
    it was given and one flag for each of the three data sources, and that
    either carries the id and the name of the match [evaluate] returned,
    with confidence [high], or is the fallback message, without a rule and
    with confidence [none]. *)
Theorem X24_process_evaluate_answers
        (render render_plain : string -> string)
        (repr_compound : value -> string) (depth : nat)
        (rule_engine : RuleEngine.t) (message_resolver : MessageResolver.cache)
        (context : dict) :
  Forall (fun rule => message_refs_hashable rule = true)
         rule_engine.(RuleEngine.rules) ->
  Forall (fun rule => names_valid rule = true)
         rule_engine.(RuleEngine.rules) ->
  exists response,
    Chat.process_evaluate render render_plain repr_compound depth rule_engine
      message_resolver context = Ok response
    /\ response.(Models.extracted_context) = context
    /\ map fst response.(Models.data_sources_resolved)
       = ["fehbp_address"; "group_details"; "account_type"]
    /\ ((exists m,
            RuleEngine.evaluate depth rule_engine context
              (Some (DataSourceResolver.resolve_all context)) = Some m
            /\ m.(RuleEngine.rule_id) = as_value response.(Models.rule_matched)
            /\ m.(RuleEngine.name) = as_value response.(Models.rule_name)
            /\ response.(Models.confidence) = "high")
        \/ (response.(Models.rule_matched) = None
            /\ response.(Models.rule_name) = None
            /\ response.(Models.confidence) = "none"
            /\ response.(Models.message) = Chat.NO_MATCH_MESSAGE)).
Proof.
  intros Hrules Hnames. unfold Chat.process_evaluate.
  destruct (RuleEngine.evaluate depth rule_engine context
              (Some (DataSourceResolver.resolve_all context))) as [m|] eqn:Ee.
  - unfold RuleEngine.evaluate in Ee.
    destruct (evaluate_loop_found _ _ _ _ _ _ Ee)
      as (pre & rule & post & Hsplit & _ & Hrule).
    assert (Hin : In rule (RuleEngine.rules rule_engine))
      by (rewrite Hsplit; apply in_elt).
    rewrite Forall_forall in Hrules, Hnames.
    pose proof (try_rule_ref_hashable _ _ _ _ _ _ Hrule (Hrules rule Hin)) as Hh.
    destruct (try_rule_names_valid _ _ _ _ _ _ Hrule (Hnames rule Hin))
      as [Hid Hname].
    unfold Chat.resolve_ref.
    destruct (RuleEngine.message_ref m) as [| b | z | f | ref | l | d];
      try discriminate; cbn [bind];
      try (eexists; repeat split; right; repeat split).
    destruct (MessageResolver.resolve render repr_compound message_resolver ref
                context (Some (DataSourceResolver.resolve_all context)))
      as [[md html]|].
    + destruct (new_ChatResponse_valid md html _ _ context
                  (Chat.resolved_flags (DataSourceResolver.resolve_all context))
                  "high" Hid Hname)
        as (response & -> & _ & _ & Hm & Hn & Hc & Hf & Hg).
      exists response. split; [reflexivity|]. split; [exact Hc|].
      split; [now rewrite Hf|].
      left. exists m. repeat split; assumption.
    + eexists. split; [reflexivity|]. repeat split. right. repeat split.
  - eexists. repeat split. right. repeat split.
Qed.

Lemma X24_process_evaluate_answers_witness :
  exists response,
    Chat.process_evaluate Sample.no_render Sample.no_render Sample.no_repr 3
      Sample.member_engine Sample.loaded_cache Sample.member_context
    = Ok response.
Proof.
  destruct (X24_process_evaluate_answers Sample.no_render Sample.no_render
              Sample.no_repr 3 Sample.member_engine Sample.loaded_cache
              Sample.member_context) as (response & H & _).
  - repeat constructor.
  - repeat constructor.
  - now exists response.
Defined.

(** X25. How [process_chat] grades a match whose message resolves, where
    [process_evaluate] says [high]: the match comes from a rule of
    [self.rules].  When the id and the name of the match are texts (or
    [None]), [process_evaluate] answers with them, and [process_chat] does
    when the rule has an integer priority: the confidence is [high] below
    50 and [medium] from 50 on; when the rule has no [priority] entry, which
    the engine sorts as 999, the match carries [None] and the comparison
    with 50 raises, so that [process_chat] fails where [process_evaluate]
    answers.  When the id or the name of the match is anything else, the
    response is refused and both fail. *)
Theorem X25_chat_grades_by_priority
        (render render_plain : string -> string)
        (repr_compound : value -> string) (depth : nat)
        (extract : string -> value) (rule_engine : RuleEngine.t)
        (message_resolver : MessageResolver.cache) (user_msg : string)
        (context : dict) (m : RuleEngine.MatchResult) (md html : string) :
  let ds_results := DataSourceResolver.resolve_all context in
  let response := fun matched named grade =>
    {| Models.message := md;
       Models.message_html := html;
       Models.rule_matched := matched;
       Models.rule_name := named;
       Models.extracted_context := context;
       Models.data_sources_resolved := Chat.resolved_flags ds_results;
       Models.confidence := grade |} in
  let chat :=
    Chat.process_chat render render_plain repr_compound depth extract
      rule_engine message_resolver user_msg in
  let evaluated :=
    Chat.process_evaluate render render_plain repr_compound depth rule_engine
      message_resolver context in
  extract user_msg = VDict context ->
  RuleEngine.evaluate depth rule_engine context (Some ds_results) = Some m ->
  Chat.resolve_ref render repr_compound message_resolver
    m.(RuleEngine.message_ref) context ds_results = Ok (Some (md, html)) ->
  exists rule,
    In rule rule_engine.(RuleEngine.rules)
    /\ RuleEngine.try_rule depth rule_engine.(RuleEngine.templates) rule
         context ds_results = Ok (Some m)
    /\ (forall matched named,
          m.(RuleEngine.rule_id) = as_value matched ->
          m.(RuleEngine.name) = as_value named ->
          evaluated = Ok (response matched named "high")
          /\ (forall z,
                dict_get "priority" rule = Some (VInt z) ->
                chat = Ok (response matched named
                             (if Z.ltb z 50 then "high" else "medium")))
          /\ (dict_get "priority" rule = None ->
              RuleEngine.priority_key rule = VInt 999 /\ chat = Raised))
    /\ (text_or_none m.(RuleEngine.rule_id) = false
        \/ text_or_none m.(RuleEngine.name) = false ->
        evaluated = Raised /\ chat = Raised).
Proof.
  cbv zeta. intros Hx He Hr.
  pose proof He as He'. unfold RuleEngine.evaluate in He'.
  destruct (evaluate_loop_found _ _ _ _ _ _ He')
    as (pre & rule & post & Hsplit & _ & Hrule).
  exists rule. split; [rewrite Hsplit; apply in_elt|].
  split; [exact Hrule|].
  pose proof (try_rule_priority _ _ _ _ _ _ Hrule) as Hp.
  unfold Chat.process_chat, Chat.process_evaluate.
  rewrite Hx, He, Hr. cbn [bind]. rewrite Hp.
  unfold RuleEngine.priority_key, dict_get_default. split.
  - intros matched named Hid Hname. rewrite Hid, Hname.
    split; [now destruct matched, named|]. split.
    + intros z ->. cbn [Chat.below_50 py_lt number_of number_ltb bind].
      now destruct matched, named.
    + intros ->. split; reflexivity.
  - intros Hbad. rewrite new_ChatResponse_invalid by exact Hbad.
    split; [reflexivity|].
    destruct (Chat.below_50 _) as [b| |] eqn:Eb; cbn [bind];
      [now apply new_ChatResponse_invalid | reflexivity|].
    unfold Chat.below_50 in Eb.
    destruct (dict_get "priority" rule) as [[| | | | | |]|] in Eb; discriminate.
Qed.

Lemma X25_chat_grades_by_priority_witness :
  Chat.process_chat Sample.no_render Sample.no_render Sample.no_repr 2
    (fun _ => VDict [])
    {| RuleEngine.config := VNone;
       RuleEngine.rules := [[("id", VStr "R"); ("message_ref", VStr "CALL")]];
       RuleEngine.templates := VDict [];
       RuleEngine.data_sources := VDict [] |}
    [("CALL", "Call Member Services.")] "help"
  = Raised
  /\ Chat.process_evaluate Sample.no_render Sample.no_render Sample.no_repr 2
       {| RuleEngine.config := VNone;
          RuleEngine.rules := [[("id", VStr "R"); ("message_ref", VStr "CALL")]];
          RuleEngine.templates := VDict [];
          RuleEngine.data_sources := VDict [] |}
       [("CALL", "Call Member Services.")] []
     = Ok {| Models.message := "Call Member Services.";
             Models.message_html := "Call Member Services.";
             Models.rule_matched := Some "R";
             Models.rule_name := Some "";
             Models.extracted_context := [];
             Models.data_sources_resolved :=
               Chat.resolved_flags (DataSourceResolver.resolve_all []);
             Models.confidence := "high" |}.
Proof.
  destruct (X25_chat_grades_by_priority Sample.no_render Sample.no_render
              Sample.no_repr 2 (fun _ => VDict [])
              {| RuleEngine.config := VNone;
                 RuleEngine.rules :=
                   [[("id", VStr "R"); ("message_ref", VStr "CALL")]];
                 RuleEngine.templates := VDict [];
                 RuleEngine.data_sources := VDict [] |}
              [("CALL", "Call Member Services.")] "help" []
              (RuleEngine.parent_match [("id", VStr "R"); ("message_ref", VStr "CALL")])
              "Call Member Services." "Call Member Services."
              eq_refl eq_refl eq_refl)
    as (rule & Hin & _ & H & _).
  destruct Hin as [<-|[]].
  destruct (H (Some "R") (Some "") eq_refl eq_refl) as (He & _ & Hc).
  split; [now apply Hc | exact He].
Defined.

(* ================================================================== *)
(** ** Validation of a rule file *)

Section Validation.

Variable repr_compound : value -> string.

Let validate_loop := Admin.validate_loop repr_compound.

Lemma missing_key_nil (rid : value) (key : string) (rule : dict) :
  Admin.missing_key repr_compound rid key rule = [] <-> dict_has key rule = true.
Proof.
  unfold Admin.missing_key. destruct (dict_has key rule); split;
    (reflexivity || discriminate).
Qed.

Lemma check_id_nil (i : nat) (rid : value) (ids ids' : list value) :
  Admin.check_id repr_compound i rid ids = Ok ([], ids')
  <-> truthy rid = true /\ Admin.hashable rid = true /\ py_in rid ids = false
      /\ ids' = rid :: ids.
Proof.
  unfold Admin.check_id.
  destruct (truthy rid); cbn [negb].
  2: split; [discriminate | intros (H & _); discriminate].
  destruct (Admin.hashable rid); cbn [negb].
  2: split; [discriminate | intros (_ & H & _); discriminate].
  destruct (py_in rid ids).
  - split; [discriminate | intros (_ & _ & H & _); discriminate].
  - split; [intros [= <-]; auto | intros (_ & _ & _ & ->); reflexivity].
Qed.

Lemma validate_loop_nil (rules : list value) (i : nat) (ids : list value) :
  validate_loop i ids rules = Ok []
  <-> Forall (fun rule => complete_rule rule = true) rules
      /\ Forall (fun rule => py_in (id_of rule) ids = false) rules
      /\ ForallOrdPairs (fun earlier later =>
                           py_eq (id_of later) (id_of earlier) = false) rules.
Proof.
  unfold validate_loop. revert i ids.
  induction rules as [|rule rules IH]; intros i ids.
  - simpl. split; [intros _; repeat constructor | reflexivity].
  - assert (Hnot : forall r, (forall d, r <> VDict d) ->
                             complete_rule r = false)
      by (intros r Hr; destruct r; try reflexivity; now contradiction (Hr d)).
    destruct rule as [| b | z | f | s | l | rule];
      try (cbn [Admin.validate_loop];
           split;
           [ destruct (Admin.validate_loop repr_compound (S i) ids rules);
             discriminate
           | intros (Hc & _); inversion Hc; discriminate ]).
    cbn [Admin.validate_loop].
    set (rid := dict_get_default "id" rule VNone).
    destruct (Admin.check_id repr_compound i rid ids) as [[errs ids']| |] eqn:Ec;
      cbn [bind fst snd].
    2-3: split; [discriminate|];
         intros (Hc & Hi & _); inversion Hc as [|? ? Hr _]; subst;
         inversion Hi as [|? ? Hn _]; subst;
         unfold complete_rule in Hr; cbn [id_of] in Hr, Hn; fold rid in Hr, Hn;
         rewrite !andb_true_iff in Hr; destruct Hr as [[[[Ht Hh] _] _] _];
         assert (E : Admin.check_id repr_compound i rid ids = Ok ([], rid :: ids))
           by (apply check_id_nil; auto);
         rewrite E in Ec; discriminate.
    destruct (Admin.validate_loop repr_compound (S i) ids' rules)
      as [later| |] eqn:El; cbn [bind].
    2-3: split; [discriminate|];
         intros (Hc & Hi & Ho); inversion Hc as [|? ? Hr Hc']; subst;
         inversion Hi as [|? ? Hn Hi']; subst;
         inversion Ho as [|? ? Hf Ho']; subst;
         unfold complete_rule in Hr; cbn [id_of] in Hr, Hn, Hf; fold rid in Hr, Hn, Hf;
         rewrite !andb_true_iff in Hr; destruct Hr as [[[[Ht Hh] _] _] _];
         assert (E : Admin.check_id repr_compound i rid ids = Ok ([], rid :: ids))
           by (apply check_id_nil; auto);
         rewrite E in Ec; injection Ec as <- <-;
         assert (El' : Admin.validate_loop repr_compound (S i) (rid :: ids) rules
                       = Ok []);
         [ apply IH; split; [exact Hc'|]; split; [|exact Ho'];
           rewrite Forall_forall in *; intros r Hr;
           unfold py_in; cbn [existsb];
           rewrite (Hf r Hr); exact (Hi' r Hr)
         | rewrite El' in El; discriminate ].
    split.
    + intros [= H].
      apply app_eq_nil in H. destruct H as [He H].
      apply app_eq_nil in H. destruct H as [H1 H].
      apply app_eq_nil in H. destruct H as [H2 H].
      apply app_eq_nil in H. destruct H as [H3 ->].
      subst errs. apply check_id_nil in Ec.
      destruct Ec as (Ht & Hh & Hn & ->).
      apply missing_key_nil in H1, H2, H3.
      apply IH in El. destruct El as (Hc & Hi & Ho).
      split; [|split].
      * constructor; [|exact Hc]. unfold complete_rule. cbn [id_of]. fold rid.
        now rewrite Ht, Hh, H1, H2, H3.
      * constructor; [exact Hn|].
        rewrite Forall_forall in *. intros r Hr. specialize (Hi r Hr).
        unfold py_in in Hi. cbn [existsb] in Hi.
        now apply orb_false_iff in Hi.
      * constructor; [|exact Ho].
        rewrite Forall_forall in *. intros r Hr. specialize (Hi r Hr).
        unfold py_in in Hi. cbn [existsb] in Hi.
        now apply orb_false_iff in Hi.
    + intros (Hc & Hi & Ho). inversion Hc as [|? ? Hr Hc']; subst.
      inversion Hi as [|? ? Hn Hi']; subst.
      inversion Ho as [|? ? Hf Ho']; subst.
      unfold complete_rule in Hr. cbn [id_of] in Hr, Hn, Hf. fold rid in Hr, Hn, Hf.
      rewrite !andb_true_iff in Hr. destruct Hr as [[[[Ht Hh] H1] H2] H3].
      assert (E : Admin.check_id repr_compound i rid ids = Ok ([], rid :: ids))
        by (apply check_id_nil; auto).
      rewrite E in Ec. injection Ec as <- <-.
      assert (El' : Admin.validate_loop repr_compound (S i) (rid :: ids) rules
                    = Ok []).
      { apply IH. split; [exact Hc'|]. split; [|exact Ho'].
        rewrite Forall_forall in *. intros r Hr.
        unfold py_in. cbn [existsb]. rewrite (Hf r Hr). exact (Hi' r Hr). }
      rewrite El' in El. injection El as <-.
      rewrite (proj2 (missing_key_nil rid "conditions" rule) H1).
      rewrite (proj2 (missing_key_nil rid "message_ref" rule) H2).
      rewrite (proj2 (missing_key_nil rid "priority" rule) H3).
      reflexivity.
Qed.


Lemma active_rules_complete (rules : list value) :
  Forall (fun rule => complete_rule rule = true) rules ->
  exists declared,
    RuleEngine.active_rules rules = Ok declared
    /\ Forall (fun r => In (VDict r) rules) declared.
Proof.
  induction 1 as [|rule rules Hr _ (declared & Hd & Hin)]; simpl.
  - exists []. split; [reflexivity | constructor].
  - destruct rule as [| | | | | |r]; try discriminate.
    rewrite Hd. cbn [bind].
    assert (Hin' : Forall (fun r0 => VDict r = VDict r0 \/ In (VDict r0) rules)
                          declared)
      by (eapply Forall_impl; [|exact Hin]; intros; now right).
    destruct (truthy _); eexists; (split; [reflexivity|]); [|exact Hin'].
    constructor; [now left | exact Hin'].
Qed.

Lemma integer_keys_sorted (rs : list dict) :
  Forall (fun r => integer_priority (VDict r) = true) rs ->
  exists sorted, RuleEngine.sorted_by_priority rs = Ok sorted.
Proof.
  rewrite Forall_forall. intros H.
  apply py_sorted_total. intros x y Hx Hy.
  assert (Hk : forall r, In r rs -> is_integer (RuleEngine.priority_key r) = true).
  { intros r Hr. specialize (H r Hr). unfold integer_priority in H.
    unfold RuleEngine.priority_key, dict_get_default.
    destruct (dict_get "priority" r) as [[| | | | | |]|]; try discriminate;
      reflexivity. }
  destruct (integer_lt _ _ (Hk y Hy) (Hk x Hx)) as (a & b & _ & _ & ->).
  now eexists.
Qed.

(** X27. A rule file the validation accepts whose priorities are integers
    can be loaded: [__init__] (and so [reload]) goes through on it, and
    every rule the engine then holds is one of the file's complete rules,
    so that none of the defaults [evaluate] has for a missing [id],
    [conditions] or [message_ref] is ever used. *)
Theorem X27_validated_file_loads (config : value) (rules : list value) :
  Admin._validate_rules_config repr_compound config = Ok [] ->
  py_get config (VStr "rules") (VList []) = Ok (VList rules) ->
  Forall (fun rule => integer_priority rule = true) rules ->
  exists self,
    RuleEngine.__init__ (Some config) = Ok self
    /\ Forall (fun r => In (VDict r) rules /\ complete_rule (VDict r) = true)
              self.(RuleEngine.rules).
Proof.
  intros Hv Hg Hp. unfold Admin._validate_rules_config in Hv.
  destruct config as [| | | | | |c]; try discriminate.
  destruct (dict_get "rules" c) as [[| | | | |rules'|]|] eqn:Hr; try discriminate.
  apply (validate_loop_nil rules' 0 []) in Hv. destruct Hv as (Hc & _).
  cbn [py_get] in Hg. unfold dict_get_default in Hg. rewrite Hr in Hg.
  injection Hg as Hg. subst rules'.
  destruct (active_rules_complete rules Hc) as (declared & Hd & Hin).
  assert (Hint : Forall (fun r => integer_priority (VDict r) = true) declared).
  { rewrite Forall_forall in *. intros r Hr'. apply Hp. now apply Hin. }
  destruct (integer_keys_sorted declared Hint) as (sorted & Hk).
  unfold RuleEngine.__init__, RuleEngine.build_rules.
  cbn [py_get]. unfold dict_get_default at 1. rewrite Hr.
  cbn [bind py_iter]. rewrite Hd. cbn [bind].
  rewrite Hk. cbn [bind].
  eexists. split; [reflexivity|]. cbn [RuleEngine.rules].
  rewrite Forall_forall in *. intros r Hr'.
  apply (proj1 (py_sorted_In _ _ _ _ Hk)) in Hr'. split; [now apply Hin|].
  apply Hc. now apply Hin.
Qed.

End Validation.

Lemma X27_validated_file_loads_witness :
  exists self,
    RuleEngine.__init__
      (Some (VDict [("rules",
                     VList [VDict [("id", VStr "R"); ("conditions", VDict []);
                                   ("message_ref", VStr "CALL");
                                   ("priority", VInt 10)]])]))
    = Ok self.
Proof.
  assert (Hv : Admin._validate_rules_config Sample.no_repr
                 (VDict [("rules",
                          VList [VDict [("id", VStr "R"); ("conditions", VDict []);
                                        ("message_ref", VStr "CALL");
                                        ("priority", VInt 10)]])])
               = Ok []) by (vm_compute; reflexivity).
  destruct (X27_validated_file_loads Sample.no_repr _
              [VDict [("id", VStr "R"); ("conditions", VDict []);
                      ("message_ref", VStr "CALL"); ("priority", VInt 10)]]
              Hv eq_refl) as (self & H & _).
  - repeat constructor.
  - now exists self.
Defined.

Section Endpoint.

Variable repr_compound : value -> string.

(** Every error the loop over the rules appends speaks of a rule. *)
Lemma validate_loop_errors (rules : list value) (i : nat) (ids : list value)
      (errs : list string) :
  Admin.validate_loop repr_compound i ids rules = Ok errs ->
  Forall (fun e => exists rest,
              e = ("Rule " ++ rest)%string
              \/ e = ("Duplicate rule id: " ++ rest)%string)
         errs.
Proof.
  revert i ids errs. induction rules as [|rule rules IH]; intros i ids errs.
  - intros [= <-]. constructor.
  - assert (Hother :
              (later <- Admin.validate_loop repr_compound (S i) ids rules ;;
               Ok (("Rule #" ++ Admin.nat_str i ++ " is not an object")%string
                   :: later)) = Ok errs ->
              Forall (fun e => exists rest,
                          e = ("Rule " ++ rest)%string
                          \/ e = ("Duplicate rule id: " ++ rest)%string) errs).
    { destruct (Admin.validate_loop repr_compound (S i) ids rules)
        as [later| |] eqn:El; cbn [bind]; try discriminate.
      intros [= <-]. constructor; [|now apply (IH (S i) ids)].
      eexists. left. reflexivity. }
    destruct rule as [| b | z | f | s | l | rule]; try exact Hother.
    clear Hother. cbn [Admin.validate_loop].
    destruct (Admin.check_id repr_compound i (dict_get_default "id" rule VNone) ids)
      as [[found ids']| |] eqn:Ec; cbn [bind fst snd]; try discriminate.
    destruct (Admin.validate_loop repr_compound (S i) ids' rules)
      as [later| |] eqn:El; cbn [bind]; try discriminate.
    intros [= <-].
    assert (Hkey : forall key,
               Forall (fun e => exists rest,
                           e = ("Rule " ++ rest)%string
                           \/ e = ("Duplicate rule id: " ++ rest)%string)
                      (Admin.missing_key repr_compound
                         (dict_get_default "id" rule VNone) key rule)).
    { intros key. unfold Admin.missing_key.
      destruct (dict_has key rule); constructor; [|constructor].
      eexists. left. reflexivity. }
    apply Forall_app. split.
    { unfold Admin.check_id in Ec.
      destruct (negb (truthy (dict_get_default "id" rule VNone))).
      - injection Ec as <- _. constructor; [|constructor].
        eexists. left. reflexivity.
      - destruct (negb (Admin.hashable (dict_get_default "id" rule VNone)));
          [discriminate|].
        destruct (py_in (dict_get_default "id" rule VNone) ids);
          injection Ec as <- _; [|constructor].
        constructor; [|constructor]. eexists. right. reflexivity. }
    apply Forall_app. split; [apply Hkey|].
    apply Forall_app. split; [apply Hkey|].
    apply Forall_app. split; [apply Hkey|].
    now apply (IH (S i) ids').
Qed.

(** X28. The endpoint [validate_rules], run on a parsed configuration,
    never delivers the error that the root is no object: for such a root it
    raises, in [_get_warnings], after [_validate_rules_config] has made up
    the error.  When it does return, the configuration is an object; it
    says [valid] exactly when it lists no error; and when it reports that
    [rules] is no array it counts no rules, since a [rules] that is [null],
    a number, a boolean, or a text or an object that is not empty makes it
    raise as well. *)
Theorem X28_validate_rules_endpoint
        (cache : MessageResolver.cache) (config : value)
        (result : Admin.ValidationResult) :
  Admin.validate_rules repr_compound cache config = Ok result ->
  (exists c, config = VDict c)
  /\ ~ In "Root must be a JSON object" result.(Admin.errors)
  /\ (result.(Admin.valid) = true <-> result.(Admin.errors) = [])
  /\ (In "'rules' must be an array" result.(Admin.errors) ->
      result.(Admin.rule_count) = 0).
Proof.
  unfold Admin.validate_rules, Admin._get_warnings.
  destruct config as [| | | | | |c];
    try (destruct (Admin._validate_rules_config repr_compound _); discriminate).
  assert (Hvalid : forall errs : list string,
             Nat.eqb (List.length errs) 0 = true <-> errs = []).
  { intros [|e errs]; split; (reflexivity || discriminate). }
  cbn [Admin._validate_rules_config py_get]. unfold dict_get_default.
  destruct (dict_get "rules" c) as [raw|] eqn:Er.
  - destruct raw as [| b | z | f | s | rules | d].
    all: cbn [bind py_iter]; try discriminate.
    + (* a text *)
      destruct (Admin.missing_templates repr_compound cache _) as [ws| |] eqn:Em;
        cbn [bind]; try discriminate.
      destruct (Admin.priorities_of _) as [ps| |]; cbn [bind]; try discriminate.
      destruct (Admin.duplicate_priorities repr_compound [] ps) as [dup| |];
        cbn [bind Admin.py_len]; try discriminate.
      intros [= <-]. cbn [Admin.errors Admin.valid Admin.rule_count].
      split; [now exists c|]. split; [intros [H|[]]; discriminate|].
      split; [first [apply Hvalid | split; discriminate]|]. intros _.
      destruct s as [|ch s]; [reflexivity | discriminate].
    + (* a list *)
      destruct (Admin.validate_loop repr_compound 0 [] rules) as [errs| |] eqn:Ev;
        cbn [bind]; try discriminate.
      destruct (Admin.missing_templates repr_compound cache rules) as [ws| |];
        cbn [bind]; try discriminate.
      destruct (Admin.priorities_of rules) as [ps| |]; cbn [bind]; try discriminate.
      destruct (Admin.duplicate_priorities repr_compound [] ps) as [dup| |];
        cbn [bind Admin.py_len]; try discriminate.
      intros [= <-]. cbn [Admin.errors Admin.valid Admin.rule_count].
      pose proof (validate_loop_errors _ _ _ _ Ev) as Hrule.
      rewrite Forall_forall in Hrule.
      split; [now exists c|].
      split; [intros H; destruct (Hrule _ H) as [rest [E|E]]; discriminate|].
      split; [first [apply Hvalid | split; discriminate]|].
      intros H; destruct (Hrule _ H) as [rest [E|E]]; discriminate.
    + (* an object *)
      destruct (Admin.missing_templates repr_compound cache _) as [ws| |] eqn:Em;
        cbn [bind]; try discriminate.
      destruct (Admin.priorities_of _) as [ps| |]; cbn [bind]; try discriminate.
      destruct (Admin.duplicate_priorities repr_compound [] ps) as [dup| |];
        cbn [bind Admin.py_len]; try discriminate.
      intros [= <-]. cbn [Admin.errors Admin.valid Admin.rule_count].
      split; [now exists c|]. split; [intros [H|[]]; discriminate|].
      split; [first [apply Hvalid | split; discriminate]|]. intros _.
      destruct (dict_keys d) as [|k ks]; [reflexivity | discriminate].
  - cbn [bind py_iter Admin.missing_templates Admin.priorities_of
           Admin.duplicate_priorities Admin.py_len app List.length].
    intros [= <-]. cbn [Admin.errors Admin.valid Admin.rule_count].
    split; [now exists c|]. split; [intros [H|[]]; discriminate|].
    split; [first [apply Hvalid | split; discriminate] | reflexivity].
Qed.

End Endpoint.

Lemma X28_validate_rules_endpoint_witness :
  exists result,
    Admin.validate_rules Sample.no_repr [] (VDict []) = Ok result
    /\ result.(Admin.rule_count) = 0.
Proof.
  exists {| Admin.valid := false;
            Admin.errors := ["'rules' must be an array"];
            Admin.warnings := [];
            Admin.rule_count := 0 |}.
  split; [reflexivity|].
  destruct (X28_validate_rules_endpoint Sample.no_repr [] (VDict [])
              {| Admin.valid := false;
                 Admin.errors := ["'rules' must be an array"];
                 Admin.warnings := [];
                 Admin.rule_count := 0 |} eq_refl) as (_ & _ & _ & H).
  apply H. now left.
Defined.
